(** * multi-agent-demo: the log-analysis pipeline, embedded and verified

    A shallow embedding of the orchestration code of the repository
    (src/main.py, src/agents/planner.py, src/agents/worker_factory.py,
    src/agents/critique.py, src/agents/judge.py) and the properties its
    specification states about it.

    Conventions of the embedding.
    - A Python [str] is a [string]; a character is a code point below 256.
      Whitespace, digits and lower-casing follow Python on that range.
    - The state handed from node to node is a Python dict: a
      [gmap string value].
    - Failures are explicit: a computation returns [Ok v] or [Raise e],
      together with the trace of what it printed and which collaborators
      it called.
    - The collaborators (text generation, example sink, file system, JSON
      codec, random source) are variables of the sections that use them. *)

From Stdlib Require Import ZArith String Ascii List Lia Permutation.
From stdpp Require Import base gmap strings list fin_maps pretty.

Local Open Scope string_scope.
Local Open Scope list_scope.
Set Warnings "-abstract-large-number".

(** ** Python strings *)

Module PyStr.

(** The newline character, as in the source's ["\n"]. *)
Definition nl : string := String "010"%char EmptyString.

(** [str.isspace] on one character (code points below 256). *)
Definition is_space (c : ascii) : bool :=
  let n := nat_of_ascii c in
  (((9 <=? n) && (n <=? 13)) || ((28 <=? n) && (n <=? 32))
   || (n =? 133) || (n =? 160))%nat.

(** [str.isdecimal] on one character: what [\d] accepts. *)
Definition is_digit (c : ascii) : bool :=
  let n := nat_of_ascii c in ((48 <=? n) && (n <=? 57))%nat.

(** [str.lower] on one character. *)
Definition lower_char (c : ascii) : ascii :=
  let n := nat_of_ascii c in
  if (((65 <=? n) && (n <=? 90))
      || ((192 <=? n) && (n <=? 222) && negb (n =? 215)))%nat
  then ascii_of_nat (n + 32) else c.

(** [s.lower()] *)
Fixpoint lower (s : string) : string :=
  match s with
  | EmptyString => EmptyString
  | String c s' => String (lower_char c) (lower s')
  end.

(** [s.lstrip()] *)
Fixpoint lstrip (s : string) : string :=
  match s with
  | EmptyString => EmptyString
  | String c s' => if is_space c then lstrip s' else s
  end.

(** [s.rstrip()] *)
Fixpoint rstrip (s : string) : string :=
  match s with
  | EmptyString => EmptyString
  | String c s' =>
      match rstrip s' with
      | EmptyString => if is_space c then EmptyString else String c EmptyString
      | r => String c r
      end
  end.

(** [s.strip()] *)
Definition strip (s : string) : string := rstrip (lstrip s).

(** [s.startswith(p)] *)
Fixpoint startswith (p s : string) : bool :=
  match p, s with
  | EmptyString, _ => true
  | String a p', String b s' => if Ascii.eqb a b then startswith p' s' else false
  | String _ _, EmptyString => false
  end.

(** [sub in s] *)
Fixpoint contains (sub s : string) : bool :=
  startswith sub s ||
  match s with
  | EmptyString => false
  | String _ s' => contains sub s'
  end.

(** [s.endswith(p)] *)
Fixpoint endswith (p s : string) : bool :=
  String.eqb p s ||
  match s with
  | EmptyString => false
  | String _ s' => endswith p s'
  end.

(** [s[:n]] *)
Fixpoint take (n : nat) (s : string) : string :=
  match n, s with
  | S n', String c s' => String c (take n' s')
  | _, _ => EmptyString
  end.

(** [s[n:]] *)
Fixpoint drop (n : nat) (s : string) : string :=
  match n, s with
  | S n', String _ s' => drop n' s'
  | _, _ => s
  end.

(** The scan behind [s.split(sep)] for a non-empty [sep]: [cur] is the
    current piece, [skip] the characters of a separator still to pass. *)
Fixpoint split_go (sep s cur : string) (skip : nat) : list string :=
  match s with
  | EmptyString => [cur]
  | String c s' =>
      match skip with
      | S k => split_go sep s' cur k
      | O =>
          if startswith sep s
          then cur :: split_go sep s' EmptyString (String.length sep - 1)
          else split_go sep s' (cur ++ String c EmptyString) 0
      end
  end.

(** [s.split(sep)] *)
Definition split (sep s : string) : list string := split_go sep s EmptyString 0.

(** [str(n)] for an [int]. *)
Definition str_of_int (n : Z) : string := pretty n.

(** [str(n)] for a non-negative count such as [len(...)]. *)
Definition str_of_nat (n : nat) : string := pretty n.

(** [sep.join(parts)] with the empty separator: how an f-string is put together. *)
Definition concat (parts : list string) : string := String.concat EmptyString parts.

End PyStr.

(** ** Regular expressions, as far as the planner's pattern needs them

    Python's [re] is a backtracking matcher: alternatives are tried left to
    right, a greedy quantifier tries the longest repetition first, a lazy one the
    shortest, and the first way that lets the rest of the pattern match wins.
    The matcher below is written in continuation-passing style so that it
    has exactly this order. Quantifiers are applied to character classes
    only, which is all the source's patterns use. *)

Module Regex.

Inductive cclass : Type :=
| c_digit                 (* \d *)
| c_space                 (* \s *)
| c_not (c : ascii)       (* [^c] *)
| c_any                   (* . under re.DOTALL *)
| c_lit (c : ascii).      (* a literal character *)

Definition accepts (cl : cclass) (a : ascii) : bool :=
  match cl with
  | c_digit => PyStr.is_digit a
  | c_space => PyStr.is_space a
  | c_not c => negb (Ascii.eqb a c)
  | c_any => true
  | c_lit c => Ascii.eqb a c
  end.

Inductive regex : Type :=
| Chr (cl : cclass)                          (* one character *)
| Rep (cl : cclass) (lo : nat) (lazy : bool) (* cl{lo,} greedy or lazy *)
| Cat (r1 r2 : regex)                        (* r1 r2 *)
| Alt (r1 r2 : regex)                        (* r1|r2 *)
| Grp (i : nat) (r : regex)                  (* capture group number i *)
| Ahead (r : regex)                          (* (?=r) *)
| Eos.                                       (* $ without re.MULTILINE *)

(** Captured groups: number and text. A group that took no part is ['']. *)
Definition captures : Type := list (nat * string).

Fixpoint group (g : captures) (i : nat) : string :=
  match g with
  | [] => EmptyString
  | (j, t) :: g' => if Nat.eqb i j then t else group g' i
  end.

Section Matcher.
Context {R : Type}.

(** [cl{lo,}], longest first. *)
Fixpoint rep_greedy (cl : cclass) (lo : nat) (s : string)
    (k : string -> option R) : option R :=
  let stop := match lo with O => k s | S _ => None end in
  match s with
  | EmptyString => stop
  | String a s' =>
      if accepts cl a then
        match rep_greedy cl (Nat.pred lo) s' k with
        | Some x => Some x
        | None => stop
        end
      else stop
  end.

(** [cl{lo,}?], shortest first. *)
Fixpoint rep_lazy (cl : cclass) (lo : nat) (s : string)
    (k : string -> option R) : option R :=
  let more :=
    match s with
    | EmptyString => None
    | String a s' => if accepts cl a then rep_lazy cl (Nat.pred lo) s' k else None
    end in
  match lo with
  | O => match k s with Some x => Some x | None => more end
  | S _ => more
  end.

End Matcher.

(** The text [s] has lost to reach its suffix [s']. *)
Definition consumed (s s' : string) : string :=
  PyStr.take (String.length s - String.length s') s.

(** [run r R s g k]: match [r] at the head of [s] with the groups [g] so
    far, then continue with [k] on what is left. *)
Fixpoint run (r : regex) (R : Type) (s : string) (g : captures)
    (k : string -> captures -> option R) {struct r} : option R :=
  match r with
  | Chr cl =>
      match s with
      | String a s' => if accepts cl a then k s' g else None
      | EmptyString => None
      end
  | Rep cl lo lazy =>
      if lazy then rep_lazy cl lo s (fun s' => k s' g)
      else rep_greedy cl lo s (fun s' => k s' g)
  | Cat r1 r2 => run r1 R s g (fun s' g' => run r2 R s' g' k)
  | Alt r1 r2 =>
      match run r1 R s g k with
      | Some x => Some x
      | None => run r2 R s g k
      end
  | Grp i r1 => run r1 R s g (fun s' g' => k s' ((i, consumed s s') :: g'))
  | Ahead r1 =>
      match run r1 captures s g (fun _ g' => Some g') with
      | Some g' => k s g'
      | None => None
      end
  | Eos =>
      if String.eqb s EmptyString || String.eqb s PyStr.nl then k s g else None
  end.

(** A match of [r] at the head of [s]: the groups and the text left. *)
Definition match_here (r : regex) (s : string) : option (captures * string) :=
  run r (captures * string) s [] (fun s' g => Some (g, s')).

(** The scan of [re.findall]: try every position from the left; after a
    match go on where it ended. [skip] counts the characters of the last
    match still to pass. *)
Fixpoint scan (r : regex) (s : string) (skip : nat) : list captures :=
  match s with
  | EmptyString =>
      match skip, match_here r s with
      | O, Some (g, _) => [g]
      | _, _ => []
      end
  | String _ s' =>
      match skip with
      | S k => scan r s' k
      | O =>
          match match_here r s with
          | Some (g, rest) =>
              g :: scan r s' (String.length s - String.length rest - 1)
          | None => scan r s' 0
          end
      end
  end.

(** [re.findall(r, s)] for a pattern with three groups. *)
Definition findall3 (r : regex) (s : string) : list (string * string * string) :=
  map (fun g => (group g 1, group g 2, group g 3)) (scan r s 0).

(** [re.sub(r, '', s)]: every match of [r] is taken out. *)
Fixpoint delete_matches (r : regex) (s : string) (skip : nat) : string :=
  match s with
  | EmptyString => EmptyString
  | String c s' =>
      match skip with
      | S k => delete_matches r s' k
      | O =>
          match match_here r s with
          | Some (_, rest) =>
              match String.length s - String.length rest with
              | O => String c (delete_matches r s' 0)
              | S k => delete_matches r s' k
              end
          | None => String c (delete_matches r s' 0)
          end
      end
  end.

Definition sub_empty (r : regex) (s : string) : string := delete_matches r s 0.

End Regex.
(** ** The prompt texts of the four agents, as the source has them *)

Module Prompts.

(** planner.py: the [system] message of [Planner.prompt]. *)
Definition planner_system : string :=
  "You are a security planning agent specialized in CrowdStrike Falcon log analysis.
            
            Your task is to:
            1. Interpret a security investigation request
            2. Create a detailed plan for analyzing CrowdStrike Falcon logs
            3. Select the most appropriate specialized worker agents for parallel analysis
            
            For each task, select 5 workers from these EXACT security specialties (use these exact names):
            - Initial Access Specialist
            - Execution Specialist
            - Persistence Specialist
            - Privilege Escalation Specialist
            - Defense Evasion Specialist
            - Credential Access Specialist
            - Discovery Specialist
            - Lateral Movement Specialist
            - Collection Specialist
            - Exfiltration Specialist
            
            CrowdStrike log types to consider:
            - DetectionSummaryEvents: Security incidents and MITRE info
            - FirewallMatchEvents: Network traffic triggers
            - NetworkConnectionEvents: All network connections
            - ProcessRollupEvents: Process execution details
            - RegistryEvents: Windows registry operations
            - AuthActivityAuditEvents: Authentication events
            - DnsRequestEvents: DNS lookups made by systems
            
            Format your response EXACTLY as follows (do not use markdown formatting):
            PLAN: [detailed plan for Falcon log analysis]
            
            WORKERS:
            1. Initial Access Specialist: [specific focus areas and tasks]
            2. Execution Specialist: [specific focus areas and tasks]
            3. Persistence Specialist: [specific focus areas and tasks]
            4. Privilege Escalation Specialist: [specific focus areas and tasks]
            5. Defense Evasion Specialist: [specific focus areas and tasks]
            
            IMPORTANT: Use the EXACT role names as listed above. Do not modify them or add any formatting.
            ".

(** planner.py: the [user] message of [Planner.prompt], its two
    placeholders filled in. *)
Definition planner_user (human_input log_content : string) : string :=
  PyStr.concat
    [ "
            Security Investigation Request: ";
      human_input;
      "
            
            CrowdStrike Log Preview: ";
      log_content;
      "
            
            Create a detailed investigation plan and select the 5 most relevant worker specialists for parallel analysis.
            For each worker, specify:
            1. Their MITRE ATT&CK focus areas
            2. Specific log types they should analyze
            3. Types of evidence they should look for
            4. Platform-specific commands they should provide (Windows, Linux, macOS)
            
            Remember to use the EXACT role names as provided in the system prompt.
            " ].

(** worker_factory.py: the dict [role_prompts], in the order it is written. *)
Definition role_prompts : list (string * string) :=
  [ ("Initial Access Specialist",
     "You are a CrowdStrike Falcon log analyst specializing in 
            identifying INITIAL ACCESS tactics. Look for evidence of phishing, exploitation of public-facing
            applications, external remote services being leveraged, hardware additions, or trusted relationship
            compromise. Pay special attention to:
            - New process creation from external sources
            - Email attachments being executed
            - Web browsers executing suspicious content
            - VPN or remote access connections from unusual sources
            ");
    ("Execution Specialist",
     "You are a CrowdStrike Falcon log analyst specializing in 
            analyzing EXECUTION tactics. Look for evidence of command and script execution, container 
            administration commands, native API calls, system services, or Windows Management Instrumentation 
            usage. Pay special attention to:
            - Command-line interface usage patterns
            - PowerShell or bash commands
            - Script execution (JavaScript, VBScript, Python, etc.)
            - Service creation or modification
            ");
    ("Persistence Specialist",
     "You are a CrowdStrike Falcon log analyst specializing in 
            identifying PERSISTENCE mechanisms. Look for evidence of account manipulation, boot/logon 
            autostart execution, scheduled tasks/jobs, or registry modifications. Pay special attention to:
            - New scheduled tasks or cron jobs
            - Registry modifications in run keys
            - New services or daemons
            - Startup folder modifications
            - Kernel module or driver loading
            ");
    ("Privilege Escalation Specialist",
     "You are a CrowdStrike Falcon log analyst specializing in 
            detecting PRIVILEGE ESCALATION attempts. Look for evidence of access token manipulation, 
            exploitation for privilege escalation, process injection, or sudo/admin-equivalent operations. 
            Pay special attention to:
            - UAC bypasses
            - Sudo commands or runas usage
            - Service permissions being modified
            - Process handle manipulation
            - Unusual process ancestry
            ");
    ("Defense Evasion Specialist",
     "You are a CrowdStrike Falcon log analyst specializing in 
            finding DEFENSE EVASION techniques. Look for evidence of clearing logs, deobfuscation of files,
            hidden files/directories, indicator removal, masquerading, or process injection. Pay special attention to:
            - Log clearing or deletion events
            - Hidden files or directories
            - Timestomping
            - File deletion
            - Rootkit installation
            ");
    ("Credential Access Specialist",
     "You are a CrowdStrike Falcon log analyst specializing in 
            identifying CREDENTIAL ACCESS attempts. Look for evidence of brute force attempts, credential 
            dumping, input capture, OS credential dumping, or password policy discovery. Pay special attention to:
            - Multiple failed authentication attempts
            - Access to credential stores
            - Memory access to lsass.exe
            - Creation of minidump files
            - Keylogging processes
            ");
    ("Discovery Specialist",
     "You are a CrowdStrike Falcon log analyst specializing in 
            detecting DISCOVERY activities. Look for evidence of account discovery, file/directory discovery,
            network service scanning, permission group discovery, or system information discovery. Pay special attention to:
            - Network discovery commands (ping, nslookup, etc.)
            - Account enumeration
            - System information commands
            - Active Directory queries
            - Permission group enumeration
            ");
    ("Lateral Movement Specialist",
     "You are a CrowdStrike Falcon log analyst specializing in 
            finding LATERAL MOVEMENT attempts. Look for evidence of internal remote services, lateral tool 
            transfer, remote services, or exploitation of remote services. Pay special attention to:
            - Remote desktop connections
            - SMB connections
            - WMI or WinRM usage
            - SSH connections between systems
            - Remote execution via PsExec or similar tools
            ");
    ("Collection Specialist",
     "You are a CrowdStrike Falcon log analyst specializing in 
            identifying DATA COLLECTION activities. Look for evidence of audio capture, clipboard data 
            collection, data from local systems, email collection, or screen capture. Pay special attention to:
            - Large amounts of data being accessed
            - Unusual access patterns to important files
            - Database read operations
            - Email access activities
            - Screen capture processes
            ");
    ("Exfiltration Specialist",
     "You are a CrowdStrike Falcon log analyst specializing in 
            detecting DATA EXFILTRATION. Look for evidence of automated exfiltration, exfiltration over 
            alternative protocols, exfiltration over C2 channel, or scheduled transfers. Pay special attention to:
            - Unusual outbound network connections
            - Large outbound data transfers
            - Usage of non-standard protocols
            - Connections to known-bad IPs or domains
            - Scheduled tasks that connect to external systems
            ") ].

(** worker_factory.py: the default of [role_prompts.get(role, ...)]. *)
Definition generic_prompt (role tasks : string) : string :=
  PyStr.concat
    [ "You are a specialized CrowdStrike Falcon log analyst focusing on ";
      role;
      ". ";
      tasks ].

(** worker_factory.py: [human_message_content] of [SecurityWorker.__call__];
    [log_sample] stands for [state.get('log_content', '')[:10000]]. *)
Definition worker_human_message (human_input plan tasks log_sample role : string) : string :=
  PyStr.concat
    [ "
                Security Investigation Request: ";
      human_input;
      "
                
                Overall Analysis Plan: ";
      plan;
      "
                
                Your Specific Task: ";
      tasks;
      "
                
                CrowdStrike Falcon Log Sample:
                ```
                ";
      log_sample;
      "  # Limit log content to prevent overflow
                ```
                
                Analyze these CrowdStrike Falcon logs according to your security specialty (";
      role;
      "). Provide:
                
                1. EVIDENCE: List specific log entries that indicate suspicious activity in your domain
                2. ANALYSIS: Explain what these entries reveal and their security implications
                3. CONFIDENCE: Rate your confidence in each finding (High/Medium/Low)
                4. RECOMMENDATIONS: Suggest specific next investigative steps
                
                For each recommendation, provide platform-specific commands:
                
                ACTIONABLE COMMANDS:
                [Windows]
                - `command1` - Brief explanation
                - `command2` - Brief explanation
                
                [macOS/Linux]
                - `command1` - Brief explanation
                - `command2` - Brief explanation
                
                Focus only on findings relevant to your specialty (";
      role;
      "). Be specific and cite exact log entries.
                " ].

(** critique.py: [Critique.system_prompt]. *)
Definition critique_system : string :=
  "You are a senior security analyst responsible for validating findings from 
        multiple specialized CrowdStrike Falcon log analysts. Your task is to:
        
        1. Review findings from each specialist
        2. Identify consensus among specialists (where multiple specialists found similar evidence)
        3. Evaluate the strength of evidence for each finding
        4. Implement a voting mechanism where findings supported by multiple specialists receive higher confidence
        5. Eliminate findings with insufficient evidence
        6. Consolidate the most important findings
        
        For each potential security issue:
        1. Count how many specialists identified related evidence
        2. Assess the quality of the evidence presented
        3. Assign a consolidated confidence score (High/Medium/Low)
        
        Format your response as follows:

        CONSENSUS FINDINGS (BY CONFIDENCE):
        HIGH CONFIDENCE (3+ specialists agree):
        - Finding 1: [Brief description]
          * Evidence from Worker X: [specific log entry]
          * Evidence from Worker Y: [specific log entry]
          * Evidence from Worker Z: [specific log entry]
          * MITRE ATT&CK: [tactic/technique]
          * Recommended Action: [specific command]

        MEDIUM CONFIDENCE (2 specialists agree):
        - Finding 1: [Brief description]
          * Evidence from Worker X: [specific log entry]
          * Evidence from Worker Y: [specific log entry]
          * MITRE ATT&CK: [tactic/technique]
          * Recommended Action: [specific command]

        LOW CONFIDENCE (single specialist):
        - Finding 1: [Brief description]
          * Evidence from Worker X: [specific log entry]
          * MITRE ATT&CK: [tactic/technique]
          * Recommended Action: [specific command]

        SUMMARY:
        - Total findings: [number]
        - High confidence findings: [number]
        - Medium confidence findings: [number]
        - Low confidence findings: [number]
        - Most critical finding: [description]
        - Most urgent action needed: [description]
        ".

(** critique.py: the start of [user_message]. *)
Definition critique_user_head (human_input plan : string) : string :=
  PyStr.concat
    [ "
        Security Investigation Request: ";
      human_input;
      "
        Analysis Plan: ";
      plan;
      "

        Worker Analyses:
        " ].

(** critique.py: what the loop adds to [user_message] for worker [i]. *)
Definition critique_worker_block (i role analysis : string) : string :=
  PyStr.concat
    [ "
                Worker ";
      i;
      " (";
      role;
      ") Analysis:
                ";
      analysis;
      "
                " ].

(** critique.py: the end of [user_message]. *)
Definition critique_user_tail : string :=
  "
        Evaluate these analyses using the voting mechanism:
        1. Identify where multiple specialists found similar evidence
        2. Assess the quality and specificity of the evidence
        3. Rate confidence based on number of specialists in agreement
        4. Ensure each finding is tied to specific log entries
        5. Verify that recommended actions include platform-specific commands
        
        Present your findings in order of confidence, focusing on issues with the strongest evidence.
        ".

(** judge.py: the [system] message of [Judge.prompt]. *)
Definition judge_system : string :=
  "You are the final decision-maker in a CrowdStrike Falcon log analysis 
            investigation. Your role is to:
            
            1. Determine if there was a security incident based on the evidence
            2. Deliver a clear verdict on the nature and severity of any security issues
            3. Provide a concise summary of the attack or suspicious activity
            4. Recommend SPECIFIC, ACTIONABLE remediation steps
            
            For remediation, provide exact CrowdStrike Falcon commands, system commands, or 
            PowerShell/Bash scripts that the security team can execute. Be as specific as possible.
            
            Format your response as:
            
            VERDICT: [Clear statement on whether a security incident occurred]
            
            SUMMARY: [Concise explanation of the findings]
            
            ATTACK CLASSIFICATION: [MITRE ATT&CK tactics and techniques identified]
            
            REMEDIATION COMMANDS:
            ```
            [Exact commands to execute]
            ```
            
            NEXT STEPS: [Additional investigation recommendations]
            ".

(** judge.py: the [user] message of [Judge.prompt], its three placeholders
    filled in. *)
Definition judge_user (human_input plan critique_assessment : string) : string :=
  PyStr.concat
    [ "
            Security Investigation Request: ";
      human_input;
      "
            
            CrowdStrike Falcon Analysis:
            
            Original Plan:
            ";
      plan;
      "
            
            Consolidated Findings (with voting results):
            ";
      critique_assessment;
      "
            
            Based on this analysis, provide your final verdict and actionable remediation steps.
            Focus on:
            1. Clear determination of whether a security incident occurred
            2. Specific MITRE ATT&CK tactics and techniques involved
            3. Exact, executable commands for remediation
            4. Additional investigation steps needed
            " ].

End Prompts.

(** ** Values, failures and effects *)

Module Py.

(** An exception: its class and what [str(e)] gives. *)
Record exn : Type := mkExn { exn_type : string; exn_str : string }.

Definition KeyError (k : string) : exn := mkExn "KeyError" ("'" +:+ k +:+ "'").
Definition TypeError (what : string) : exn := mkExn "TypeError" what.
Definition IndexError (what : string) : exn := mkExn "IndexError" what.
Definition ValueError (what : string) : exn := mkExn "ValueError" what.

Inductive outcome (A : Type) : Type :=
| Ok (a : A)
| Raise (e : exn).
Arguments Ok {A} a.
Arguments Raise {A} e.

(** langchain_core.messages *)
Inductive message : Type :=
| SystemMessage (content : string)
| HumanMessage (content : string).

(** The record [Judge.__call__] hands to [client.create_example]. *)
Record example : Type := mkExample {
  ex_human_input : string;
  ex_plan : string;
  ex_worker_outputs : list (string * string);   (* role, analysis *)
  ex_critique : string;
  ex_judgment : string;
  ex_dataset_name : string
}.

(** What a computation does besides returning: lines printed, calls of
    the text generation, calls of the example sink. *)
Inductive event : Type :=
| Printed (text : string)
| Invoked (messages : list message)
| ClientMade
| ExampleSent (ex : example).

(** A computation: how it ends and the trace up to there. *)
Definition M (A : Type) : Type := outcome A * list event.

Definition ret {A} (a : A) : M A := (Ok a, []).
Definition raise {A} (e : exn) : M A := (Raise e, []).
Definition bind {A B} (m : M A) (f : A -> M B) : M B :=
  match m with
  | (Ok a, t) => let '(r, t') := f a in (r, t ++ t')
  | (Raise e, t) => (Raise e, t)
  end.

(** [print(text)] *)
Definition print (text : string) : M unit := (Ok tt, [Printed text]).

(** [try: body  except Exception as e: handler(e)] *)
Definition try_except {A} (body : M A) (handler : exn -> M A) : M A :=
  match body with
  | (Ok a, t) => (Ok a, t)
  | (Raise e, t) => let '(r, t') := handler e in (r, t ++ t')
  end.

(** [for x in xs: body(x)], collecting what the bodies return. *)
Fixpoint for_each {A B} (xs : list A) (body : A -> M B) : M (list B) :=
  match xs with
  | [] => ret []
  | x :: xs' =>
      bind (body x) (fun y => bind (for_each xs' body) (fun ys => ret (y :: ys)))
  end.

(** The value a computation returns, if it returns. *)
Definition result {A} (m : M A) : outcome A := fst m.
(** Its trace. *)
Definition trace {A} (m : M A) : list event := snd m.

(** A computation that does not call the text generation. *)
Definition silent {A} (m : M A) : Prop :=
  forall messages, ~ In (Invoked messages) (trace m).

(** The values a state dict holds (the shapes of [AgentState]). *)
Inductive value : Type :=
| VStr (s : string)
| VInt (n : Z)
| VDict (d : gmap string string)
| VList (l : list (gmap string string)).

(** [state[k]] *)
Definition getitem (st : gmap string value) (k : string) : M value :=
  match st !! k with
  | Some v => ret v
  | None => raise (KeyError k)
  end.

(** [d[k]] on an inner dict. *)
Definition getfield (d : gmap string string) (k : string) : M string :=
  match d !! k with
  | Some v => ret v
  | None => raise (KeyError k)
  end.

(** A field that [AgentState] types as [str], used as text. A value of
    another shape is outside [AgentState]; the model stops there with a
    [TypeError] (Python would format some of them with [str()]). *)
Definition as_str (v : value) : M string :=
  match v with
  | VStr s => ret s
  | _ => raise (TypeError "not a str")
  end.

(** [v[k]] for a string key [k]: only a dict can be indexed by a string. *)
Definition subscript (v : value) (k : string) : M string :=
  match v with
  | VDict d => getfield d k
  | _ => raise (TypeError "indices must be integers")
  end.

(** The text generation collaborator: [llm.invoke(messages).content]. *)
Definition LLM : Type := list message -> outcome string.

Definition invoke (llm : LLM) (messages : list message) : M string :=
  (llm messages, [Invoked messages]).

(** The example sink (langsmith): [Client()] and [client.create_example]. *)
Record Sink : Type := mkSink {
  make_client : outcome unit;
  create_example : example -> outcome unit
}.

End Py.

Import Py.

(** Equality of values, failures and events can be decided, so that facts
    about concrete runs are settled by running them. *)
#[global] Instance exn_eq_dec : EqDecision exn.
Proof. solve_decision. Defined.
#[global] Instance outcome_eq_dec {A} `{EqDecision A} : EqDecision (outcome A).
Proof. solve_decision. Defined.
#[global] Instance message_eq_dec : EqDecision message.
Proof. solve_decision. Defined.
#[global] Instance example_eq_dec : EqDecision example.
Proof. solve_decision. Defined.
#[global] Instance event_eq_dec : EqDecision event.
Proof. solve_decision. Defined.
#[global] Instance value_eq_dec : EqDecision value.
Proof. solve_decision. Defined.

Notation "x <- m ;; k" := (bind m (fun x => k))
  (at level 100, m at next level, right associativity).
Notation "m ;;; k" := (bind m (fun _ => k))
  (at level 100, right associativity).
Abbreviation state := (gmap string value).

(** ** agents/planner.py *)

Module Planner.

Import Regex.

(** [valid_roles] of [Planner.__call__]. *)
Definition valid_roles : list string :=
  [ "Initial Access Specialist";
    "Execution Specialist";
    "Persistence Specialist";
    "Privilege Escalation Specialist";
    "Defense Evasion Specialist";
    "Credential Access Specialist";
    "Discovery Specialist";
    "Lateral Movement Specialist";
    "Collection Specialist";
    "Exfiltration Specialist" ].

(** [role in roles] *)
Definition role_in (role : string) (roles : list string) : bool :=
  existsb (String.eqb role) roles.

(** The [for valid_role in valid_roles: ... break / else: ...] loop: the
    first role whose lower-cased name contains the lower-cased label,
    with the line it prints; without one, the default and the warning. *)
Fixpoint closest_match (role : string) (roles : list string) : M string :=
  match roles with
  | [] =>
      print (PyStr.concat ["PLANNER: Warning - Unknown role '"; role;
                           "', using default role"]) ;;;
      ret "Discovery Specialist"
  | valid_role :: roles' =>
      if PyStr.contains (PyStr.lower role) (PyStr.lower valid_role)
      then
        print (PyStr.concat ["PLANNER: Mapped '"; valid_role;
                             "' to valid role"]) ;;;
        ret valid_role
      else closest_match role roles'
  end.

(** The validation of one role label. *)
Definition resolve_role (role : string) : M string :=
  if negb (role_in role valid_roles)
  then closest_match role valid_roles
  else ret role.

(** [worker_pattern]:
    (\d+)\.\s*([^:]+?)(?:\s*:\s*|\s+)(.*?)(?=\d+\.\s*[^:]+:|$) *)
Definition worker_pattern : regex :=
  Cat (Grp 1 (Rep c_digit 1 false))
 (Cat (Chr (c_lit "."))
 (Cat (Rep c_space 0 false)
 (Cat (Grp 2 (Rep (c_not ":") 1 true))
 (Cat (Alt (Cat (Rep c_space 0 false)
           (Cat (Chr (c_lit ":")) (Rep c_space 0 false)))
           (Rep c_space 1 false))
 (Cat (Grp 3 (Rep c_any 0 true))
      (Ahead (Alt (Cat (Rep c_digit 1 false)
                  (Cat (Chr (c_lit "."))
                  (Cat (Rep c_space 0 false)
                  (Cat (Rep (c_not ":") 1 false)
                       (Chr (c_lit ":"))))))
                  Eos))))))).

(** [re.sub(r'\*+', '', s)] *)
Definition remove_asterisks (s : string) : string :=
  sub_empty (Rep (c_lit "*") 1 false) s.

(** One worker definition: [{"role": role, "tasks": tasks}]. *)
Definition worker_def (role tasks : string) : gmap string string :=
  <["role" := role]> (<["tasks" := tasks]> ∅).

(** The body of [for _, role, tasks in matches]. *)
Definition add_worker (m : string * string * string) : M (gmap string string) :=
  let '(_, role, tasks) := m in
  let role := remove_asterisks (PyStr.strip role) in
  let tasks := remove_asterisks (PyStr.strip tasks) in
  role <- resolve_role role ;;
  print (PyStr.concat ["PLANNER: Added worker with role '"; role;
                       "' and tasks: "; PyStr.take 100 tasks; "..."]) ;;;
  ret (worker_def role tasks).

(** [l[i]] on a list of strings. *)
Definition item (l : list string) (i : nat) : M string :=
  match l !! i with
  | Some x => ret x
  | None => raise (IndexError "list index out of range")
  end.

(** The parsing logic: the plan text and the worker definitions. *)
Definition parse (content : string) : M (string * list (gmap string string)) :=
  if PyStr.contains "PLAN:" content && PyStr.contains "WORKERS:" content
  then
    after_plan <- item (PyStr.split "PLAN:" content) 1 ;;
    before_workers <- item (PyStr.split "WORKERS:" after_plan) 0 ;;
    let plan_section := PyStr.strip before_workers in
    after_workers <- item (PyStr.split "WORKERS:" content) 1 ;;
    let workers_raw := PyStr.strip after_workers in
    let matches := findall3 worker_pattern workers_raw in
    workers_section <- for_each matches add_worker ;;
    ret (plan_section, workers_section)
  else ret (EmptyString, []).

(** The keys [Planner.__call__] does not copy from the state. *)
Definition not_copied : list string :=
  [ "plan"; "worker_definitions"; "worker1_output"; "worker2_output";
    "worker3_output"; "worker4_output"; "worker5_output"; "critique_output" ].

(** [for i, worker in enumerate(workers_section, 1): print(...)] *)
Fixpoint print_roles (i : nat) (workers : list (gmap string string)) : M unit :=
  match workers with
  | [] => ret tt
  | worker :: rest =>
      role <- getfield worker "role" ;;
      print (PyStr.concat ["  Worker "; PyStr.str_of_nat i; ": "; role]) ;;;
      print_roles (S i) rest
  end.

(** [Planner.__call__] *)
Definition call (llm : LLM) (st : state) : M state :=
  human_input <- getitem st "human_input" ;;
  let log_content := default (VStr EmptyString) (st !! "log_content") in
  human_input <- as_str human_input ;;
  log_content <- as_str log_content ;;
  content <- invoke llm [ SystemMessage Prompts.planner_system;
                          HumanMessage (Prompts.planner_user human_input log_content) ] ;;
  parsed <- parse content ;;
  let '(plan_section, workers_section) := parsed in
  let result : state :=
    filter (fun kv => negb (role_in (fst kv) not_copied) = true) st in
  let result := <["plan" := VStr plan_section]> result in
  let result := <["worker_definitions" := VList workers_section]> result in
  print (PyStr.concat ["PLANNER: Generated new plan with ";
                       PyStr.str_of_nat (length workers_section);
                       " worker definitions"]) ;;;
  print "Worker roles assigned:" ;;;
  print_roles 1 workers_section ;;;
  ret result.

End Planner.

(** ** agents/worker_factory.py *)

Module WorkerFactory.

(** [valid_roles] of [WorkerFactory.create_worker]. *)
Definition valid_roles : list string :=
  [ "Initial Access Specialist";
    "Execution Specialist";
    "Persistence Specialist";
    "Privilege Escalation Specialist";
    "Defense Evasion Specialist";
    "Credential Access Specialist";
    "Discovery Specialist";
    "Lateral Movement Specialist";
    "Collection Specialist";
    "Exfiltration Specialist" ].

(** The loop that looks for a matching role, with its [else] branch. *)
Fixpoint find_matching_role (role : string) (roles : list string) : M string :=
  match roles with
  | [] =>
      print "WORKER FACTORY: No valid role match found, using default role" ;;;
      ret "Discovery Specialist"
  | valid_role :: roles' =>
      if PyStr.contains (PyStr.lower role) (PyStr.lower valid_role)
      then
        print (PyStr.concat ["WORKER FACTORY: Mapped to valid role '";
                             valid_role; "'"]) ;;;
        ret valid_role
      else find_matching_role role roles'
  end.

(** The validation of the role at the head of [create_worker]. *)
Definition validate_role (worker_id : Z) (role : string) : M string :=
  if negb (Planner.role_in role valid_roles)
  then
    print (PyStr.concat ["WORKER FACTORY: Warning - Invalid role '"; role;
                         "' for worker "; PyStr.str_of_int worker_id]) ;;;
    find_matching_role role valid_roles
  else ret role.

(** [role_prompts.get(role, default)] *)
Fixpoint dict_get (d : list (string * string)) (k default : string) : string :=
  match d with
  | [] => default
  | (k', v) :: d' => if String.eqb k k' then v else dict_get d' k default
  end.

(** The object [create_worker] returns. *)
Record SecurityWorker : Type := mkSecurityWorker {
  llm : LLM;
  worker_id : Z;
  role : string;
  tasks : string;
  system_prompt : string
}.

(** [WorkerFactory.create_worker] *)
Definition create_worker (llm : LLM) (worker_id : Z) (role tasks : string)
    : M SecurityWorker :=
  role <- validate_role worker_id role ;;
  print (PyStr.concat ["WORKER FACTORY: Creating worker ";
                       PyStr.str_of_int worker_id; " with role '"; role; "'"]) ;;;
  let system_prompt :=
    dict_get Prompts.role_prompts role (Prompts.generic_prompt role tasks) in
  print (PyStr.concat ["WORKER "; PyStr.str_of_int worker_id;
                       ": Initialized as "; role]) ;;;
  ret (mkSecurityWorker llm worker_id role tasks system_prompt).

(** [f"worker{worker_id}_output"] *)
Definition output_key (worker_id : Z) : string :=
  PyStr.concat ["worker"; PyStr.str_of_int worker_id; "_output"].

(** A worker's finding: [{"role": role, "analysis": analysis}]. *)
Definition finding (role analysis : string) : value :=
  VDict (<["role" := role]> (<["analysis" := analysis]> ∅)).

(** [SecurityWorker.__call__] *)
Definition call (self : SecurityWorker) (st : state) : M state :=
  print (PyStr.concat ["WORKER "; PyStr.str_of_int (worker_id self); " (";
                       role self; "): Starting analysis"]) ;;;
  let system_message := SystemMessage (system_prompt self) in
  human_input <- getitem st "human_input" ;;
  human_input <- as_str human_input ;;
  plan <- getitem st "plan" ;;
  plan <- as_str plan ;;
  log_content <- as_str (default (VStr EmptyString) (st !! "log_content")) ;;
  let human_message_content :=
    Prompts.worker_human_message human_input plan (tasks self)
      (PyStr.take 10000 log_content) (role self) in
  let human_message := HumanMessage human_message_content in
  content <- invoke (llm self) [system_message; human_message] ;;
  let result : state := {[ output_key (worker_id self) := finding (role self) content ]} in
  print (PyStr.concat ["WORKER "; PyStr.str_of_int (worker_id self); " (";
                       role self; "): Completed analysis"]) ;;;
  ret result.

End WorkerFactory.

(** ** agents/critique.py *)

Module Critique.

(** The loop [for i in range(1, 6)] that adds each worker's analysis that
    is in the state to [user_message]. *)
Fixpoint add_analyses (st : state) (ids : list Z) (user_message : string) : M string :=
  match ids with
  | [] => ret user_message
  | i :: ids' =>
      let worker_key := WorkerFactory.output_key i in
      match st !! worker_key with
      | Some worker_data =>
          role <- subscript worker_data "role" ;;
          analysis <- subscript worker_data "analysis" ;;
          add_analyses st ids'
            (user_message +:+ Prompts.critique_worker_block (PyStr.str_of_int i) role analysis)
      | None => add_analyses st ids' user_message
      end
  end.

(** [Critique.__call__] *)
Definition call (llm : LLM) (st : state) : M state :=
  print "CRITIQUE: Starting consensus analysis" ;;;
  human_input <- getitem st "human_input" ;;
  human_input <- as_str human_input ;;
  plan <- getitem st "plan" ;;
  plan <- as_str plan ;;
  let user_message := Prompts.critique_user_head human_input plan in
  user_message <- add_analyses st [1; 2; 3; 4; 5]%Z user_message ;;
  let user_message := user_message +:+ Prompts.critique_user_tail in
  content <- invoke llm [ SystemMessage Prompts.critique_system;
                          HumanMessage user_message ] ;;
  let result : state :=
    {[ "critique_output" := VDict {[ "assessment" := content ]} ]} in
  print "CRITIQUE: Completed consensus analysis" ;;;
  ret result.

End Critique.

(** ** agents/judge.py *)

Module Judge.

(** The loop that gathers the worker outputs for the training example. *)
Fixpoint gather_outputs (st : state) (ids : list Z) : M (list (string * string)) :=
  match ids with
  | [] => ret []
  | i :: ids' =>
      let worker_key := WorkerFactory.output_key i in
      match st !! worker_key with
      | Some worker_data =>
          role <- subscript worker_data "role" ;;
          analysis <- subscript worker_data "analysis" ;;
          rest <- gather_outputs st ids' ;;
          ret ((role, analysis) :: rest)
      | None => gather_outputs st ids'
      end
  end.

(** The body of the [try]: make the client, build the example, send it. *)
Definition persist_example (sink : Sink) (st : state) (judgment : string) : M unit :=
  (make_client sink, [ClientMade]) ;;;
  worker_outputs <- gather_outputs st [1; 2; 3; 4; 5]%Z ;;
  human_input <- getitem st "human_input" ;;
  human_input <- as_str human_input ;;
  plan <- getitem st "plan" ;;
  plan <- as_str plan ;;
  critique_output <- getitem st "critique_output" ;;
  critique <- subscript critique_output "assessment" ;;
  let ex := mkExample human_input plan worker_outputs critique judgment
              "crowdstrike_detection_training_examples" in
  (create_example sink ex, [ExampleSent ex]).

(** [response = self.chain.invoke({...})], as [response.content]. *)
Definition generate (llm : LLM) (st : state) : M string :=
  human_input <- getitem st "human_input" ;;
  plan <- getitem st "plan" ;;
  critique_output <- getitem st "critique_output" ;;
  critique_assessment <- subscript critique_output "assessment" ;;
  human_input <- as_str human_input ;;
  plan <- as_str plan ;;
  invoke llm [ SystemMessage Prompts.judge_system;
               HumanMessage (Prompts.judge_user human_input plan
                               critique_assessment) ].

(** The dict [Judge.__call__] returns. *)
Definition verdict (content : string) : state :=
  {[ "final_judgment" := VDict {[ "evaluation" := content ]} ]}.

(** [Judge.__call__] *)
Definition call (llm : LLM) (sink : Sink) (st : state) : M state :=
  content <- generate llm st ;;
  try_except (persist_example sink st content)
    (fun e => print ("Failed to create LangSmith example: " +:+ exn_str e)) ;;;
  ret (verdict content).

End Judge.

(** ** main.py *)

Module Main.

(** [debug_node(name, func)] *)
Definition debug_node (name : string) (func : state -> M state) (st : state)
    : M state :=
  print (PyStr.concat [PyStr.nl; ">>> "; name; " START"]) ;;;
  result <- func st ;;
  print (PyStr.concat ["<<< "; name; " END"]) ;;;
  ret result.

(** [len(worker_defs)] *)
Definition len (v : value) : M Z :=
  match v with
  | VList l => ret (Z.of_nat (length l))
  | VStr s => ret (Z.of_nat (String.length s))
  | VDict d => ret (Z.of_nat (size d))
  | VInt _ => raise (TypeError "object of type 'int' has no len()")
  end.

(** [l[i]] with Python's negative indices. *)
Definition list_index {A} (l : list A) (i : Z) : option A :=
  let n := Z.of_nat (length l) in
  if ((0 <=? i) && (i <? n))%Z then l !! Z.to_nat i
  else if ((- n <=? i) && (i <? 0))%Z then l !! Z.to_nat (n + i)
  else None.

(** [worker_defs[i]], for use as a dict. *)
Definition worker_def_at (v : value) (i : Z) : M (gmap string string) :=
  match v with
  | VList l =>
      match list_index l i with
      | Some d => ret d
      | None => raise (IndexError "list index out of range")
      end
  | VStr s =>
      let n := Z.of_nat (String.length s) in
      if ((- n <=? i) && (i <? n))%Z
      then raise (TypeError "string indices must be integers")
      else raise (IndexError "string index out of range")
  | VDict _ => raise (mkExn "KeyError" (PyStr.str_of_int i))
  | VInt _ => raise (TypeError "'int' object is not subscriptable")
  end.

(** The output of a slot that has no worker definition. *)
Definition no_role_output (num : Z) : state :=
  {[ WorkerFactory.output_key num :=
       WorkerFactory.finding "Default" "No specific role defined." ]}.

(** [worker_func] of [create_worker(num)] *)
Definition worker_func (llm : LLM) (num : Z) (st : state) : M state :=
  let worker_defs := default (VList []) (st !! "worker_definitions") in
  n <- len worker_defs ;;
  if (num <=? n)%Z
  then
    worker_def <- worker_def_at worker_defs (num - 1) ;;
    role <- getfield worker_def "role" ;;
    tasks <- getfield worker_def "tasks" ;;
    worker <- WorkerFactory.create_worker llm num role tasks ;;
    WorkerFactory.call worker st
  else ret (no_role_output num).

(** [create_worker(num)] *)
Definition create_worker (llm : LLM) (num : Z) : state -> M state :=
  debug_node ("WORKER-" +:+ PyStr.str_of_int num) (worker_func llm num).

(** *** The compiled graph

    [StateGraph(AgentState)] is langgraph's; what the model takes from it:
    a node gets the state as a dict of the keys written so far, the dict a
    node returns is written into the state key by key, the five workers
    all read the state the planner left, the critique runs once after all
    of them, and an exception of a node ends [invoke] with that
    exception. *)

(** A node's update written into the state. *)
Definition apply_update (st update : state) : state := update ∪ st.

(** The worker nodes, taken in the order [order]. *)
Definition run_workers (llm : LLM) (order : list Z) (st : state) : M (list state) :=
  for_each order (fun i => create_worker llm i st).

(** [invoke] of the graph, the workers' updates arriving in the order [order]. *)
Definition invoke_in_order (order : list Z) (llm : LLM) (sink : Sink)
    (initial_state : state) : M state :=
  update <- debug_node "PLANNER" (Planner.call llm) initial_state ;;
  let st := apply_update initial_state update in
  updates <- run_workers llm order st ;;
  let st := foldl apply_update st updates in
  update <- debug_node "CRITIQUE" (Critique.call llm) st ;;
  let st := apply_update st update in
  update <- debug_node "JUDGE" (Judge.call llm sink) st ;;
  ret (apply_update st update).

(** [range(1, 6)] *)
Definition slots : list Z := [1; 2; 3; 4; 5]%Z.

(** [create_log_analysis_graph().invoke(initial_state)] *)
Definition invoke_graph (llm : LLM) (sink : Sink) (initial_state : state)
    : M state :=
  invoke_in_order slots llm sink initial_state.

(** The largest C [ssize_t] of a 64-bit build ([sys.maxsize]). *)
Definition ssize_max : Z := 9223372036854775807.

(** [deque(maxlen=maxlen)]: the length is converted to a C [ssize_t], which
    raises [OverflowError] outside its range, and a negative one is then
    refused with [ValueError]. *)
Definition new_deque (maxlen : Z) : M unit :=
  if ((maxlen <? - ssize_max - 1) || (ssize_max <? maxlen))%Z
  then raise (mkExn "OverflowError" "Python int too large to convert to C ssize_t")
  else if (maxlen <? 0)%Z
  then raise (ValueError "maxlen must be non-negative")
  else ret tt.

(** Whether [except json.JSONDecodeError] catches [e]. *)
Definition is_json_decode_error (e : exn) : bool :=
  String.eqb (exn_type e) "JSONDecodeError".

Section Evidence.

(** A parsed JSON value. *)
Variable json : Type.
(** [json.loads(line)]: the parsed value, or the exception it raises, a
    [JSONDecodeError] for a line that is no JSON text and another one
    otherwise (a [ValueError] for an integer of more than 4300 digits, a
    [RecursionError] for a nesting too deep). *)
Variable json_loads : string -> outcome json.
(** [json.dumps(events, indent=2)]: the text, or the exception it raises
    (a [RecursionError] for a nesting too deep). *)
Variable json_dumps : list json -> outcome string.
(** Opening [file_path] (with [gzip.open] when the flag is set) and reading
    it line by line: the lines read, and the exception that ended the
    reading, if one did. A file that cannot be opened has no line. *)
Variable read_lines : string -> bool -> list string * option exn.
(** The [k]-th draw of the random source, as [random.random() < a / b]
    and as [random.randrange(n)]. *)
Variable random_below : nat -> Z -> Z -> bool.
Variable randrange : nat -> Z -> Z.

(** The loop's variables, and the number of draws made. *)
Record sample : Type := mkSample {
  events : list json;
  total_events : Z;
  draws : nat
}.

(** What the loop keeps true: the deque holds as many events as were
    read, up to its capacity. *)
Definition sample_fits (max_events : Z) (s : sample) : Prop :=
  (0 <= total_events s)%Z /\
  Z.of_nat (length (events s)) = Z.min (total_events s) max_events.

(** [events.append(event)] on a [deque(maxlen=maxlen)]. *)
Definition deque_append (maxlen : Z) (d : list json) (x : json) : list json :=
  let d' := d ++ [x] in
  if (Z.of_nat (length d') <=? maxlen)%Z then d' else drop 1 d'.

(** [events[i] = x] *)
Definition deque_setitem (d : list json) (i : Z) (x : json) : M (list json) :=
  let n := Z.of_nat (length d) in
  if ((0 <=? i) && (i <? n))%Z then ret (<[Z.to_nat i := x]> d)
  else if ((- n <=? i) && (i <? 0))%Z then ret (<[Z.to_nat (n + i) := x]> d)
  else raise (IndexError "deque index out of range").

(** The body of [for line in file]. *)
Definition sample_line (max_events : Z) (s : sample) (line : string) : M sample :=
  if String.eqb (PyStr.strip line) EmptyString then ret s
  else
    try_except
      (event <- (json_loads line, []) ;;
       let total := (total_events s + 1)%Z in
       if (total <=? max_events)%Z
       then ret (mkSample (deque_append max_events (events s) event) total (draws s))
       else
         (* random.random() is in [0, 1): it is below no ratio <= 0 *)
         let accepted :=
           (0 <? max_events)%Z && random_below (draws s) max_events total in
         if accepted
         then
           new_events <- deque_setitem (events s)
                           (randrange (S (draws s)) max_events) event ;;
           ret (mkSample new_events total (S (S (draws s))))
         else ret (mkSample (events s) total (S (draws s))))
      (fun e =>
         (* except json.JSONDecodeError: any other exception goes on *)
         if is_json_decode_error e
         then
           print (PyStr.concat ["Warning: Could not parse line as JSON: ";
                                PyStr.take 100 line; "..."]) ;;;
           ret s
         else raise e).

Fixpoint sample_lines (max_events : Z) (s : sample) (lines : list string)
    : M sample :=
  match lines with
  | [] => ret s
  | line :: rest =>
      s' <- sample_line max_events s line ;;
      sample_lines max_events s' rest
  end.

(** [read_crowdstrike_data(file_path, max_events)] *)
Definition read_crowdstrike_data (file_path : string) (max_events : Z) : M string :=
  (* events = deque(maxlen=max_events) *)
  new_deque max_events ;;;
  let is_gzipped := PyStr.endswith ".gz" file_path in
  let '(lines, failure) := read_lines file_path is_gzipped in
  read <- try_except
    (s <- sample_lines max_events (mkSample [] 0 0) lines ;;
     match failure with
     | Some e => raise e
     | None => ret tt
     end ;;;
     print ("Total events in file: " +:+ PyStr.str_of_int (total_events s)) ;;;
     print (PyStr.concat ["Randomly sampled ";
                          PyStr.str_of_nat (length (events s)); " events"]) ;;;
     ret (inl (events s)))
    (fun e =>
       print (PyStr.concat ["Error reading file "; file_path; ": "; exn_str e]) ;;;
       ret (inr ("Error reading CrowdStrike data: " +:+ exn_str e))) ;;
  match read with
  | inl sampled => (json_dumps sampled, [])
  | inr message => ret message
  end.

(** The global [ITERATION_COUNT]: set to 0 by [run_log_analysis] and
    assigned nowhere else. *)
Definition ITERATION_COUNT : Z := 0.

(** The dict [initial_state] of [run_log_analysis]. *)
Definition initial_state (human_input log_content : string) (max_iterations : Z)
    : state :=
  <["human_input" := VStr human_input]>
  (<["log_content" := VStr log_content]>
  (<["max_iterations" := VInt max_iterations]>
  (<["workers_to_revise" := VList []]>
  (<["iteration_count" := VInt 0]> ∅)))).

(** [run_log_analysis(human_input, log_file, max_events, max_iterations)] *)
Definition run_log_analysis (llm : LLM) (sink : Sink)
    (human_input log_file : string) (max_events max_iterations : Z) : M state :=
  log_content <- read_crowdstrike_data log_file max_events ;;
  let initial_state := initial_state human_input log_content max_iterations in
  print (PyStr.concat ["Initial state: global ITERATION_COUNT=";
                       PyStr.str_of_int ITERATION_COUNT; ", max_iterations=";
                       PyStr.str_of_int max_iterations]) ;;;
  result <- invoke_graph llm sink initial_state ;;
  print (PyStr.nl +:+ "=== ANALYSIS COMPLETE ===") ;;;
  print ("Final iteration count: " +:+ PyStr.str_of_int ITERATION_COUNT) ;;;
  ret (<["iteration_count" := VInt ITERATION_COUNT]> result).

End Evidence.

(** The loop [for i in range(1, 6)] of [main] that prints the finding of
    each slot that is in the result. *)
Fixpoint report_workers (result : state) (ids : list Z) : M unit :=
  match ids with
  | [] => ret tt
  | i :: ids' =>
      let worker_key := WorkerFactory.output_key i in
      match result !! worker_key with
      | Some worker_data =>
          role <- subscript worker_data "role" ;;
          print (PyStr.concat ["Specialist "; PyStr.str_of_int i; " ("; role; "):";
                               PyStr.nl]) ;;;
          analysis <- subscript worker_data "analysis" ;;
          print (analysis +:+ PyStr.nl) ;;;
          report_workers result ids'
      | None => report_workers result ids'
      end
  end.

(** What [main] prints once [run_log_analysis] has returned [result]. *)
Definition report (query : string) (result : state) : M unit :=
  print (PyStr.concat [PyStr.nl;
                       "===== CrowdStrike Falcon Anomaly Detection Results =====";
                       PyStr.nl]) ;;;
  print (PyStr.concat ["Investigation Request: "; query; PyStr.nl]) ;;;
  plan <- getitem result "plan" ;;
  plan <- as_str plan ;;
  print (PyStr.concat ["Analysis Plan:"; PyStr.nl; plan; PyStr.nl]) ;;;
  report_workers result slots ;;;
  critique_output <- getitem result "critique_output" ;;
  assessment <- subscript critique_output "assessment" ;;
  print (PyStr.concat ["Consensus Analysis (with voting):"; PyStr.nl; assessment;
                       PyStr.nl]) ;;;
  final_judgment <- getitem result "final_judgment" ;;
  evaluation <- subscript final_judgment "evaluation" ;;
  print (PyStr.concat ["Final Verdict and Remediation:"; PyStr.nl; evaluation;
                       PyStr.nl]).

(** [main()], for the parsed arguments [--query], [--log-file] (which
    may be left out: [None]), [--max-events] and [--max-iterations]. *)
Definition main {json : Type} (json_loads : string -> outcome json)
    (json_dumps : list json -> outcome string)
    (read_lines : string -> bool -> list string * option exn)
    (random_below : nat -> Z -> Z -> bool) (randrange : nat -> Z -> Z)
    (llm : LLM) (sink : Sink) (query : string) (log_file : option string)
    (max_events max_iterations : Z) : M unit :=
  match log_file with
  | Some log_file =>
      result <- run_log_analysis json json_loads json_dumps read_lines random_below
                  randrange llm sink query log_file max_events max_iterations ;;
      report query result
  | None =>
      (* read_crowdstrike_data(None, max_events): the deque is made, then
         file_path.endswith raises *)
      new_deque max_events ;;;
      raise (mkExn "AttributeError" "'NoneType' object has no attribute 'endswith'")
  end.

End Main.

(** ** utils/visualization.py *)

Module Visualization.

Import Regex.

(** The patterns [r1 r2 ... rn] in a row. *)
Fixpoint cat_all (r : regex) (rs : list regex) : regex :=
  match rs with
  | [] => r
  | r' :: rs' => Cat r (cat_all r' rs')
  end.

(** [timestamp_pattern]: (\d{4}-\d{2}-\d{2}T\d{2}:\d{2}:\d{2}), each
    counted repetition written out. *)
Definition timestamp_pattern : regex :=
  let d := Chr c_digit in
  let lit c := Chr (c_lit c) in
  Grp 1 (cat_all d [ d; d; d; lit "-"%char; d; d; lit "-"%char; d; d; lit "T"%char;
                     d; d; lit ":"%char; d; d; lit ":"%char; d; d ]).

(** [re.findall(r, s)] for a pattern with one group. *)
Definition findall1 (r : regex) (s : string) : list string :=
  map (fun g => group g 1) (scan r s 0).

(** [s.find(sub)], the scan being at index [i]. *)
Fixpoint find_from (sub s : string) (i : nat) : Z :=
  if PyStr.startswith sub s then Z.of_nat i
  else match s with
       | EmptyString => (-1)%Z
       | String _ s' => find_from sub s' (S i)
       end.

(** [s.find(sub)] *)
Definition find (sub s : string) : Z := find_from sub s 0.

(** [s[start:stop]] for two indices that are not negative. *)
Definition slice (s : string) (start stop : Z) : string :=
  PyStr.take (Z.to_nat (stop - start)) (PyStr.drop (Z.to_nat start) s).

(** [s.replace(c, new)] for a single character [c]. *)
Fixpoint replace_char (c : ascii) (new s : string) : string :=
  match s with
  | EmptyString => EmptyString
  | String a s' =>
      if Ascii.eqb a c then new +:+ replace_char c new s'
      else String a (replace_char c new s')
  end.

Section Timeline.

(** [datetime], [datetime.fromisoformat] (which raises a [ValueError] for
    a text that is no date and time) and [a < b] on two datetimes made
    from texts of one format. *)
Variable datetime : Type.
Variable fromisoformat : string -> outcome datetime.
Variable before : datetime -> datetime -> bool.

(** An entry of [events]. *)
Record timeline_event : Type := mkEvent {
  timestamp : string;
  description : string;
  source : string;
  datetime_of : datetime
}.

(** The body of [for ts in matches]. *)
Definition event_of (analysis role ts : string) : M timeline_event :=
  let idx := find ts analysis in
  let start := Z.max 0 (idx - 50) in
  let stop := Z.min (Z.of_nat (String.length analysis)) (idx + 50) in
  let context := PyStr.strip (slice analysis start stop) in
  moment <- (fromisoformat (replace_char "Z"%char "+00:00" ts), []) ;;
  ret (mkEvent ts context role moment).

(** The loop [for i in range(1, 6)] over the worker outputs. *)
Fixpoint collect (result : state) (ids : list Z) : M (list timeline_event) :=
  match ids with
  | [] => ret []
  | i :: ids' =>
      let worker_key := WorkerFactory.output_key i in
      match result !! worker_key with
      | Some worker_data =>
          analysis <- subscript worker_data "analysis" ;;
          role <- subscript worker_data "role" ;;
          let matches := findall1 timestamp_pattern analysis in
          found <- for_each matches (event_of analysis role) ;;
          rest <- collect result ids' ;;
          ret (found ++ rest)
      | None => collect result ids'
      end
  end.

(** [events.sort(key=lambda x: x['datetime'])]: the sort is stable and
    compares with [<] only. *)
Fixpoint insert_event (x : timeline_event) (l : list timeline_event)
    : list timeline_event :=
  match l with
  | [] => [x]
  | y :: l' =>
      if before (datetime_of y) (datetime_of x) then y :: insert_event x l'
      else x :: l
  end.

Definition sort_events (l : list timeline_event) : list timeline_event :=
  foldr insert_event [] l.

(** [extract_events_timeline(result)] *)
Definition extract_events_timeline (result : state) : M (list timeline_event) :=
  events <- collect result [1; 2; 3; 4; 5]%Z ;;
  ret (sort_events events).

(** The directory check at the head of [visualize_results]
    ([os.path.exists], [os.makedirs]) and the three drawings (matplotlib,
    networkx): what is drawn is not modelled, only whether the drawing
    raises. *)
Variable make_output_dir : outcome unit.
Variable plot_attack_graph : list timeline_event -> string -> outcome unit.
Variable plot_confidence : string -> outcome unit.
Variable plot_specialists : state -> outcome unit.

(** [create_attack_graph(events, query)] *)
Definition create_attack_graph (events : list timeline_event) (query : string)
    : M string :=
  (plot_attack_graph events query, []) ;;;
  ret "output/attack_graph.png".

(** [create_confidence_chart(critique)] *)
Definition create_confidence_chart (critique : string) : M string :=
  (plot_confidence critique, []) ;;;
  ret "output/confidence_levels.png".

(** [create_specialist_chart(result)] *)
Definition create_specialist_chart (result : state) : M string :=
  (plot_specialists result, []) ;;;
  ret "output/specialist_contributions.png".

(** [result.get('critique_output', {}).get('assessment', '')] *)
Definition critique_text (result : state) : M string :=
  match result !! "critique_output" with
  | None => ret EmptyString
  | Some (VDict d) => ret (default EmptyString (d !! "assessment"))
  | Some (VStr _) => raise (mkExn "AttributeError" "'str' object has no attribute 'get'")
  | Some (VInt _) => raise (mkExn "AttributeError" "'int' object has no attribute 'get'")
  | Some (VList _) =>
      raise (mkExn "AttributeError" "'list' object has no attribute 'get'")
  end.

(** [visualize_results(result, query)] *)
Definition visualize_results (result : state) (query : string)
    : M (list (string * string)) :=
  (make_output_dir, []) ;;;
  try_except
    (events <- extract_events_timeline result ;;
     attack_graph_path <- create_attack_graph events query ;;
     critique <- critique_text result ;;
     confidence_chart_path <- create_confidence_chart critique ;;
     specialist_chart_path <- create_specialist_chart result ;;
     ret [ ("attack_graph", attack_graph_path);
           ("confidence_levels", confidence_chart_path);
           ("specialist_contributions", specialist_chart_path) ])
    (fun e =>
       print ("Error in visualization: " +:+ exn_str e) ;;;
       raise e).

End Timeline.

End Visualization.

(** ** demo.py *)

Module Demo.

(** The keys and the queries of [scenarios], in the order of the dict
    ([create_demo_logs] returns it after writing the log files). *)
Definition scenarios : list (string * string) :=
  [ ("lateral_movement",
     "Can you identify any lateral movement or host discovery activities in the logs?");
    ("credential_theft",
     "Check if there are any credential theft attempts in the logs");
    ("data_exfiltration",
     "Check if there's evidence of data exfiltration in these logs") ].

(** [list(scenarios.keys())] *)
Definition keys : list string := map fst scenarios.







Section Choice.

(** [int(text)]; [None] is its [ValueError]. *)
Variable int : string -> option Z.


(** [except (ValueError, IndexError)] *)
Definition caught (e : exn) : bool :=
  String.eqb (exn_type e) "ValueError" || String.eqb (exn_type e) "IndexError".



End Choice.

(** [c * n] for a text of one character. *)
Definition repeated (c : ascii) (n : nat) : string :=
  string_of_list_ascii (repeat c n).



Section Run.

(** The collaborators of [run_log_analysis] and of [visualize_results],
    [int], the writing of the demo log files by [create_demo_logs], and
    the seconds between the two readings of the clock as [:.2f] formats
    them. *)
Variable json : Type.
Variable json_loads : string -> outcome json.
Variable json_dumps : list json -> outcome string.
Variable read_lines : string -> bool -> list string * option exn.
Variable random_below : nat -> Z -> Z -> bool.
Variable randrange : nat -> Z -> Z.
Variable llm : LLM.
Variable sink : Sink.
Variable int : string -> option Z.
Variable write_demo_logs : outcome unit.
Variable seconds : string.
Variable datetime : Type.
Variable fromisoformat : string -> outcome datetime.
Variable before : datetime -> datetime -> bool.
Variable make_output_dir : outcome unit.
Variable plot_attack_graph :
  list (Visualization.timeline_event datetime) -> string -> outcome unit.
Variable plot_confidence : string -> outcome unit.
Variable plot_specialists : state -> outcome unit.


End Run.

End Demo.

(** ** What the specification's words mean *)

Module Spec.

(** [sub] occurs in [s]. *)
Definition is_substring (sub s : string) : Prop :=
  exists pre post, s = pre +:+ sub +:+ post.

(** [candidate] is contained in [canonical], letter case apart. *)
Definition contained_ignoring_case (candidate canonical : string) : Prop :=
  is_substring (PyStr.lower candidate) (PyStr.lower canonical).

(** The contract of the Role Resolver over the canonical roles [roles] in
    their order: an exact name is returned unchanged; otherwise the first
    role that contains the label wins; otherwise the default; and the
    answer is always one of the roles. *)
Definition role_resolution_contract (roles : list string) (default_role : string)
    (resolve : string -> outcome string) : Prop :=
  forall candidate : string,
    (In candidate roles -> resolve candidate = Ok candidate) /\
    (forall pre v post,
        ~ In candidate roles ->
        roles = pre ++ v :: post ->
        Forall (fun u => ~ contained_ignoring_case candidate u) pre ->
        contained_ignoring_case candidate v ->
        resolve candidate = Ok v) /\
    (~ In candidate roles ->
     Forall (fun u => ~ contained_ignoring_case candidate u) roles ->
     resolve candidate = Ok default_role) /\
    (exists r, resolve candidate = Ok r /\ In r roles).

(** A run that ends with a complete record and a verdict: every slot
    has a finding and [final_judgment] is there. *)
Definition completes_with_verdict (run : outcome state) : Prop :=
  exists final,
    run = Ok final /\
    (forall num, In num Main.slots ->
                 is_Some (final !! WorkerFactory.output_key num)) /\
    is_Some (final !! "final_judgment").


(** The number of assignments of a parsed plan. *)
Definition plan_length (parsed : outcome (string * list (gmap string string)))
    : option nat :=
  match parsed with
  | Ok (_, assignments) => Some (length assignments)
  | Raise _ => None
  end.

(** The same, as a check that can be run. *)
Definition completes_with_verdictb (run : outcome state) : bool :=
  match run with
  | Ok final =>
      forallb (fun num => bool_decide (is_Some (final !! WorkerFactory.output_key num)))
              Main.slots
      && bool_decide (is_Some (final !! "final_judgment"))
  | Raise _ => false
  end.

End Spec.

(** ** Concrete collaborators and inputs, for the examples *)

Module Scenario.

(** A planning response in the format the planner's prompt asks for. *)
Definition plan_text : string :=
  "PLAN: look at the logs

WORKERS:
1. Initial Access Specialist: taskA
2. Execution Specialist: taskB".

(** Is this the planner's call? *)
Definition for_planner (messages : list message) : bool :=
  match messages with
  | SystemMessage s :: _ => String.eqb s Prompts.planner_system
  | _ => false
  end.

(** A text generation that always answers: the plan above to the
    planner, a fixed text to everybody else. *)
Definition answering : LLM := fun messages =>
  if for_planner messages then Ok plan_text else Ok "finding".

Definition quota_error : exn := mkExn "RateLimitError" "quota exceeded".

(** Is this the call of the worker with the Execution role? *)
Definition for_execution_worker (messages : list message) : bool :=
  match messages with
  | SystemMessage s :: _ =>
      String.eqb s (WorkerFactory.dict_get Prompts.role_prompts
                      "Execution Specialist" EmptyString)
  | _ => false
  end.

(** The same, failing for one worker: the one with the Execution role. *)
Definition flaky : LLM := fun messages =>
  if for_execution_worker messages then Raise quota_error else answering messages.

Definition working_sink : Sink := mkSink (Ok tt) (fun _ => Ok tt).

Definition sink_error : exn := mkExn "LangSmithError" "connection refused".

Definition failing_sink : Sink := mkSink (Ok tt) (fun _ => Raise sink_error).

(** The state a run starts from. *)
Definition request : state :=
  Main.initial_state "Any lateral movement?" "[]" 3.

(** A state as the Decision Stage finds it. *)
Definition aggregated : state :=
  <["plan" := VStr "look at the logs"]>
  (<["worker1_output" := WorkerFactory.finding "Discovery Specialist" "nothing found"]>
  (<["critique_output" := VDict {[ "assessment" := "no findings" ]}]> request)).

(** What the planner returns for [request] and [plan_text]. *)
Definition planned_update : state :=
  <["plan" := VStr "look at the logs"]>
  (<["worker_definitions" :=
       VList [ Planner.worker_def "Initial Access Specialist" "Access Specialist: taskA";
               Planner.worker_def "Execution Specialist" "Specialist: taskB" ]]>
   request).

(** The messages the second worker sends for [request] and [plan_text]. *)
Definition execution_messages : list message :=
  [ SystemMessage (WorkerFactory.dict_get Prompts.role_prompts
                     "Execution Specialist" EmptyString);
    HumanMessage (Prompts.worker_human_message "Any lateral movement?"
                    "look at the logs" "Specialist: taskB" "[]"
                    "Execution Specialist") ].

(** An evidence file that cannot be opened. *)
Definition missing_file_error : exn :=
  mkExn "FileNotFoundError" "[Errno 2] No such file or directory: 'missing.json'".

Definition no_file : string -> bool -> list string * option exn :=
  fun _ _ => ([], Some missing_file_error).

(** A JSON codec for the examples: every line parses, as itself. *)
Definition loads_any : string -> outcome string := Ok.
Definition dumps_lines : list string -> outcome string :=
  fun events => Ok (String.concat PyStr.nl events).

(** A random source that never replaces a sampled event. *)
Definition never_below : nat -> Z -> Z -> bool := fun _ _ _ => false.
Definition first_index : nat -> Z -> Z := fun _ _ => 0%Z.



(** A planning response that lists six workers. *)
Definition six_workers : string :=
  "PLAN: look at the logs

WORKERS:
1. Discovery: a
2. Execution: b
3. Persistence: c
4. Collection: d
5. Exfiltration: e
6. Lateral: f".

(** The state the planner leaves for [request] and [plan_text]. *)
Definition planned : state := Main.apply_update request planned_update.

(** [c] repeated [n] times. *)
Fixpoint repeated (c : ascii) (n : nat) : string :=
  match n with
  | O => EmptyString
  | S n' => String c (repeated c n')
  end.

(** Two evidence payloads that differ only after character 10000. *)
Definition long_log_a : string := repeated "e" 10000 +:+ "tail A".
Definition long_log_b : string := repeated "e" 10000 +:+ "another tail".

(** A worker as the factory makes it. *)
Definition discovery_worker : WorkerFactory.SecurityWorker :=
  WorkerFactory.mkSecurityWorker answering 1 "Discovery Specialist" "taskA"
    (WorkerFactory.dict_get Prompts.role_prompts "Discovery Specialist" EmptyString).

(** An evidence file of four lines, the second blank, read without a
    failure; a codec for it, in which the lines that open a brace parse. *)
Definition four_lines : string -> bool -> list string * option exn :=
  fun _ _ => (["{a}"; "  "; "oops"; "{b}"], None).
Definition loads_braced : string -> outcome string :=
  fun line =>
    if PyStr.startswith "{" line then Ok line
    else Raise (mkExn "JSONDecodeError" "Expecting value: line 1 column 1 (char 0)").

(** A codec in which [json.loads] fails on a line that opens with a 9 as
    it does on an integer of more than 4300 digits, with a [ValueError]
    that is no [JSONDecodeError]; a file with such a line; and a
    [json.dumps] that fails as it does on a nesting too deep. *)
Definition too_many_digits : exn :=
  ValueError "Exceeds the limit (4300 digits) for integer string conversion".
Definition loads_short : string -> outcome string :=
  fun line =>
    if PyStr.startswith "9" line then Raise too_many_digits else loads_braced line.
Definition digits_file : string -> bool -> list string * option exn :=
  fun _ _ => (["{a}"; "oops"; "99"; "{b}"], None).
Definition recursion_error : exn :=
  mkExn "RecursionError" "maximum recursion depth exceeded".
Definition dumps_too_deep : list string -> outcome string :=
  fun _ => Raise recursion_error.

(** A random source that replaces whenever it is asked. *)
Definition always_below : nat -> Z -> Z -> bool := fun _ _ _ => true.

(** The state the graph returns for [request] when the text generation is
    [answering]. *)
Definition completed : state :=
  <["final_judgment" := VDict {[ "evaluation" := "finding" ]}]>
  (<["critique_output" := VDict {[ "assessment" := "finding" ]}]>
  (<["worker1_output" := WorkerFactory.finding "Initial Access Specialist" "finding"]>
  (<["worker2_output" := WorkerFactory.finding "Execution Specialist" "finding"]>
  (<["worker3_output" := WorkerFactory.finding "Default" "No specific role defined."]>
  (<["worker4_output" := WorkerFactory.finding "Default" "No specific role defined."]>
  (<["worker5_output" := WorkerFactory.finding "Default" "No specific role defined."]>
   planned_update)))))).

(** What [run_without_evidence] returns. *)
Definition returned_without_evidence : state :=
  <["final_judgment" := VDict {[ "evaluation" := "finding" ]}]>
  (<["critique_output" := VDict {[ "assessment" := "finding" ]}]>
  (<["worker1_output" := WorkerFactory.finding "Initial Access Specialist" "finding"]>
  (<["worker2_output" := WorkerFactory.finding "Execution Specialist" "finding"]>
  (<["worker3_output" := WorkerFactory.finding "Default" "No specific role defined."]>
  (<["worker4_output" := WorkerFactory.finding "Default" "No specific role defined."]>
  (<["worker5_output" := WorkerFactory.finding "Default" "No specific role defined."]>
  (<["plan" := VStr "look at the logs"]>
  (<["worker_definitions" :=
       VList [ Planner.worker_def "Initial Access Specialist" "Access Specialist: taskA";
               Planner.worker_def "Execution Specialist" "Specialist: taskB" ]]>
   (Main.initial_state "Any lateral movement?"
      ("Error reading CrowdStrike data: " +:+ exn_str missing_file_error) 3))))))))).

(** The first worker output of the sample at the foot of
    utils/visualization.py, a [fromisoformat] that keeps the text, and
    the order of such texts. *)
Definition sample_result : state :=
  {[ "worker1_output" :=
       WorkerFactory.finding "Lateral Movement Specialist"
         "Found evidence at 2024-03-15T10:34:56Z: Suspicious network connection" ]}.
Definition iso_text : string -> outcome string := Ok.
Definition text_before (a b : string) : bool :=
  match String.compare a b with Lt => true | _ => false end.

(** The timeline of [sample_result]. *)
Definition sample_timeline : list (Visualization.timeline_event string) :=
  [ Visualization.mkEvent string "2024-03-15T10:34:56"
      "Found evidence at 2024-03-15T10:34:56Z: Suspicious network connectio"
      "Lateral Movement Specialist" "2024-03-15T10:34:56" ].

(** A worker output whose analysis quotes a time that is no time of the
    calendar, and a [fromisoformat] that refuses it. *)
Definition misdated_result : state :=
  {[ "worker2_output" :=
       WorkerFactory.finding "Credential Access Specialist"
         "Detected at 2024-13-45T10:35:10Z: Possible credential access" ]}.
Definition month_error : exn := mkExn "ValueError" "month must be in 1..12".
Definition strict_iso : string -> outcome string :=
  fun text => if String.eqb text "2024-13-45T10:35:10" then Raise month_error
              else Ok text.

End Scenario.

(** ** Shapes of texts and patterns, for the properties of the code *)

Module Shape.

(** Every character of [s] passes [p]. *)
Fixpoint all_chars (p : ascii -> bool) (s : string) : bool :=
  match s with
  | EmptyString => true
  | String c s' => p c && all_chars p s'
  end.

(** [s] without the character [c]. *)
Fixpoint without_char (c : ascii) (s : string) : string :=
  match s with
  | EmptyString => EmptyString
  | String a s' => if Ascii.eqb a c then without_char c s' else String a (without_char c s')
  end.

(** How many characters at the head of [s] pass [p]. *)
Fixpoint leading (p : ascii -> bool) (s : string) : nat :=
  match s with
  | EmptyString => 0
  | String c s' => if p c then S (leading p s') else 0
  end.

(** The pattern [r] has no capture group number [i]. *)
Fixpoint no_group (i : nat) (r : Regex.regex) : bool :=
  match r with
  | Regex.Cat r1 r2 | Regex.Alt r1 r2 => no_group i r1 && no_group i r2
  | Regex.Grp j r1 => negb (Nat.eqb i j) && no_group i r1
  | Regex.Ahead r1 => no_group i r1
  | _ => true
  end.

(** An assignment as the planner makes it: the two keys, a canonical
    role, and a task text without asterisks. *)
Definition assignment (d : gmap string string) : Prop :=
  exists role tasks,
    d = Planner.worker_def role tasks /\
    In role Planner.valid_roles /\
    all_chars (fun c => negb (Ascii.eqb c "*")) tasks = true.

(** The dict [d] has the key [k]. *)
Definition has_key (d : list (string * string)) (k : string) : bool :=
  existsb (fun kv => String.eqb k (fst kv)) d.

(** The keys of the state the Critique stage looks up. *)
Definition critique_reads : list string :=
  "human_input" :: "plan" :: map WorkerFactory.output_key Main.slots.

(** The keys of the state the Judge's call of the text generation uses. *)
Definition judge_reads : list string :=
  [ "human_input"; "plan"; "critique_output" ].

(** Two states hold the same under every key of [keys]. *)
Definition agree_on (keys : list string) (st st' : state) : Prop :=
  Forall (fun k => st !! k = st' !! k) keys.

(** At most one leading blank, and no other: the shape of a role label
    the pattern can capture. *)
Definition one_word (s : string) : bool :=
  match s with
  | EmptyString => false
  | String _ s' => all_chars (fun c => negb (PyStr.is_space c)) s'
  end.

(** What follows the role group in [Planner.worker_pattern]: the
    separator, the task group and the lookahead. *)
Definition after_role : Regex.regex :=
  Regex.Cat (Regex.Alt (Regex.Cat (Regex.Rep Regex.c_space 0 false)
                       (Regex.Cat (Regex.Chr (Regex.c_lit ":"))
                                  (Regex.Rep Regex.c_space 0 false)))
                       (Regex.Rep Regex.c_space 1 false))
 (Regex.Cat (Regex.Grp 3 (Regex.Rep Regex.c_any 0 true))
      (Regex.Ahead (Regex.Alt (Regex.Cat (Regex.Rep Regex.c_digit 1 false)
                  (Regex.Cat (Regex.Chr (Regex.c_lit "."))
                  (Regex.Cat (Regex.Rep Regex.c_space 0 false)
                  (Regex.Cat (Regex.Rep (Regex.c_not ":") 1 false)
                       (Regex.Chr (Regex.c_lit ":"))))))
                  Regex.Eos))).

(** The event a line of the evidence file stands for: none for a blank
    line and for a line that is no JSON. *)
Definition parsed_line {json : Type} (json_loads : string -> outcome json)
    (line : string) : option json :=
  if String.eqb (PyStr.strip line) EmptyString then None
  else match json_loads line with
       | Ok event => Some event
       | Raise _ => None
       end.

(** The events of the lines, in the order of the file. *)
Definition parsed {json : Type} (json_loads : string -> outcome json)
    (lines : list string) : list json :=
  omap (parsed_line json_loads) lines.

(** The warnings for the lines that are not blank and on which
    [json.loads] raises a [JSONDecodeError], in the order of the file. *)
Definition warnings {json : Type} (json_loads : string -> outcome json)
    (lines : list string) : list event :=
  flat_map
    (fun line =>
       if String.eqb (PyStr.strip line) EmptyString then []
       else match json_loads line with
            | Ok _ => []
            | Raise e =>
                if Main.is_json_decode_error e
                then [Printed (PyStr.concat ["Warning: Could not parse line as JSON: ";
                                             PyStr.take 100 line; "..."])]
                else []
            end)
    lines.

(** The lines on which [json.loads] raises something that
    [except json.JSONDecodeError] does not catch. *)
Definition unreadable {json : Type} (json_loads : string -> outcome json)
    (lines : list string) : list (string * exn) :=
  flat_map
    (fun line =>
       if String.eqb (PyStr.strip line) EmptyString then []
       else match json_loads line with
            | Ok _ => []
            | Raise e => if Main.is_json_decode_error e then [] else [(line, e)]
            end)
    lines.

(** The exception the [try] block of [read_crowdstrike_data] ends with
    when the reading of the file fails with [e] after [lines]: what
    [json.loads] raised on the first of the lines the inner [except] does
    not catch, and [e] when there is no such line. *)
Definition caught {json : Type} (json_loads : string -> outcome json)
    (lines : list string) (e : exn) : exn :=
  match unreadable json_loads lines with
  | [] => e
  | (_, x) :: _ => x
  end.

(** The two lines [main] prints for the finding of slot [i]. *)
Definition specialist_lines (i : Z) (finding : string * string) : list event :=
  [ Printed (PyStr.concat ["Specialist "; PyStr.str_of_int i; " ("; fst finding; "):";
                           PyStr.nl]);
    Printed (snd finding +:+ PyStr.nl) ].

(** The report of [main] for a request, a plan, the findings of the slots
    [ids], an assessment and an evaluation. *)
Definition report_lines (query plan : string) (ids : list Z)
    (findings : list (string * string)) (assessment evaluation : string)
    : list event :=
  [ Printed (PyStr.concat [PyStr.nl;
                           "===== CrowdStrike Falcon Anomaly Detection Results =====";
                           PyStr.nl]);
    Printed (PyStr.concat ["Investigation Request: "; query; PyStr.nl]);
    Printed (PyStr.concat ["Analysis Plan:"; PyStr.nl; plan; PyStr.nl]) ]
  ++ concat (zip_with specialist_lines ids findings)
  ++ [ Printed (PyStr.concat ["Consensus Analysis (with voting):"; PyStr.nl; assessment;
                              PyStr.nl]);
       Printed (PyStr.concat ["Final Verdict and Remediation:"; PyStr.nl; evaluation;
                              PyStr.nl]) ].

(** The calls of the text generation in a trace: the messages of each,
    in the order of the calls. *)
Definition calls (t : list event) : list (list message) :=
  omap (fun ev => match ev with Invoked messages => Some messages | _ => None end) t.

(** The classes of a pattern that is a row of single characters. *)
Fixpoint fixed (r : Regex.regex) : option (list Regex.cclass) :=
  match r with
  | Regex.Chr cl => Some [cl]
  | Regex.Cat r1 r2 =>
      match fixed r1, fixed r2 with
      | Some cls1, Some cls2 => Some (cls1 ++ cls2)
      | _, _ => None
      end
  | _ => None
  end.

(** The text [p] has one character for each class of [cls], accepted by it. *)
Fixpoint classes_accept (cls : list Regex.cclass) (p : string) : bool :=
  match cls, p with
  | [], EmptyString => true
  | cl :: cls', String a p' => Regex.accepts cl a && classes_accept cls' p'
  | _, _ => false
  end.

(** The characters of a timestamp: digits, the two separators and the T. *)
Definition stamp_char (c : ascii) : bool :=
  PyStr.is_digit c || Ascii.eqb c "-" || Ascii.eqb c "T" || Ascii.eqb c ":".

(** What an entry of the timeline says of the result it was made from:
    it stands for a timestamp found in the analysis of a slot. *)
Definition timeline_entry {datetime : Type} (fromisoformat : string -> outcome datetime)
    (final : state) (ids : list Z) (ev : Visualization.timeline_event datetime)
    : Prop :=
  exists i worker_data analysis,
    In i ids /\
    final !! WorkerFactory.output_key i = Some worker_data /\
    result (subscript worker_data "analysis") = Ok analysis /\
    result (subscript worker_data "role") = Ok (Visualization.source datetime ev) /\
    In (Visualization.timestamp datetime ev)
       (Visualization.findall1 Visualization.timestamp_pattern analysis) /\
    fromisoformat (Visualization.timestamp datetime ev)
    = Ok (Visualization.datetime_of datetime ev) /\
    Visualization.description datetime ev
    = PyStr.strip
        (Visualization.slice analysis
           (Z.max 0 (Visualization.find (Visualization.timestamp datetime ev) analysis
                     - 50))
           (Z.min (Z.of_nat (String.length analysis))
                  (Visualization.find (Visualization.timestamp datetime ev) analysis
                   + 50))).



(** The text does not begin with a character that passes [p]. *)
Definition stops (p : ascii -> bool) (s : string) : bool :=
  match s with
  | EmptyString => true
  | String c _ => negb (p c)
  end.

(** The text begins with a character that is neither blank nor a colon:
    the role name goes on. *)
Definition goes_on (s : string) : bool :=
  match s with
  | EmptyString => false
  | String c _ => negb (PyStr.is_space c) && negb (Ascii.eqb c ":")
  end.

(** The two halves of [after_role]: the separator after the role, and
    the task group with its lookahead. *)
Definition separator : Regex.regex :=
  Regex.Alt (Regex.Cat (Regex.Rep Regex.c_space 0 false)
            (Regex.Cat (Regex.Chr (Regex.c_lit ":"))
                       (Regex.Rep Regex.c_space 0 false)))
            (Regex.Rep Regex.c_space 1 false).

Definition tasks_part : Regex.regex :=
  Regex.Cat (Regex.Grp 3 (Regex.Rep Regex.c_any 0 true))
      (Regex.Ahead (Regex.Alt (Regex.Cat (Regex.Rep Regex.c_digit 1 false)
                  (Regex.Cat (Regex.Chr (Regex.c_lit "."))
                  (Regex.Cat (Regex.Rep Regex.c_space 0 false)
                  (Regex.Cat (Regex.Rep (Regex.c_not ":") 1 false)
                       (Regex.Chr (Regex.c_lit ":"))))))
                  Regex.Eos)).

(** A character of a word of a role name: no blank and no colon. *)
Definition word_char (c : ascii) : bool :=
  negb (PyStr.is_space c) && negb (Ascii.eqb c ":").

(** The first word of a name, and what follows the blank after it. *)
Fixpoint first_word (s : string) : string :=
  match s with
  | EmptyString => EmptyString
  | String c s' => if PyStr.is_space c then EmptyString else String c (first_word s')
  end.

Definition after_first_word (s : string) : string :=
  PyStr.drop (S (String.length (first_word s))) s.

End Shape.

(** * Properties *)

(** Settles a decidable fact about concrete inputs by evaluation. *)
Ltac by_computation := apply (bool_decide_unpack _); vm_compute; exact I.

Lemma in_by_computation {A} `{EqDecision A} (x : A) (l : list A) :
  Is_true (bool_decide (x ∈ l)) -> In x l.
Proof. intros H. apply list_elem_of_In. now apply bool_decide_unpack in H. Qed.

Lemma completes_with_verdictb_spec (run : outcome state) :
  Spec.completes_with_verdictb run = true <-> Spec.completes_with_verdict run.
Proof.
  unfold Spec.completes_with_verdictb, Spec.completes_with_verdict.
  destruct run as [final | e].
  - rewrite andb_true_iff, forallb_forall, bool_decide_eq_true. split.
    + intros [Hslots Hverdict]. exists final. split; [reflexivity |].
      split; [| exact Hverdict].
      intros num Hnum. apply Hslots in Hnum. now apply bool_decide_eq_true in Hnum.
    + intros [final' [Heq [Hslots Hverdict]]]. injection Heq as <-.
      split; [| exact Hverdict].
      intros num Hnum. apply bool_decide_eq_true. now apply Hslots.
  - split; [discriminate | intros [final [Heq _]]; discriminate].
Qed.

(** ** Computations *)

Section MonadFacts.
Context {A B : Type}.

Lemma result_bind (m : M A) (f : A -> M B) :
  result (bind m f) =
  match result m with
  | Ok a => result (f a)
  | Raise e => Raise e
  end.
Proof.
  destruct m as [[a | e] t]; cbn; [| reflexivity].
  destruct (f a); reflexivity.
Qed.

Lemma trace_bind (m : M A) (f : A -> M B) :
  trace (bind m f) =
  match result m with
  | Ok a => trace m ++ trace (f a)
  | Raise e => trace m
  end.
Proof.
  destruct m as [[a | e] t]; cbn; [| reflexivity].
  destruct (f a); reflexivity.
Qed.

Lemma result_bind_ok (m : M A) (f : A -> M B) (a : A) :
  result m = Ok a -> result (bind m f) = result (f a).
Proof. intros H. rewrite result_bind, H. reflexivity. Qed.

Lemma result_bind_raise (m : M A) (f : A -> M B) (e : exn) :
  result m = Raise e -> result (bind m f) = Raise e.
Proof. intros H. rewrite result_bind, H. reflexivity. Qed.

Lemma bind_ok_inv (m : M A) (f : A -> M B) (b : B) :
  result (bind m f) = Ok b ->
  exists a, result m = Ok a /\ result (f a) = Ok b.
Proof.
  rewrite result_bind. destruct (result m) as [a | e]; [eauto | discriminate].
Qed.

End MonadFacts.

Lemma result_print_then {A} (text : string) (k : M A) :
  result (bind (print text) (fun _ => k)) = result k.
Proof. rewrite result_bind. reflexivity. Qed.

Lemma result_try_except {A} (body : M A) (handler : exn -> M A) :
  result (try_except body handler) =
  match result body with
  | Ok a => Ok a
  | Raise e => result (handler e)
  end.
Proof.
  destruct body as [[a | e] t]; cbn; [reflexivity |].
  destruct (handler e); reflexivity.
Qed.

Lemma trace_try_except {A} (body : M A) (handler : exn -> M A) :
  trace (try_except body handler) =
  match result body with
  | Ok a => trace body
  | Raise e => trace body ++ trace (handler e)
  end.
Proof.
  destruct body as [[a | e] t]; cbn; [reflexivity |].
  destruct (handler e); reflexivity.
Qed.

(** ** Strings *)

Lemma startswith_spec (p s : string) :
  PyStr.startswith p s = true <-> exists post, s = p +:+ post.
Proof.
  revert s. induction p as [| a p IH]; intros s; cbn.
  - split; [intros _; exists s; reflexivity | reflexivity].
  - destruct s as [| b s]; cbn.
    + split; [discriminate | intros [post H]; discriminate].
    + destruct (Ascii.eqb_spec a b) as [-> | Hne].
      * rewrite IH. split; intros [post H]; exists post.
        -- now rewrite H.
        -- now injection H.
      * split; [discriminate | intros [post H]; injection H; congruence].
Qed.

Lemma contains_spec (sub s : string) :
  PyStr.contains sub s = true <-> Spec.is_substring sub s.
Proof.
  unfold Spec.is_substring. induction s as [| c s IH].
  - cbn. rewrite orb_false_r, startswith_spec. split.
    + intros [post H]. exists EmptyString, post. exact H.
    + intros [pre [post H]]. destruct pre; [exists post; exact H | discriminate].
  - cbn [PyStr.contains]. rewrite orb_true_iff, startswith_spec, IH. split.
    + intros [[post H] | [pre [post H]]].
      * exists EmptyString, post. exact H.
      * exists (String c pre), post. cbn. now rewrite H.
    + intros [pre [post H]]. destruct pre as [| a pre].
      * left. exists post. exact H.
      * right. exists pre, post. cbn in H. now injection H.
Qed.

Lemma contains_false (sub s : string) :
  ~ Spec.is_substring sub s -> PyStr.contains sub s = false.
Proof.
  intros H. destruct (PyStr.contains sub s) eqn:E; [| reflexivity].
  apply contains_spec in E. contradiction.
Qed.

Lemma role_in_spec (role : string) (roles : list string) :
  Planner.role_in role roles = true <-> In role roles.
Proof.
  unfold Planner.role_in. rewrite existsb_exists. split.
  - intros [x [Hx Heq]]. apply String.eqb_eq in Heq. now subst.
  - intros H. exists role. split; [exact H | apply String.eqb_refl].
Qed.

(** ** The Role Resolver *)

Lemma closest_match_first (candidate : string) (pre : list string) (v : string)
    (post : list string) :
  Forall (fun u => ~ Spec.contained_ignoring_case candidate u) pre ->
  Spec.contained_ignoring_case candidate v ->
  result (Planner.closest_match candidate (pre ++ v :: post)) = Ok v.
Proof.
  intros Hpre Hv. induction Hpre as [| u pre Hu _ IH]; cbn [app Planner.closest_match].
  - apply contains_spec in Hv. rewrite Hv. apply result_print_then.
  - rewrite (contains_false _ _ Hu). exact IH.
Qed.

Lemma closest_match_none (candidate : string) (roles : list string) :
  Forall (fun u => ~ Spec.contained_ignoring_case candidate u) roles ->
  result (Planner.closest_match candidate roles) = Ok "Discovery Specialist".
Proof.
  induction 1 as [| u roles Hu _ IH]; cbn [Planner.closest_match].
  - apply result_print_then.
  - rewrite (contains_false _ _ Hu). exact IH.
Qed.

Lemma closest_match_member (candidate : string) (roles : list string) :
  exists r, result (Planner.closest_match candidate roles) = Ok r /\
            (In r roles \/ r = "Discovery Specialist").
Proof.
  induction roles as [| u roles [r [Hr Hin]]]; cbn [Planner.closest_match].
  - exists "Discovery Specialist". split; [apply result_print_then | now right].
  - destruct (PyStr.contains _ _).
    + exists u. split; [apply result_print_then | left; now left].
    + exists r. split; [exact Hr |]. destruct Hin; [left; now right | now right].
Qed.

Lemma find_matching_role_first (candidate : string) (pre : list string)
    (v : string) (post : list string) :
  Forall (fun u => ~ Spec.contained_ignoring_case candidate u) pre ->
  Spec.contained_ignoring_case candidate v ->
  result (WorkerFactory.find_matching_role candidate (pre ++ v :: post)) = Ok v.
Proof.
  intros Hpre Hv.
  induction Hpre as [| u pre Hu _ IH]; cbn [app WorkerFactory.find_matching_role].
  - apply contains_spec in Hv. rewrite Hv. apply result_print_then.
  - rewrite (contains_false _ _ Hu). exact IH.
Qed.

Lemma find_matching_role_none (candidate : string) (roles : list string) :
  Forall (fun u => ~ Spec.contained_ignoring_case candidate u) roles ->
  result (WorkerFactory.find_matching_role candidate roles)
  = Ok "Discovery Specialist".
Proof.
  induction 1 as [| u roles Hu _ IH]; cbn [WorkerFactory.find_matching_role].
  - apply result_print_then.
  - rewrite (contains_false _ _ Hu). exact IH.
Qed.

Lemma find_matching_role_member (candidate : string) (roles : list string) :
  exists r, result (WorkerFactory.find_matching_role candidate roles) = Ok r /\
            (In r roles \/ r = "Discovery Specialist").
Proof.
  induction roles as [| u roles [r [Hr Hin]]]; cbn [WorkerFactory.find_matching_role].
  - exists "Discovery Specialist". split; [apply result_print_then | now right].
  - destruct (PyStr.contains _ _).
    + exists u. split; [apply result_print_then | left; now left].
    + exists r. split; [exact Hr |]. destruct Hin; [left; now right | now right].
Qed.

Lemma default_role_is_valid : In "Discovery Specialist" Planner.valid_roles.
Proof. cbn. tauto. Qed.

Lemma planner_resolver_contract :
  Spec.role_resolution_contract Planner.valid_roles "Discovery Specialist"
    (fun candidate => result (Planner.resolve_role candidate)).
Proof.
  intros candidate. unfold Planner.resolve_role.
  destruct (Planner.role_in candidate Planner.valid_roles) eqn:E; cbn [negb].
  - apply role_in_spec in E. repeat split.
    + intros pre v post Hn. contradiction.
    + intros Hn. contradiction.
    + exists candidate. split; [reflexivity | exact E].
  - assert (Hn : ~ In candidate Planner.valid_roles).
    { intros H. apply role_in_spec in H. congruence. }
    repeat split.
    + intros H. contradiction.
    + intros pre v post _ -> Hpre Hv. now apply closest_match_first.
    + intros _ Hall. now apply closest_match_none.
    + destruct (closest_match_member candidate Planner.valid_roles) as [r [Hr Hin]].
      exists r. split; [exact Hr |].
      destruct Hin as [Hin | ->]; [exact Hin | apply default_role_is_valid].
Qed.

Lemma factory_resolver_contract (worker_id : Z) :
  Spec.role_resolution_contract WorkerFactory.valid_roles "Discovery Specialist"
    (fun candidate => result (WorkerFactory.validate_role worker_id candidate)).
Proof.
  intros candidate. unfold WorkerFactory.validate_role.
  destruct (Planner.role_in candidate WorkerFactory.valid_roles) eqn:E; cbn [negb].
  - apply role_in_spec in E. repeat split.
    + intros pre v post Hn. contradiction.
    + intros Hn. contradiction.
    + exists candidate. split; [reflexivity | exact E].
  - assert (Hn : ~ In candidate WorkerFactory.valid_roles).
    { intros H. apply role_in_spec in H. congruence. }
    rewrite result_print_then. repeat split.
    + intros H. contradiction.
    + intros pre v post _ -> Hpre Hv. now apply find_matching_role_first.
    + intros _ Hall. now apply find_matching_role_none.
    + destruct (find_matching_role_member candidate WorkerFactory.valid_roles)
        as [r [Hr Hin]].
      exists r. split; [exact Hr |].
      destruct Hin as [Hin | ->]; [exact Hin | apply default_role_is_valid].
Qed.

(** C5. Role resolution, in the planner and in the worker factory alike:
    a label that is exactly a canonical role name is returned unchanged;
    any other label resolves to the first canonical role, in the order
    the list is written, whose name contains the label when letter case is
    ignored; a label contained in none resolves to the default role
    "Discovery Specialist". Resolution never raises and its answer is
    always one of the ten canonical roles. *)
Theorem role_resolution :
  Spec.role_resolution_contract Planner.valid_roles "Discovery Specialist"
    (fun candidate => result (Planner.resolve_role candidate)) /\
  (forall worker_id : Z,
      Spec.role_resolution_contract WorkerFactory.valid_roles "Discovery Specialist"
        (fun candidate => result (WorkerFactory.validate_role worker_id candidate))) /\
  WorkerFactory.valid_roles = Planner.valid_roles.
Proof.
  split; [exact planner_resolver_contract |].
  split; [exact factory_resolver_contract | reflexivity].
Qed.

(** ** The consensus and decision stages *)

(** Splits a hypothesis [result (x <- m ;; k) = Ok b] into the two steps. *)
Ltac step_ok H :=
  let a := fresh "a" in
  let Ha := fresh "Ha" in
  apply bind_ok_inv in H; destruct H as [a [Ha H]].

Lemma critique_update (llm : LLM) (st u : state) :
  result (Critique.call llm st) = Ok u ->
  exists content, u = {[ "critique_output" := VDict {[ "assessment" := content ]} ]}.
Proof.
  unfold Critique.call. intros H.
  repeat step_ok H. cbn in H. injection H as <-. eexists. reflexivity.
Qed.

Lemma judge_update (llm : LLM) (sink : Sink) (st u : state) :
  result (Judge.call llm sink st) = Ok u ->
  exists content, u = Judge.verdict content.
Proof.
  unfold Judge.call. intros H.
  repeat step_ok H. cbn in H. injection H as <-. eexists. reflexivity.
Qed.

Lemma apply_update_frame (st : state) (key : string) (v : value) (k : string) :
  k <> key -> Main.apply_update st {[ key := v ]} !! k = st !! k.
Proof.
  intros Hne. unfold Main.apply_update.
  apply lookup_union_r. apply lookup_singleton_ne. congruence.
Qed.

(** C9. Whatever the state, the update the Critique stage returns has the
    single key critique_output and the update the Judge stage returns has
    the single key final_judgment; written into the state, neither
    changes any other field. *)
Theorem stage_updates_have_one_key (llm : LLM) (sink : Sink) (st : state) :
  (forall u, result (Critique.call llm st) = Ok u ->
     dom u = {[ "critique_output" ]} /\
     forall k, k <> "critique_output" -> Main.apply_update st u !! k = st !! k) /\
  (forall u, result (Judge.call llm sink st) = Ok u ->
     dom u = {[ "final_judgment" ]} /\
     forall k, k <> "final_judgment" -> Main.apply_update st u !! k = st !! k).
Proof.
  split; intros u Hu.
  - destruct (critique_update _ _ _ Hu) as [content ->]. split.
    + apply dom_singleton_L.
    + intros k Hk. now apply apply_update_frame.
  - destruct (judge_update _ _ _ _ Hu) as [content ->]. split.
    + apply dom_singleton_L.
    + intros k Hk. now apply apply_update_frame.
Qed.

(** C8. When the Decision Stage has its response and persisting the
    training example fails with [e], the failure is printed and goes no
    further: the stage returns its verdict, and it returns that same
    verdict with every sink, working or not. *)
Theorem persistence_failure_is_swallowed (llm : LLM) (sink : Sink) (st : state)
    (content : string) (e : exn) :
  result (Judge.generate llm st) = Ok content ->
  result (Judge.persist_example sink st content) = Raise e ->
  result (Judge.call llm sink st) = Ok (Judge.verdict content) /\
  In (Printed ("Failed to create LangSmith example: " +:+ exn_str e))
     (trace (Judge.call llm sink st)) /\
  forall sink' : Sink, result (Judge.call llm sink' st) = Ok (Judge.verdict content).
Proof.
  intros Hgen Hfail.
  assert (Hany : forall s, result (Judge.call llm s st) = Ok (Judge.verdict content)).
  { intros s. unfold Judge.call.
    rewrite (result_bind_ok _ _ _ Hgen), result_bind, result_try_except.
    destruct (result (Judge.persist_example s st content)); reflexivity. }
  split; [apply Hany |]. split; [| exact Hany].
  unfold Judge.call. rewrite trace_bind, Hgen.
  apply in_or_app. right.
  rewrite trace_bind, result_try_except, trace_try_except, Hfail.
  cbn [result print fst]. apply in_or_app. left. apply in_or_app. right.
  cbn. now left.
Qed.

Lemma persistence_failure_is_swallowed_witness :
  result (Judge.call Scenario.answering Scenario.failing_sink Scenario.aggregated)
    = Ok (Judge.verdict "finding") /\
  In (Printed ("Failed to create LangSmith example: "
               +:+ exn_str Scenario.sink_error))
     (trace (Judge.call Scenario.answering Scenario.failing_sink Scenario.aggregated)) /\
  forall sink' : Sink,
    result (Judge.call Scenario.answering sink' Scenario.aggregated)
      = Ok (Judge.verdict "finding").
Proof.
  apply (persistence_failure_is_swallowed Scenario.answering Scenario.failing_sink
           Scenario.aggregated "finding" Scenario.sink_error);
    by_computation.
Defined.

(** ** The Worker Unit *)

Lemma bind_ext {A B} (m : M A) (f g : A -> M B) :
  (forall a, f a = g a) -> bind m f = bind m g.
Proof.
  intros H. destruct m as [[a | e] t]; cbn; [rewrite H |]; reflexivity.
Qed.

Lemma bind_ret_l {A B} (a : A) (f : A -> M B) : bind (ret a) f = f a.
Proof. unfold bind, ret. destruct (f a). reflexivity. Qed.

Lemma take_length_le (n : nat) (s : string) : String.length (PyStr.take n s) <= n.
Proof.
  revert s. induction n as [| n IH]; intros [| c s]; cbn; try lia.
  specialize (IH s). lia.
Qed.

Lemma security_worker_reads_log_prefix (self : WorkerFactory.SecurityWorker)
    (st : state) (log log' : string) :
  PyStr.take 10000 log = PyStr.take 10000 log' ->
  WorkerFactory.call self (<["log_content" := VStr log]> st)
  = WorkerFactory.call self (<["log_content" := VStr log']> st).
Proof.
  intros Hpre. unfold WorkerFactory.call, getitem.
  rewrite !lookup_insert_eq.
  rewrite !(lookup_insert_ne _ "log_content" "human_input") by discriminate.
  rewrite !(lookup_insert_ne _ "log_content" "plan") by discriminate.
  repeat (apply bind_ext; intros ?).
  change (as_str (default (VStr EmptyString) (Some (VStr log)))) with (ret log).
  change (as_str (default (VStr EmptyString) (Some (VStr log')))) with (ret log').
  rewrite !bind_ret_l, Hpre. reflexivity.
Qed.

(** C10. A Worker Unit puts [log_content[:10000]] into its prompt and
    nothing else of the evidence payload: two states that differ only in
    the payload, the two payloads having the same first 10,000
    characters, make the worker node (and the SecurityWorker inside it)
    behave identically, with the same call of the text generation, the
    same output and the same printed lines. The part of the payload that
    is used is at most 10,000 characters long. *)
Theorem worker_prompt_uses_first_10000_chars (llm : LLM) (num : Z) (st : state)
    (log log' : string) :
  PyStr.take 10000 log = PyStr.take 10000 log' ->
  Main.create_worker llm num (<["log_content" := VStr log]> st)
  = Main.create_worker llm num (<["log_content" := VStr log']> st)
  /\ (forall self : WorkerFactory.SecurityWorker,
        WorkerFactory.call self (<["log_content" := VStr log]> st)
        = WorkerFactory.call self (<["log_content" := VStr log']> st))
  /\ String.length (PyStr.take 10000 log) <= 10000.
Proof.
  intros Hpre. split; [| split].
  - unfold Main.create_worker, Main.debug_node.
    apply bind_ext; intros _. f_equal.
    unfold Main.worker_func.
    rewrite !(lookup_insert_ne _ "log_content" "worker_definitions") by discriminate.
    apply bind_ext; intros n.
    destruct (num <=? n)%Z; [| reflexivity].
    do 4 (apply bind_ext; intros ?).
    now apply security_worker_reads_log_prefix.
  - intros self. now apply security_worker_reads_log_prefix.
  - apply take_length_le.
Qed.

Lemma worker_prompt_uses_first_10000_chars_witness :
  Scenario.long_log_a <> Scenario.long_log_b /\
  (Main.create_worker Scenario.answering 1
     (<["log_content" := VStr Scenario.long_log_a]> Scenario.aggregated)
   = Main.create_worker Scenario.answering 1
       (<["log_content" := VStr Scenario.long_log_b]> Scenario.aggregated)
   /\ (forall self : WorkerFactory.SecurityWorker,
         WorkerFactory.call self
           (<["log_content" := VStr Scenario.long_log_a]> Scenario.aggregated)
         = WorkerFactory.call self
             (<["log_content" := VStr Scenario.long_log_b]> Scenario.aggregated))
   /\ String.length (PyStr.take 10000 Scenario.long_log_a) <= 10000).
Proof.
  split.
  - intros H. apply (f_equal (PyStr.drop 10000)) in H. vm_compute in H. discriminate.
  - apply (worker_prompt_uses_first_10000_chars Scenario.answering 1
             Scenario.aggregated Scenario.long_log_a Scenario.long_log_b).
    vm_compute. reflexivity.
Defined.

(** ** Slots and the merge of the workers' updates *)

Lemma append_length (s t : string) :
  String.length (s +:+ t) = String.length s + String.length t.
Proof. induction s as [| c s IH]; simpl; [reflexivity | now rewrite IH]. Qed.

Lemma append_inv_tail (s s' t : string) : s +:+ t = s' +:+ t -> s = s'.
Proof.
  revert s'. induction s as [| c s IH]; intros [| c' s'] H.
  - reflexivity.
  - apply (f_equal String.length) in H.
    rewrite !append_length in H. cbn [String.length] in H. lia.
  - apply (f_equal String.length) in H.
    rewrite !append_length in H. cbn [String.length] in H. lia.
  - simpl in H. injection H as -> H. f_equal. now apply IH.
Qed.

Lemma output_key_inj (i j : Z) :
  WorkerFactory.output_key i = WorkerFactory.output_key j -> i = j.
Proof.
  unfold WorkerFactory.output_key, PyStr.concat, PyStr.str_of_int. cbn.
  intros H. injection H as H.
  change (pretty i +:+ "_output" = pretty j +:+ "_output") in H.
  apply append_inv_tail in H. now apply (inj pretty) in H.
Qed.

Lemma security_worker_update (self : WorkerFactory.SecurityWorker) (st u : state) :
  result (WorkerFactory.call self st) = Ok u ->
  exists content,
    u = {[ WorkerFactory.output_key (WorkerFactory.worker_id self)
           := WorkerFactory.finding (WorkerFactory.role self) content ]}.
Proof.
  unfold WorkerFactory.call. intros H.
  repeat step_ok H. cbn in H. injection H as <-. eexists. reflexivity.
Qed.

Lemma created_worker_id (llm : LLM) (num : Z) (role tasks : string)
    (w : WorkerFactory.SecurityWorker) :
  result (WorkerFactory.create_worker llm num role tasks) = Ok w ->
  WorkerFactory.worker_id w = num.
Proof.
  unfold WorkerFactory.create_worker. intros H.
  repeat step_ok H. cbn in H. injection H as <-. reflexivity.
Qed.

Lemma worker_func_update (llm : LLM) (num : Z) (st u : state) :
  result (Main.worker_func llm num st) = Ok u ->
  exists v, u = {[ WorkerFactory.output_key num := v ]}.
Proof.
  unfold Main.worker_func. intros H. step_ok H.
  destruct (num <=? a)%Z.
  - do 4 step_ok H.
    destruct (security_worker_update _ _ _ H) as [content ->].
    rewrite (created_worker_id _ _ _ _ _ Ha3). eexists. reflexivity.
  - cbn in H. injection H as <-. eexists. reflexivity.
Qed.

Lemma worker_node_update (llm : LLM) (num : Z) (st u : state) :
  result (Main.create_worker llm num st) = Ok u ->
  exists v, u = {[ WorkerFactory.output_key num := v ]}.
Proof.
  unfold Main.create_worker, Main.debug_node. intros H.
  do 3 step_ok H. cbn in H. injection H as <-.
  now apply worker_func_update with llm st.
Qed.

(** Two worker nodes' updates can be written in either order. *)
Lemma worker_updates_commute (llm : LLM) (st s : state) (i j : Z) (u v : state) :
  result (Main.create_worker llm i st) = Ok u ->
  result (Main.create_worker llm j st) = Ok v ->
  Main.apply_update (Main.apply_update s u) v
  = Main.apply_update (Main.apply_update s v) u.
Proof.
  intros Hu Hv. destruct (decide (i = j)) as [-> | Hne].
  - congruence.
  - destruct (worker_node_update _ _ _ _ Hu) as [a ->].
    destruct (worker_node_update _ _ _ _ Hv) as [b ->].
    unfold Main.apply_update. rewrite !map_union_assoc. f_equal.
    apply map_union_comm. apply map_disjoint_singleton_l.
    apply lookup_singleton_ne. intros Heq. apply Hne. now apply output_key_inj.
Qed.

Section ForEach.
Context {A B : Type} (body : A -> M B).

Lemma for_each_ok_inv (xs : list A) (ys : list B) :
  result (for_each xs body) = Ok ys ->
  Forall2 (fun x y => result (body x) = Ok y) xs ys.
Proof.
  revert ys. induction xs as [| x xs IH]; intros ys H; cbn in H.
  - injection H as <-. constructor.
  - do 2 step_ok H. cbn in H. injection H as <-.
    constructor; [assumption | now apply IH].
Qed.

Lemma for_each_ok (xs : list A) (ys : list B) :
  Forall2 (fun x y => result (body x) = Ok y) xs ys ->
  result (for_each xs body) = Ok ys.
Proof.
  induction 1 as [| x y xs ys Hx _ IH]; cbn [for_each]; [reflexivity |].
  rewrite (result_bind_ok _ _ _ Hx), (result_bind_ok _ _ _ IH). reflexivity.
Qed.

Lemma for_each_raise (xs : list A) (x : A) (e : exn) :
  In x xs -> result (body x) = Raise e ->
  exists e', result (for_each xs body) = Raise e'.
Proof.
  induction xs as [| x' xs IH]; intros Hin He; [contradiction |].
  cbn [for_each]. rewrite result_bind.
  destruct (result (body x')) as [y |e'] eqn:Hx'; [| eauto].
  destruct Hin as [-> | Hin]; [congruence |].
  destruct (IH Hin He) as [e' He']. exists e'.
  now rewrite (result_bind_raise _ _ _ He').
Qed.

End ForEach.

(** Updates that arrive in another order: each is still returned, and
    the state they are merged into is the same. *)
Lemma merge_permutation (llm : LLM) (st : state) (order order' : list Z) :
  Permutation order order' ->
  forall us, Forall2 (fun i u => result (Main.create_worker llm i st) = Ok u) order us ->
  exists us',
    Forall2 (fun i u => result (Main.create_worker llm i st) = Ok u) order' us' /\
    forall s, foldl Main.apply_update s us = foldl Main.apply_update s us'.
Proof.
  induction 1 as [| x l l' _ IH | x y l | l l' l'' _ IH1 _ IH2]; intros us Hus.
  - inversion Hus; subst. exists []. split; [constructor | reflexivity].
  - inversion Hus as [| ? u ? us1 Hx Hrest]; subst.
    destruct (IH us1 Hrest) as [us' [H1 H2]].
    exists (u :: us'). split; [now constructor |]. intros s. cbn. apply H2.
  - inversion Hus as [| ? u ? us1 Hy Hrest]; subst.
    inversion Hrest as [| ? v ? us2 Hx Hrest']; subst.
    exists (v :: u :: us2). split; [repeat constructor; assumption |].
    intros s. cbn. f_equal. now apply worker_updates_commute with llm st y x.
  - destruct (IH1 us Hus) as [us' [H1 H2]].
    destruct (IH2 us' H1) as [us'' [H3 H4]].
    exists us''. split; [assumption |]. intros s. now rewrite H2.
Qed.

Lemma run_workers_permutation (llm : LLM) (st : state) (order order' : list Z)
    (us : list state) :
  Permutation order order' ->
  result (Main.run_workers llm order st) = Ok us ->
  exists us',
    result (Main.run_workers llm order' st) = Ok us' /\
    foldl Main.apply_update st us = foldl Main.apply_update st us'.
Proof.
  intros Hperm Hus. unfold Main.run_workers in *.
  apply for_each_ok_inv in Hus.
  destruct (merge_permutation llm st _ _ Hperm us Hus) as [us' [H1 H2]].
  exists us'. split; [now apply for_each_ok | apply H2].
Qed.

Lemma invoke_permutation (llm : LLM) (sink : Sink) (st0 final : state)
    (order order' : list Z) :
  Permutation order order' ->
  result (Main.invoke_in_order order llm sink st0) = Ok final ->
  result (Main.invoke_in_order order' llm sink st0) = Ok final.
Proof.
  intros Hperm. unfold Main.invoke_in_order. intros H.
  step_ok H. rewrite (result_bind_ok _ _ _ Ha).
  step_ok H.
  destruct (run_workers_permutation _ _ _ _ _ Hperm Ha0) as [us' [Hus' Hmerge]].
  rewrite (result_bind_ok _ _ _ Hus'). rewrite <- Hmerge. exact H.
Qed.

(** C7. Each worker node returns an update whose only key is its own
    slot key, worker{i}_output. Hence, for every order in which the five
    workers' updates arrive, the merge gives the same record: the workers
    succeed in one order exactly when they succeed in slot order, the
    merged states are equal, and the run ends in the same final state. *)
Theorem slot_merge_is_order_independent (llm : LLM) (sink : Sink)
    (st0 : state) (order : list Z) :
  Permutation order Main.slots ->
  (forall num st u,
      result (Main.create_worker llm num st) = Ok u ->
      dom u = {[ WorkerFactory.output_key num ]}) /\
  (forall st us,
      result (Main.run_workers llm order st) = Ok us ->
      exists us0,
        result (Main.run_workers llm Main.slots st) = Ok us0 /\
        foldl Main.apply_update st us = foldl Main.apply_update st us0) /\
  (forall final,
      result (Main.invoke_in_order order llm sink st0) = Ok final <->
      result (Main.invoke_graph llm sink st0) = Ok final).
Proof.
  intros Hperm. split; [| split].
  - intros num st u Hu. destruct (worker_node_update _ _ _ _ Hu) as [v ->].
    apply dom_singleton_L.
  - intros st us Hus. now apply run_workers_permutation with order.
  - intros final. unfold Main.invoke_graph. split.
    + now apply invoke_permutation.
    + apply invoke_permutation. now symmetry.
Qed.

Lemma slot_merge_is_order_independent_witness :
  (forall num st u,
      result (Main.create_worker Scenario.answering num st) = Ok u ->
      dom u = {[ WorkerFactory.output_key num ]}) /\
  (forall st us,
      result (Main.run_workers Scenario.answering [3; 1; 5; 2; 4]%Z st) = Ok us ->
      exists us0,
        result (Main.run_workers Scenario.answering Main.slots st) = Ok us0 /\
        foldl Main.apply_update st us = foldl Main.apply_update st us0) /\
  (forall final,
      result (Main.invoke_in_order [3; 1; 5; 2; 4]%Z Scenario.answering
                Scenario.working_sink Scenario.request) = Ok final <->
      result (Main.invoke_graph Scenario.answering Scenario.working_sink
                Scenario.request) = Ok final).
Proof.
  apply (slot_merge_is_order_independent Scenario.answering Scenario.working_sink
           Scenario.request [3; 1; 5; 2; 4]%Z).
  apply (bool_decide_unpack _). vm_compute. exact I.
Defined.

(** ** Failures of the text generation *)

Lemma silent_ret {A} (a : A) : silent (ret a).
Proof. intros ms H. exact H. Qed.

Lemma silent_raise {A} (e : exn) : silent (@raise A e).
Proof. intros ms H. exact H. Qed.

Lemma silent_print (text : string) : silent (print text).
Proof. intros ms [H | []]. discriminate. Qed.

Lemma silent_bind {A B} (m : M A) (f : A -> M B) :
  silent m -> (forall a, silent (f a)) -> silent (bind m f).
Proof.
  intros Hm Hf ms. rewrite trace_bind.
  destruct (result m) as [a | e]; [| apply Hm].
  intros H. apply in_app_or in H as [H | H]; [now apply (Hm ms) | now apply (Hf a ms)].
Qed.

Lemma silent_getitem (st : state) (k : string) : silent (getitem st k).
Proof. unfold getitem. destruct (st !! k); [apply silent_ret | apply silent_raise]. Qed.

Lemma silent_getfield (d : gmap string string) (k : string) : silent (getfield d k).
Proof. unfold getfield. destruct (d !! k); [apply silent_ret | apply silent_raise]. Qed.

Lemma silent_as_str (v : value) : silent (as_str v).
Proof. destruct v; first [apply silent_ret | apply silent_raise]. Qed.

Lemma silent_len (v : value) : silent (Main.len v).
Proof. destruct v; first [apply silent_ret | apply silent_raise]. Qed.

Lemma silent_worker_def_at (v : value) (i : Z) : silent (Main.worker_def_at v i).
Proof.
  destruct v; cbn; repeat case_match; first [apply silent_ret | apply silent_raise].
Qed.

Lemma silent_find_matching_role (role : string) (roles : list string) :
  silent (WorkerFactory.find_matching_role role roles).
Proof.
  induction roles as [| r roles IH]; cbn [WorkerFactory.find_matching_role].
  - apply silent_bind; [apply silent_print | intros _; apply silent_ret].
  - destruct (PyStr.contains _ _); [| exact IH].
    apply silent_bind; [apply silent_print | intros _; apply silent_ret].
Qed.

Lemma silent_create_worker (llm : LLM) (num : Z) (role tasks : string) :
  silent (WorkerFactory.create_worker llm num role tasks).
Proof.
  unfold WorkerFactory.create_worker, WorkerFactory.validate_role.
  apply silent_bind.
  - destruct (negb _); [| apply silent_ret].
    apply silent_bind; [apply silent_print | intros _; apply silent_find_matching_role].
  - intros r. repeat (apply silent_bind; [apply silent_print | intros _]).
    apply silent_ret.
Qed.

(** Through a silent first step a call in the trace is a call of the rest. *)
Lemma call_after_silent {A B} (m : M A) (f : A -> M B) (messages : list message) :
  silent m ->
  In (Invoked messages) (trace (bind m f)) ->
  exists a, result m = Ok a /\ In (Invoked messages) (trace (f a)).
Proof.
  intros Hm. rewrite trace_bind. destruct (result m) as [a | e].
  - intros H. apply in_app_or in H as [H | H]; [now apply Hm in H | eauto].
  - intros H. now apply Hm in H.
Qed.

(** Before a silent rest a call in the trace is a call of the first step. *)
Lemma call_before_silent {A B} (m : M A) (f : A -> M B) (messages : list message) :
  (forall a, silent (f a)) ->
  In (Invoked messages) (trace (bind m f)) ->
  In (Invoked messages) (trace m).
Proof.
  intros Hf. rewrite trace_bind. destruct (result m) as [a | e]; [| tauto].
  intros H. apply in_app_or in H as [H | H]; [exact H | now apply Hf in H].
Qed.

(** Moves a hypothesis [In (Invoked ms) (trace (x <- m ;; k))] and a goal
    about [result (x <- m ;; k)] past a silent [m]. *)
Ltac past_silent H lem :=
  let a := fresh "a" in
  let Ha := fresh "Ha" in
  apply call_after_silent in H; [| lem];
  destruct H as [a [Ha H]]; rewrite (result_bind_ok _ _ _ Ha).

(** A failed call of the text generation ends what called it. *)
Lemma invoke_failure {B} (llm : LLM) (sent : list message) (f : string -> M B)
    (messages : list message) (e : exn) :
  (forall content, silent (f content)) ->
  In (Invoked messages) (trace (bind (invoke llm sent) f)) ->
  llm messages = Raise e ->
  result (bind (invoke llm sent) f) = Raise e.
Proof.
  intros Hf Hin Hfail. apply call_before_silent in Hin; [| exact Hf].
  destruct Hin as [Heq | []]. injection Heq as ->.
  apply result_bind_raise. exact Hfail.
Qed.

Lemma security_worker_failure (self : WorkerFactory.SecurityWorker) (st : state)
    (messages : list message) (e : exn) :
  In (Invoked messages) (trace (WorkerFactory.call self st)) ->
  WorkerFactory.llm self messages = Raise e ->
  result (WorkerFactory.call self st) = Raise e.
Proof.
  unfold WorkerFactory.call. intros Hin Hfail.
  past_silent Hin ltac:(apply silent_print).
  past_silent Hin ltac:(apply silent_getitem).
  past_silent Hin ltac:(apply silent_as_str).
  past_silent Hin ltac:(apply silent_getitem).
  past_silent Hin ltac:(apply silent_as_str).
  past_silent Hin ltac:(apply silent_as_str).
  apply invoke_failure with messages; [| exact Hin | exact Hfail].
  intros content. apply silent_bind; [apply silent_print | intros _; apply silent_ret].
Qed.

Lemma worker_node_failure (llm : LLM) (num : Z) (st : state)
    (messages : list message) (e : exn) :
  In (Invoked messages) (trace (Main.create_worker llm num st)) ->
  llm messages = Raise e ->
  result (Main.create_worker llm num st) = Raise e.
Proof.
  unfold Main.create_worker, Main.debug_node. intros Hin Hfail.
  past_silent Hin ltac:(apply silent_print).
  apply call_before_silent in Hin;
    [| intros r; apply silent_bind; [apply silent_print | intros _; apply silent_ret]].
  apply result_bind_raise.
  unfold Main.worker_func in *.
  past_silent Hin ltac:(apply silent_len).
  destruct (num <=? a0)%Z.
  - past_silent Hin ltac:(apply silent_worker_def_at).
    past_silent Hin ltac:(apply silent_getfield).
    past_silent Hin ltac:(apply silent_getfield).
    past_silent Hin ltac:(apply silent_create_worker).
    apply security_worker_failure with messages; [exact Hin |].
    assert (Hllm : WorkerFactory.llm a4 = llm).
    { unfold WorkerFactory.create_worker in Ha4. repeat step_ok Ha4.
      cbn in Ha4. injection Ha4 as <-. reflexivity. }
    now rewrite Hllm.
  - destruct Hin.
Qed.

Lemma run_ends_with_worker_failure (llm : LLM) (sink : Sink) (st0 u : state)
    (num : Z) (e : exn) :
  result (Main.debug_node "PLANNER" (Planner.call llm) st0) = Ok u ->
  In num Main.slots ->
  result (Main.create_worker llm num (Main.apply_update st0 u)) = Raise e ->
  exists e', result (Main.invoke_graph llm sink st0) = Raise e'.
Proof.
  intros Hplan Hnum Hfail. unfold Main.invoke_graph, Main.invoke_in_order.
  rewrite (result_bind_ok _ _ _ Hplan).
  destruct (for_each_raise
              (fun i => Main.create_worker llm i (Main.apply_update st0 u))
              Main.slots num e Hnum Hfail) as [e' He'].
  exists e'. apply result_bind_raise. exact He'.
Qed.

Lemma apply_update_keeps (st u : state) (k : string) :
  is_Some (st !! k) -> is_Some (Main.apply_update st u !! k).
Proof.
  intros H. unfold Main.apply_update. apply lookup_union_is_Some. now right.
Qed.

Lemma merge_keeps (us : list state) (st : state) (k : string) :
  is_Some (st !! k) -> is_Some (foldl Main.apply_update st us !! k).
Proof.
  revert st. induction us as [| u us IH]; intros st H; cbn; [exact H |].
  apply IH. now apply apply_update_keeps.
Qed.

Lemma merge_fills_slots (llm : LLM) (st : state) (order : list Z) (us : list state) :
  Forall2 (fun i u => result (Main.create_worker llm i st) = Ok u) order us ->
  forall s num, In num order ->
    is_Some (foldl Main.apply_update s us !! WorkerFactory.output_key num).
Proof.
  induction 1 as [| i u order us Hi _ IH]; intros s num Hin; [destruct Hin |].
  cbn [foldl]. destruct Hin as [-> | Hin]; [| now apply IH].
  apply merge_keeps. destruct (worker_node_update _ _ _ _ Hi) as [v ->].
  unfold Main.apply_update. apply lookup_union_is_Some. left.
  rewrite lookup_singleton_eq. eauto.
Qed.

Lemma completed_run_is_complete (llm : LLM) (sink : Sink) (st0 final : state) :
  result (Main.invoke_graph llm sink st0) = Ok final ->
  (forall num, In num Main.slots ->
               is_Some (final !! WorkerFactory.output_key num)) /\
  is_Some (final !! "final_judgment").
Proof.
  unfold Main.invoke_graph, Main.invoke_in_order. intros H.
  do 4 step_ok H. cbn in H. injection H as <-. split.
  - intros num Hnum. do 2 apply apply_update_keeps.
    unfold Main.run_workers in Ha0. apply for_each_ok_inv in Ha0.
    now apply merge_fills_slots with llm (Main.apply_update st0 a) Main.slots.
  - unfold Main.debug_node in Ha2. do 3 step_ok Ha2.
    cbn in Ha2. injection Ha2 as <-.
    destruct (judge_update _ _ _ _ Ha4) as [content ->].
    unfold Main.apply_update. apply lookup_union_is_Some. left.
    unfold Judge.verdict. rewrite lookup_singleton_eq. eauto.
Qed.

(** C1, as the code has it. A failure of a worker's call of the text
    generation is not caught: the worker node ends with that exception
    and returns no finding, and the run ends with an exception instead of a
    verdict. A run that does complete has a finding in each of the five
    slots (the placeholder where the plan has no assignment) and a
    verdict. *)
Theorem worker_failure_ends_the_run (llm : LLM) (sink : Sink) (st0 : state) :
  (forall u num messages e,
      result (Main.debug_node "PLANNER" (Planner.call llm) st0) = Ok u ->
      In num Main.slots ->
      In (Invoked messages)
         (trace (Main.create_worker llm num (Main.apply_update st0 u))) ->
      llm messages = Raise e ->
      result (Main.create_worker llm num (Main.apply_update st0 u)) = Raise e /\
      exists e', result (Main.invoke_graph llm sink st0) = Raise e') /\
  (forall final,
      result (Main.invoke_graph llm sink st0) = Ok final ->
      Spec.completes_with_verdict (Ok final)).
Proof.
  split.
  - intros u num messages e Hplan Hnum Hin Hfail.
    assert (Hnode := worker_node_failure _ _ _ _ _ Hin Hfail).
    split; [exact Hnode |]. now apply run_ends_with_worker_failure with u num e.
  - intros final Hrun. exists final. split; [reflexivity |].
    now apply completed_run_is_complete with llm sink st0.
Qed.

Lemma worker_failure_ends_the_run_witness :
  (result (Main.create_worker Scenario.flaky 2
             (Main.apply_update Scenario.request Scenario.planned_update))
   = Raise Scenario.quota_error /\
   exists e', result (Main.invoke_graph Scenario.flaky Scenario.working_sink
                        Scenario.request) = Raise e') /\
  (forall final,
      result (Main.invoke_graph Scenario.answering Scenario.working_sink
                Scenario.request) = Ok final ->
      Spec.completes_with_verdict (Ok final)) /\
  Spec.completes_with_verdict
    (result (Main.invoke_graph Scenario.answering Scenario.working_sink
               Scenario.request)).
Proof.
  split; [| split].
  - apply (proj1 (worker_failure_ends_the_run Scenario.flaky Scenario.working_sink
                    Scenario.request)
             Scenario.planned_update 2%Z Scenario.execution_messages
             Scenario.quota_error).
    + by_computation.
    + cbn. tauto.
    + apply in_by_computation. vm_compute. exact I.
    + by_computation.
  - exact (proj2 (worker_failure_ends_the_run Scenario.answering
                    Scenario.working_sink Scenario.request)).
  - apply completes_with_verdictb_spec. vm_compute. reflexivity.
Defined.

(** C1 as the specification states it fails: the text generation fails
    for the second worker only; the first worker returns its finding, the
    second worker node raises instead of returning a sentinel finding, and
    the run ends with that exception, not with a verdict. *)
Lemma worker_failure_not_isolated :
  result (Main.create_worker Scenario.flaky 1
            (Main.apply_update Scenario.request Scenario.planned_update))
  = Ok {[ "worker1_output" :=
            WorkerFactory.finding "Initial Access Specialist" "finding" ]} /\
  result (Main.create_worker Scenario.flaky 2
            (Main.apply_update Scenario.request Scenario.planned_update))
  = Raise Scenario.quota_error /\
  result (Main.invoke_graph Scenario.flaky Scenario.working_sink Scenario.request)
  = Raise Scenario.quota_error /\
  ~ Spec.completes_with_verdict
      (result (Main.invoke_graph Scenario.flaky Scenario.working_sink
                 Scenario.request)).
Proof.
  split; [by_computation |]. split; [by_computation |]. split; [by_computation |].
  intros H. apply completes_with_verdictb_spec in H. revert H.
  apply not_true_iff_false. vm_compute. reflexivity.
Qed.

(** ** Reading the evidence *)

Lemma try_except_passes {A} (body : M A) (handler : exn -> M A) :
  (forall e, result body = Raise e -> handler e = raise e) ->
  try_except body handler = body.
Proof.
  destruct body as [[a | e] t]; cbn; [reflexivity |].
  intros H. rewrite (H e eq_refl). cbn. now rewrite app_nil_r.
Qed.

(** The body of the loop, by what [json.loads] does on the line: only
    [json.loads] raises what the inner [except] looks at. *)
Lemma sample_line_cases {json : Type} (json_loads : string -> outcome json)
    (random_below : nat -> Z -> Z -> bool) (randrange : nat -> Z -> Z)
    (max_events : Z) (s : Main.sample json) (line : string) :
  Main.sample_line json json_loads random_below randrange max_events s line =
  if String.eqb (PyStr.strip line) EmptyString then ret s
  else
    match json_loads line with
    | Ok parsed =>
        if (Main.total_events json s + 1 <=? max_events)%Z
        then ret (Main.mkSample json
                    (Main.deque_append json max_events (Main.events json s) parsed)
                    (Main.total_events json s + 1) (Main.draws json s))
        else
          if (0 <? max_events)%Z
             && random_below (Main.draws json s) max_events
                  (Main.total_events json s + 1)%Z
          then
            new_events <- Main.deque_setitem json (Main.events json s)
                            (randrange (S (Main.draws json s)) max_events) parsed ;;
            ret (Main.mkSample json new_events (Main.total_events json s + 1)
                   (S (S (Main.draws json s))))
          else ret (Main.mkSample json (Main.events json s)
                      (Main.total_events json s + 1) (S (Main.draws json s)))
    | Raise e =>
        if Main.is_json_decode_error e
        then
          print (PyStr.concat ["Warning: Could not parse line as JSON: ";
                               PyStr.take 100 line; "..."]) ;;;
          ret s
        else raise e
    end.
Proof.
  unfold Main.sample_line. destruct (String.eqb _ _); [reflexivity |].
  destruct (json_loads line) as [parsed | e].
  - change (@pair (outcome json) (list event) (Ok parsed) []) with (ret parsed).
    rewrite bind_ret_l. apply try_except_passes. intros e. cbn zeta.
    destruct (_ <=? _)%Z; [discriminate |].
    destruct (_ && _); [| discriminate].
    unfold Main.deque_setitem.
    destruct (_ && _); [discriminate |]. destruct (_ && _); [discriminate |].
    intros H. cbn in H. injection H as <-. reflexivity.
  - cbn. destruct (Main.is_json_decode_error e); reflexivity.
Qed.

Lemma unreadable_cons {json} (json_loads : string -> outcome json) (line : string)
    (rest : list string) :
  Shape.unreadable json_loads (line :: rest)
  = Shape.unreadable json_loads [line] ++ Shape.unreadable json_loads rest.
Proof. unfold Shape.unreadable. cbn [flat_map]. now rewrite app_nil_r. Qed.

Lemma unreadable_cons_nil {json} (json_loads : string -> outcome json)
    (line : string) (rest : list string) :
  Shape.unreadable json_loads (line :: rest) = [] ->
  Shape.unreadable json_loads [line] = [] /\ Shape.unreadable json_loads rest = [].
Proof. rewrite unreadable_cons. apply app_eq_nil. Qed.

(** A capacity from 0 to the largest [ssize_t] makes a deque. *)
Lemma new_deque_ok (max_events : Z) :
  (0 <= max_events <= Main.ssize_max)%Z -> Main.new_deque max_events = ret tt.
Proof.
  intros H. unfold Main.new_deque.
  destruct (Z.ltb_spec max_events (- Main.ssize_max - 1)); [lia |].
  destruct (Z.ltb_spec Main.ssize_max max_events); [lia |].
  destruct (Z.ltb_spec max_events 0); [lia | reflexivity].
Qed.

Section EvidenceFacts.

Variable json : Type.
Variable json_loads : string -> outcome json.
Variable json_dumps : list json -> outcome string.
Variable read_lines : string -> bool -> list string * option exn.
Variable random_below : nat -> Z -> Z -> bool.
Variable randrange : nat -> Z -> Z.
Variable max_events : Z.

(** A capacity [deque] accepts. *)
Hypothesis max_events_fits : (0 <= max_events <= Main.ssize_max)%Z.
(** [random.randrange(n)] is in [range(n)]. *)
Hypothesis randrange_in_range :
  forall k, (0 < max_events)%Z ->
            (0 <= randrange k max_events < max_events)%Z.

Local Abbreviation sample := (Main.sample json).
Local Abbreviation sample_line :=
  (Main.sample_line json json_loads random_below randrange max_events).
Local Abbreviation sample_lines :=
  (Main.sample_lines json json_loads random_below randrange max_events).
Local Abbreviation sample_fits := (Main.sample_fits json max_events).





End EvidenceFacts.



(** ** The plan and the slots *)

Lemma for_each_length {A B} (body : A -> M B) (xs : list A) (ys : list B) :
  result (for_each xs body) = Ok ys -> length ys = length xs.
Proof.
  intros H. apply for_each_ok_inv in H.
  symmetry. now apply Forall2_length with (1 := H).
Qed.

Lemma parse_length (content plan : string) (assignments : list (gmap string string)) :
  PyStr.contains "PLAN:" content = true ->
  PyStr.contains "WORKERS:" content = true ->
  result (Planner.parse content) = Ok (plan, assignments) ->
  exists workers_raw,
    result (Planner.item (PyStr.split "WORKERS:" content) 1) = Ok workers_raw /\
    length assignments
    = length (Regex.findall3 Planner.worker_pattern (PyStr.strip workers_raw)).
Proof.
  intros Hplan Hworkers. unfold Planner.parse. rewrite Hplan, Hworkers. cbn [andb].
  intros H. do 4 step_ok H. cbn in H. injection H as _ <-.
  exists a1. split; [exact Ha1 |]. now apply for_each_length with Planner.add_worker.
Qed.

Lemma slot_without_assignment (llm : LLM) (num : Z) (st : state)
    (defs : list (gmap string string)) :
  default (VList []) (st !! "worker_definitions") = VList defs ->
  (Z.of_nat (length defs) < num)%Z ->
  Main.worker_func llm num st = ret (Main.no_role_output num).
Proof.
  intros Hdefs Hlt. unfold Main.worker_func. rewrite Hdefs.
  cbn [Main.len]. rewrite bind_ret_l.
  destruct (Z.leb_spec num (Z.of_nat (length defs))); [lia | reflexivity].
Qed.

Lemma slot_with_assignment (llm : LLM) (num : Z) (st : state)
    (defs : list (gmap string string)) (d : gmap string string)
    (role tasks : string) :
  default (VList []) (st !! "worker_definitions") = VList defs ->
  (1 <= num <= Z.of_nat (length defs))%Z ->
  defs !! Z.to_nat (num - 1) = Some d ->
  d !! "role" = Some role ->
  d !! "tasks" = Some tasks ->
  Main.worker_func llm num st
  = (worker <- WorkerFactory.create_worker llm num role tasks ;;
     WorkerFactory.call worker st).
Proof.
  intros Hdefs Hnum Hd Hrole Htasks. unfold Main.worker_func. rewrite Hdefs.
  cbn [Main.len]. rewrite bind_ret_l.
  destruct (Z.leb_spec num (Z.of_nat (length defs))); [| lia].
  unfold Main.worker_def_at, Main.list_index.
  destruct (Z.leb_spec 0 (num - 1)); [| lia].
  destruct (Z.ltb_spec (num - 1) (Z.of_nat (length defs))); [| lia].
  cbn [andb]. rewrite Hd, bind_ret_l.
  unfold getfield. rewrite Hrole, Htasks, !bind_ret_l. reflexivity.
Qed.

(** C4, as the code has it. A parsed Plan has one assignment for every
    numbered entry the pattern finds after the WORKERS marker, however
    many these are. Slot [num] uses assignment [num] when the plan has at
    least [num] assignments; otherwise no worker is made and nothing is
    called for it, and the slot gets the placeholder finding with role
    "Default" and analysis "No specific role defined.". *)
Theorem slots_follow_the_plan (llm : LLM) (st : state)
    (defs : list (gmap string string)) :
  default (VList []) (st !! "worker_definitions") = VList defs ->
  (forall num,
      (Z.of_nat (length defs) < num)%Z ->
      Main.worker_func llm num st
      = ret {[ WorkerFactory.output_key num :=
                 WorkerFactory.finding "Default" "No specific role defined." ]}) /\
  (forall num d role tasks,
      (1 <= num <= Z.of_nat (length defs))%Z ->
      defs !! Z.to_nat (num - 1) = Some d ->
      d !! "role" = Some role ->
      d !! "tasks" = Some tasks ->
      Main.worker_func llm num st
      = (worker <- WorkerFactory.create_worker llm num role tasks ;;
         WorkerFactory.call worker st)) /\
  (forall content plan assignments,
      PyStr.contains "PLAN:" content = true ->
      PyStr.contains "WORKERS:" content = true ->
      result (Planner.parse content) = Ok (plan, assignments) ->
      exists workers_raw,
        result (Planner.item (PyStr.split "WORKERS:" content) 1) = Ok workers_raw /\
        length assignments
        = length (Regex.findall3 Planner.worker_pattern (PyStr.strip workers_raw))).
Proof.
  intros Hdefs. split; [| split].
  - intros num Hlt. now apply slot_without_assignment with defs.
  - intros num d role tasks. now apply slot_with_assignment.
  - exact parse_length.
Qed.

Lemma slots_follow_the_plan_witness :
  Main.worker_func Scenario.answering 3 Scenario.planned
  = ret {[ "worker3_output" :=
             WorkerFactory.finding "Default" "No specific role defined." ]} /\
  Main.worker_func Scenario.answering 2 Scenario.planned
  = (worker <- WorkerFactory.create_worker Scenario.answering 2
                 "Execution Specialist" "Specialist: taskB" ;;
     WorkerFactory.call worker Scenario.planned).
Proof.
  assert (Hdefs : default (VList []) (Scenario.planned !! "worker_definitions")
                  = VList [ Planner.worker_def "Initial Access Specialist"
                              "Access Specialist: taskA";
                            Planner.worker_def "Execution Specialist"
                              "Specialist: taskB" ])
    by by_computation.
  destruct (slots_follow_the_plan Scenario.answering Scenario.planned _ Hdefs)
    as [Hnone [Hsome _]].
  split.
  - apply (Hnone 3%Z). cbn. lia.
  - apply (Hsome 2%Z (Planner.worker_def "Execution Specialist" "Specialist: taskB"));
      [cbn; lia | reflexivity | by_computation | by_computation].
Defined.

(** C4 as the specification states it fails: a planning response with six
    numbered entries gives a Plan with six assignments, one more than
    there are slots; and a slot without an assignment gets a finding
    whose role is "Default", which is not the default role of the Role
    Resolver, and no assignment with the task "none". *)
Lemma plan_can_exceed_the_slots :
  Spec.plan_length (result (Planner.parse Scenario.six_workers)) = Some 6 /\
  length Main.slots = 5 /\
  result (Main.worker_func Scenario.answering 3 Scenario.planned)
  = Ok {[ "worker3_output" :=
            WorkerFactory.finding "Default" "No specific role defined." ]} /\
  result (Planner.resolve_role "no such role") = Ok "Discovery Specialist".
Proof.
  split; [by_computation |]. split; [reflexivity |].
  split; by_computation.
Qed.

(** C6 at a response in the very format the planner's prompt asks for:
    the lazy role group of the pattern stops at the first blank, so the
    rest of each role name and the colon end up at the head of the task
    text; the role itself is only recovered by the Role Resolver from
    the first word. *)
Lemma role_name_leaks_into_tasks :
  result (Planner.parse Scenario.plan_text)
  = Ok ("look at the logs",
        [ Planner.worker_def "Initial Access Specialist" "Access Specialist: taskA";
          Planner.worker_def "Execution Specialist" "Specialist: taskB" ]) /\
  Regex.findall3 Planner.worker_pattern
    ("1. Initial Access Specialist: taskA" +:+ PyStr.nl
     +:+ "2. Execution Specialist: taskB")
  = [ ("1", "Initial", "Access Specialist: taskA" +:+ PyStr.nl);
      ("2", "Execution", "Specialist: taskB") ].
Proof. split; by_computation. Qed.

(** ** The Plan Parser on well-formed and on degraded input *)

Lemma append_assoc (s t u : string) : (s +:+ t) +:+ u = s +:+ t +:+ u.
Proof.
  induction s as [| c s IH]; [reflexivity |].
  change (String c ((s +:+ t) +:+ u) = String c (s +:+ t +:+ u)). now rewrite IH.
Qed.

Lemma append_nil_r (s : string) : s +:+ EmptyString = s.
Proof.
  induction s as [| c s IH]; [reflexivity |].
  change (String c (s +:+ EmptyString) = String c s). now rewrite IH.
Qed.

Lemma startswith_shorter (p u v : string) :
  PyStr.startswith p (u +:+ v) = true ->
  String.length p <= String.length u ->
  PyStr.startswith p u = true.
Proof.
  revert u. induction p as [| a p IH]; intros u H Hlen; [reflexivity |].
  destruct u as [| b u]; [cbn in Hlen; lia |].
  simpl in *. destruct (Ascii.eqb a b); [| discriminate].
  apply IH; [exact H | lia].
Qed.

Lemma split_go_skip (sep : string) (k : nat) (s cur : string) :
  k <= String.length s ->
  PyStr.split_go sep s cur k = PyStr.split_go sep (PyStr.drop k s) cur 0.
Proof.
  revert s. induction k as [| k IH]; intros s Hk.
  - destruct s; reflexivity.
  - destruct s as [| c s]; [cbn in Hk; lia |].
    cbn [PyStr.split_go PyStr.drop]. apply IH. cbn in Hk. lia.
Qed.

Lemma drop_append (s t : string) : PyStr.drop (String.length s) (s +:+ t) = t.
Proof. induction s as [| c s IH]; simpl; [now destruct t | exact IH]. Qed.

Lemma startswith_append (p t : string) : PyStr.startswith p (p +:+ t) = true.
Proof. apply startswith_spec. now exists t. Qed.

(** At a separator the current piece ends. *)
Lemma split_go_at_sep (c : ascii) (sep' rest cur : string) :
  PyStr.split_go (String c sep') (String c sep' +:+ rest) cur 0
  = cur :: PyStr.split_go (String c sep') rest EmptyString 0.
Proof.
  change (String c sep' +:+ rest) with (String c (sep' +:+ rest)).
  cbn [PyStr.split_go].
  change (String c (sep' +:+ rest)) with (String c sep' +:+ rest).
  rewrite startswith_append. f_equal.
  cbn [String.length]. rewrite Nat.sub_succ, Nat.sub_0_r.
  rewrite split_go_skip by (rewrite append_length; lia).
  now rewrite drop_append.
Qed.

(** Where no separator starts, the characters go to the current piece. *)
Lemma split_go_prefix (sep pre rest cur : string) :
  (forall a b, pre = a +:+ b -> b <> EmptyString ->
               PyStr.startswith sep (b +:+ rest) = false) ->
  PyStr.split_go sep (pre +:+ rest) cur 0
  = PyStr.split_go sep rest (cur +:+ pre) 0.
Proof.
  revert cur. induction pre as [| c pre IH]; intros cur Hno.
  - now rewrite append_nil_r.
  - change (String c pre +:+ rest) with (String c (pre +:+ rest)).
    cbn [PyStr.split_go].
    change (String c (pre +:+ rest)) with (String c pre +:+ rest).
    rewrite (Hno EmptyString (String c pre)) by (reflexivity || discriminate).
    rewrite IH.
    + f_equal. now rewrite append_assoc.
    + intros a b -> Hb. now apply (Hno (String c a) b).
Qed.

(** No separator starts before a separator that is the first one. *)
Lemma no_start_before_first (sep init : string) (last : ascii) (pre rest : string) :
  sep = init +:+ String last EmptyString ->
  ~ Spec.is_substring sep (pre +:+ init) ->
  forall a b, pre = a +:+ b -> b <> EmptyString ->
              PyStr.startswith sep (b +:+ sep +:+ rest) = false.
Proof.
  intros Hsep Hno a b -> Hb.
  destruct (PyStr.startswith sep (b +:+ sep +:+ rest)) eqn:E; [| reflexivity].
  exfalso. apply Hno.
  assert (Hstart : PyStr.startswith sep (b +:+ init) = true).
  { apply startswith_shorter with (String last EmptyString +:+ rest).
    - rewrite append_assoc, <- (append_assoc init). now rewrite <- Hsep.
    - rewrite Hsep, !append_length. destruct b; [contradiction | cbn; lia]. }
  apply startswith_spec in Hstart as [post Hpost].
  exists a, post. now rewrite append_assoc, Hpost.
Qed.

Lemma split_first_piece (sep init : string) (last : ascii) (pre rest : string) :
  sep = init +:+ String last EmptyString ->
  ~ Spec.is_substring sep (pre +:+ init) ->
  PyStr.split sep (pre +:+ sep +:+ rest) = pre :: PyStr.split sep rest.
Proof.
  intros Hsep Hno. unfold PyStr.split.
  rewrite split_go_prefix by (now apply no_start_before_first with init last).
  simpl (EmptyString +:+ pre).
  destruct sep as [| c sep']; [destruct init; discriminate |].
  apply split_go_at_sep.
Qed.

Lemma split_without_separator (sep s : string) :
  ~ Spec.is_substring sep s -> PyStr.split sep s = [s].
Proof.
  intros Hno. unfold PyStr.split.
  rewrite <- (append_nil_r s) at 1. rewrite split_go_prefix; [reflexivity |].
  intros a b -> Hb. rewrite append_nil_r.
  destruct (PyStr.startswith sep b) eqn:E; [| reflexivity].
  exfalso. apply Hno. apply startswith_spec in E as [post ->]. now exists a, post.
Qed.

Lemma split_has_head (sep s cur : string) (k : nat) :
  exists h t, PyStr.split_go sep s cur k = h :: t.
Proof.
  revert cur k. induction s as [| c s IH]; intros cur k; cbn [PyStr.split_go].
  - eauto.
  - destruct k; [| apply IH]. destruct (PyStr.startswith _ _); [eauto | apply IH].
Qed.

Lemma for_each_total {A B} (body : A -> M B) (xs : list A) :
  (forall x, exists y, result (body x) = Ok y) ->
  exists ys, result (for_each xs body) = Ok ys.
Proof.
  intros Hbody. induction xs as [| x xs [ys IH]]; [now exists [] |].
  destruct (Hbody x) as [y Hy]. exists (y :: ys). cbn [for_each].
  now rewrite (result_bind_ok _ _ _ Hy), (result_bind_ok _ _ _ IH).
Qed.

Lemma add_worker_total (m : string * string * string) :
  exists d, result (Planner.add_worker m) = Ok d.
Proof.
  destruct m as [[index role] tasks]. unfold Planner.add_worker.
  destruct (planner_resolver_contract
              (Planner.remove_asterisks (PyStr.strip role))) as [_ [_ [_ [r [Hr _]]]]].
  eexists. rewrite (result_bind_ok _ _ _ Hr), result_print_then. reflexivity.
Qed.

(** Without one of the two markers the plan is empty, and nothing fails. *)
Lemma parse_without_markers (content : string) :
  ~ Spec.is_substring "PLAN:" content \/ ~ Spec.is_substring "WORKERS:" content ->
  Planner.parse content = ret (EmptyString, []).
Proof.
  intros H. unfold Planner.parse.
  destruct H as [H | H]; apply contains_false in H; rewrite H;
    [reflexivity | now rewrite andb_false_r].
Qed.

(** With each marker once and in this order, the narrative is the text
    between the markers, trimmed. *)
Lemma narrative_between_markers (pre mid post : string) :
  ~ Spec.is_substring "PLAN:" (pre +:+ "PLAN") ->
  ~ Spec.is_substring "PLAN:" (mid +:+ "WORKERS:" +:+ post) ->
  ~ Spec.is_substring "WORKERS:" ((pre +:+ "PLAN:" +:+ mid) +:+ "WORKERS") ->
  exists assignments,
    result (Planner.parse (pre +:+ "PLAN:" +:+ mid +:+ "WORKERS:" +:+ post))
    = Ok (PyStr.strip mid, assignments).
Proof.
  intros Hfirst Honce Hworkers. unfold Planner.parse.
  assert (Hp : PyStr.contains "PLAN:" (pre +:+ "PLAN:" +:+ mid +:+ "WORKERS:" +:+ post)
               = true).
  { apply contains_spec. now exists pre, (mid +:+ "WORKERS:" +:+ post). }
  assert (Hw : PyStr.contains "WORKERS:" (pre +:+ "PLAN:" +:+ mid +:+ "WORKERS:" +:+ post)
               = true).
  { apply contains_spec. exists (pre +:+ "PLAN:" +:+ mid), post.
    now rewrite !append_assoc. }
  rewrite Hp, Hw. cbn [andb].
  rewrite (split_first_piece "PLAN:" "PLAN" ":" pre _ eq_refl Hfirst).
  rewrite (split_without_separator _ _ Honce).
  cbn [Planner.item lookup list_lookup]. rewrite bind_ret_l.
  assert (Hmid : ~ Spec.is_substring "WORKERS:" (mid +:+ "WORKERS")).
  { intros [a [b Hab]]. apply Hworkers. exists (pre +:+ "PLAN:" +:+ a), b.
    rewrite !append_assoc, Hab. reflexivity. }
  rewrite (split_first_piece "WORKERS:" "WORKERS" ":" mid post eq_refl Hmid).
  cbn [Planner.item lookup list_lookup]. rewrite bind_ret_l.
  replace (pre +:+ "PLAN:" +:+ mid +:+ "WORKERS:" +:+ post)
    with ((pre +:+ "PLAN:" +:+ mid) +:+ "WORKERS:" +:+ post)
    by (now rewrite !append_assoc).
  rewrite (split_first_piece "WORKERS:" "WORKERS" ":" _ post eq_refl Hworkers).
  destruct (split_has_head "WORKERS:" post EmptyString 0) as [h [t Hht]].
  unfold PyStr.split. rewrite Hht.
  cbn [Planner.item lookup list_lookup]. rewrite bind_ret_l.
  destruct (for_each_total Planner.add_worker
              (Regex.findall3 Planner.worker_pattern (PyStr.strip h))
              add_worker_total) as [ws Hws].
  exists ws. now rewrite (result_bind_ok _ _ _ Hws).
Qed.

(** The example of the specification, with one-word role labels: two
    assignments, the tasks as written, the unknown labels resolved to the
    default role. *)
Example parse_one_word_roles :
  result (Planner.parse "PLAN: check logins WORKERS: 1. RoleA: taskA 2. RoleB: taskB")
  = Ok ("check logins",
        [ Planner.worker_def "Discovery Specialist" "taskA";
          Planner.worker_def "Discovery Specialist" "taskB" ]).
Proof. by_computation. Qed.

(** The two stages do return on a state as the run hands it to them. *)
Example stages_return :
  result (Critique.call Scenario.answering Scenario.aggregated)
  = Ok {[ "critique_output" := VDict {[ "assessment" := "finding" ]} ]} /\
  result (Judge.call Scenario.answering Scenario.working_sink Scenario.aggregated)
  = Ok (Judge.verdict "finding").
Proof. split; by_computation. Qed.

(** The consensus text is the text generation's answer, passed on as it
    is: the stage computes no count and no tier of its own. *)
Lemma critique_assessment_is_generated (llm : LLM) (st u : state) :
  result (Critique.call llm st) = Ok u ->
  exists user_message content,
    llm [ SystemMessage Prompts.critique_system; HumanMessage user_message ]
    = Ok content /\
    u = {[ "critique_output" := VDict {[ "assessment" := content ]} ]}.
Proof.
  unfold Critique.call. intros H. repeat step_ok H.
  cbn in H. injection H as <-.
  match goal with
  | Hi : result (invoke _ _) = Ok _ |- _ => unfold invoke, result in Hi; cbn [fst] in Hi
  end.
  eauto.
Qed.

(** * Further properties of the code *)

(** ** What the planner's pattern captures *)

Import Regex.

Section RepFacts.
Context {R : Type}.

Lemma consumed_append (p s : string) : consumed (p +:+ s) s = p.
Proof.
  unfold consumed. rewrite append_length.
  replace (String.length p + String.length s - String.length s) with (String.length p) by lia.
  induction p as [| c p IH]; simpl; [now destruct s | now rewrite IH].
Qed.

Lemma rep_greedy_inv (cl : cclass) (lo : nat) (s : string) (k : string -> option R)
    (x : R) :
  rep_greedy cl lo s k = Some x ->
  exists p s', s = p +:+ s' /\ k s' = Some x /\
               Shape.all_chars (accepts cl) p = true /\ lo <= String.length p.
Proof.
  revert lo. induction s as [| a s IH]; intros lo H; cbn in H.
  - destruct lo; [| discriminate]. exists EmptyString, EmptyString. cbn. auto.
  - destruct (accepts cl a) eqn:Ha.
    + destruct (rep_greedy cl (Nat.pred lo) s k) as [y |] eqn:E.
      * injection H as <-. destruct (IH _ E) as [p [s' [-> [Hk [Hp Hlo]]]]].
        exists (String a p), s'. cbn. rewrite Ha, Hp. repeat split; auto. lia.
      * destruct lo; [| discriminate]. exists EmptyString, (String a s). cbn. auto.
    + destruct lo; [| discriminate]. exists EmptyString, (String a s). cbn. auto.
Qed.

Lemma rep_lazy_inv (cl : cclass) (lo : nat) (s : string) (k : string -> option R)
    (x : R) :
  rep_lazy cl lo s k = Some x ->
  exists p s', s = p +:+ s' /\ k s' = Some x /\
               Shape.all_chars (accepts cl) p = true /\ lo <= String.length p /\
               forall p1 p2, p = p1 +:+ p2 -> p2 <> EmptyString ->
                             lo <= String.length p1 -> k (p2 +:+ s') = None.
Proof.
  revert lo. induction s as [| a s IH]; intros lo H.
  - destruct lo; cbn in H; [| discriminate].
    destruct (k EmptyString) eqn:E; [| discriminate]. injection H as <-.
    exists EmptyString, EmptyString. cbn. repeat split; auto.
    intros p1 p2 Hp Hne _. destruct p1; [| discriminate].
        change (EmptyString = p2) in Hp. now subst.
  - destruct lo as [| lo].
    + cbn in H. destruct (k (String a s)) as [y |] eqn:E.
      * injection H as <-. exists EmptyString, (String a s). cbn. repeat split; auto.
        intros p1 p2 Hp Hne _. destruct p1; [| discriminate].
        change (EmptyString = p2) in Hp. now subst.
      * destruct (accepts cl a) eqn:Ha; [| discriminate].
        destruct (IH 0 H) as [p [s' [-> [Hk [Hp [_ Hmin]]]]]].
        exists (String a p), s'. cbn. rewrite Ha, Hp. repeat split; auto; [lia |].
        intros p1 p2 Hsplit Hne _. destruct p1 as [| b p1].
        -- change (String a p = p2) in Hsplit. subst p2. exact E.
        -- change (String a p = String b (p1 +:+ p2)) in Hsplit.
           injection Hsplit as <- ->. apply (Hmin p1 p2); auto; lia.
    + cbn in H. destruct (accepts cl a) eqn:Ha; [| discriminate].
      destruct (IH lo H) as [p [s' [-> [Hk [Hp [Hlo Hmin]]]]]].
      exists (String a p), s'. cbn. rewrite Ha, Hp. repeat split; auto; [lia |].
      intros p1 p2 Hsplit Hne Hlen. destruct p1 as [| b p1]; [cbn in Hlen; lia |].
      change (String a p = String b (p1 +:+ p2)) in Hsplit. cbn in Hlen.
      injection Hsplit as <- ->. apply (Hmin p1 p2); auto; lia.
Qed.

Lemma rep_greedy_total (cl : cclass) (s : string) (k : string -> option R) :
  (forall s', k s' <> None) -> rep_greedy cl 0 s k <> None.
Proof.
  intros Hk. induction s as [| a s IH]; cbn; [apply Hk |].
  destruct (accepts cl a); [| apply Hk].
  destruct (rep_greedy cl 0 s k); [discriminate | apply Hk].
Qed.

Lemma rep_lazy_any_total (s : string) (k : string -> option R) :
  k EmptyString <> None -> rep_lazy c_any 0 s k <> None.
Proof.
  intros Hk. induction s as [| a s IH]; cbn.
  - destruct (k EmptyString); [discriminate | contradiction].
  - destruct (k (String a s)); [discriminate | exact IH].
Qed.

End RepFacts.

Lemma run_inv (r : regex) :
  forall (R : Type) (s : string) (g : captures)
         (k : string -> captures -> option R) (x : R),
    run r R s g k = Some x ->
    exists s' g', k s' g' = Some x /\
                  forall i, Shape.no_group i r = true -> group g' i = group g i.
Proof.
  induction r as [cl | cl lo lazy | r1 IH1 r2 IH2 | r1 IH1 r2 IH2 | j r1 IH1 | r1 IH1 |];
    intros R s g k x H; cbn [run] in H.
  - destruct s as [| a s]; [discriminate |].
    destruct (accepts cl a); [| discriminate]. eauto.
  - destruct lazy.
    + apply rep_lazy_inv in H as [p [s' [_ [H _]]]]. eauto.
    + apply rep_greedy_inv in H as [p [s' [_ [H _]]]]. eauto.
  - apply IH1 in H as [s1 [g1 [H Hg1]]]. apply IH2 in H as [s2 [g2 [H Hg2]]].
    exists s2, g2. split; [exact H |].
    intros i Hi. cbn in Hi. apply andb_true_iff in Hi as [Hi1 Hi2].
    now rewrite Hg2, Hg1.
  - destruct (run r1 R s g k) as [y |] eqn:E.
    + injection H as <-. apply IH1 in E as [s1 [g1 [H Hg1]]].
      exists s1, g1. split; [exact H |].
      intros i Hi. cbn in Hi. apply andb_true_iff in Hi as [Hi1 Hi2]. auto.
    + apply IH2 in H as [s2 [g2 [H Hg2]]].
      exists s2, g2. split; [exact H |].
      intros i Hi. cbn in Hi. apply andb_true_iff in Hi as [Hi1 Hi2]. auto.
  - apply IH1 in H as [s1 [g1 [H Hg1]]]. eexists _, _. split; [exact H |].
    intros i Hi. cbn in Hi. apply andb_true_iff in Hi as [Hij Hi1].
    cbn [group]. apply negb_true_iff in Hij. rewrite Hij. auto.
  - destruct (run r1 captures s g (fun _ g' => Some g')) as [g' |] eqn:E;
      [| discriminate].
    apply IH1 in E as [s1 [g1 [E Hg1]]]. injection E as ->.
    exists s, g'. split; [exact H |]. intros i Hi. cbn in Hi. auto.
  - destruct (_ || _); [| discriminate]. eauto.
Qed.

(** After a blank the rest of the pattern always finds a match. *)
Lemma after_role_succeeds (c : ascii) (s : string) (g : captures) :
  PyStr.is_space c = true ->
  run Shape.after_role (captures * string) (String c s) g
      (fun s' g' => Some (g', s')) <> None.
Proof.
  intros Hc. unfold Shape.after_role. cbn [run].
  match goal with
  | |- match ?first with _ => _ end <> None => destruct first; [discriminate |]
  end.
  cbn [rep_greedy accepts]. rewrite Hc.
  match goal with
  | |- match ?inner with _ => _ end <> None =>
      assert (Hin : inner <> None); [| destruct inner; [discriminate | contradiction]]
  end.
  apply rep_greedy_total. intros s'. apply rep_lazy_any_total. reflexivity || discriminate.
Qed.

Lemma all_chars_by_position (f : ascii -> bool) (s : string) :
  (forall p1 c p2, s = p1 +:+ String c p2 -> f c = true) ->
  Shape.all_chars f s = true.
Proof.
  induction s as [| a s IH]; intros H; [reflexivity |].
  cbn [Shape.all_chars]. rewrite (H EmptyString a s eq_refl). cbn [andb].
  apply IH. intros p1 c p2 ->. now apply (H (String a p1) c p2).
Qed.

Lemma worker_pattern_parts :
  Planner.worker_pattern
  = Cat (Grp 1 (Rep c_digit 1 false))
   (Cat (Chr (c_lit "."))
   (Cat (Rep c_space 0 false)
   (Cat (Grp 2 (Rep (c_not ":") 1 true)) Shape.after_role))).
Proof. reflexivity. Qed.

(** The role group of a match: not empty, no colon, and no blank after
    its first character. *)
Lemma match_role_is_one_word (s : string) (g : captures) (rest : string) :
  match_here Planner.worker_pattern s = Some (g, rest) ->
  Shape.one_word (group g 2) = true /\
  Shape.all_chars (accepts (c_not ":")) (group g 2) = true.
Proof.
  unfold match_here. rewrite worker_pattern_parts. intros H.
  change (run (Cat ?a ?b) ?R ?s ?g ?k)
    with (run a R s g (fun s' g' => run b R s' g' k)) in H.
  apply run_inv in H as [s1 [g1 [H _]]].
  change (run (Cat ?a ?b) ?R ?s ?g ?k)
    with (run a R s g (fun s' g' => run b R s' g' k)) in H.
  apply run_inv in H as [s2 [g2 [H _]]].
  change (run (Cat ?a ?b) ?R ?s ?g ?k)
    with (run a R s g (fun s' g' => run b R s' g' k)) in H.
  apply run_inv in H as [s3 [g3 [H _]]].
  change (rep_lazy (c_not ":") 1 s3
            (fun s' => run Shape.after_role (captures * string) s'
                         ((2, consumed s3 s') :: g3)
                         (fun s'' g'' => Some (g'', s''))) = Some (g, rest)) in H.
  apply rep_lazy_inv in H as [p [s' [-> [Hk [Hall [Hlen Hmin]]]]]].
  rewrite consumed_append in Hk.
  apply run_inv in Hk as [sf [gf [Hk Hgroup]]]. injection Hk as -> ->.
  rewrite (Hgroup 2 eq_refl). cbn [group Nat.eqb].
  split; [| exact Hall].
  destruct p as [| c p']; [cbn in Hlen; lia |]. cbn [Shape.one_word].
  apply all_chars_by_position. intros p1 c2 p2 ->.
  destruct (PyStr.is_space c2) eqn:Hc; [| reflexivity]. exfalso.
  specialize (Hmin (String c p1) (String c2 p2) eq_refl).
  eapply after_role_succeeds; [exact Hc |].
  apply Hmin; [discriminate | cbn; lia].
Qed.

Lemma scan_from_matches (r : regex) (s : string) (skip : nat) (g : captures) :
  In g (scan r s skip) -> exists s0 rest, match_here r s0 = Some (g, rest).
Proof.
  revert skip. induction s as [| c s IH]; intros skip H; cbn [scan] in H.
  - destruct skip; [| destruct H].
    destruct (match_here r EmptyString) as [[g0 rest] |] eqn:E; [| destruct H].
    destruct H as [<- | []]. eauto.
  - destruct skip as [| k]; [| now apply IH with k].
    destruct (match_here r (String c s)) as [[g0 rest] |] eqn:E.
    + destruct H as [<- | H]; [eauto | eapply IH; exact H].
    + eapply IH; exact H.
Qed.

(** ** Removing the markup *)

Lemma leading_le (p : ascii -> bool) (s : string) :
  Shape.leading p s <= String.length s.
Proof. induction s as [| c s IH]; cbn; [lia | destruct (p c); lia]. Qed.

Lemma string_drop_length (k : nat) (s : string) :
  String.length (PyStr.drop k s) = String.length s - k.
Proof.
  revert s. induction k as [| k IH]; intros [| c s]; cbn; try lia. apply IH.
Qed.

Lemma rep_greedy_leading {R} (cl : cclass) (lo : nat) (s : string)
    (k : string -> option R) :
  (forall s', k s' <> None) ->
  rep_greedy cl lo s k
  = if (lo <=? Shape.leading (accepts cl) s)%nat
    then k (PyStr.drop (Shape.leading (accepts cl) s) s) else None.
Proof.
  intros Hk. revert lo. induction s as [| a s IH]; intros lo; cbn.
  - now destruct lo.
  - destruct (accepts cl a); [| now destruct lo].
    rewrite IH. destruct lo as [| lo]; cbn [Nat.pred Nat.leb PyStr.drop].
    + destruct (k (PyStr.drop _ s)) eqn:E; [reflexivity | now apply Hk in E].
    + destruct (lo <=? _)%nat; [| reflexivity].
      now destruct (k (PyStr.drop _ s)).
Qed.

Lemma delete_matches_skip (r : regex) (k : nat) (s : string) :
  k <= String.length s ->
  delete_matches r s k = delete_matches r (PyStr.drop k s) 0.
Proof.
  revert s. induction k as [| k IH]; intros s Hk.
  - destruct s; reflexivity.
  - destruct s as [| c s]; [cbn in Hk; lia |].
    cbn [delete_matches PyStr.drop]. apply IH. cbn in Hk. lia.
Qed.

Lemma without_char_drop_leading (c : ascii) (s : string) :
  Shape.without_char c (PyStr.drop (Shape.leading (fun a => Ascii.eqb a c) s) s)
  = Shape.without_char c s.
Proof.
  induction s as [| a s IH]; [reflexivity |]. cbn.
  destruct (Ascii.eqb a c) eqn:E; [exact IH |]. cbn. now rewrite E.
Qed.

Lemma remove_asterisks_bounded (n : nat) (s : string) :
  String.length s <= n ->
  delete_matches (Rep (c_lit "*") 1 false) s 0 = Shape.without_char "*" s.
Proof.
  revert s. induction n as [| n IH]; intros [| c s] Hn; try reflexivity;
    [cbn in Hn; lia |].
  cbn [delete_matches Shape.without_char]. unfold match_here. cbn [run].
  rewrite rep_greedy_leading by discriminate.
  cbn [Shape.leading accepts].
  destruct (Ascii.eqb c "*") eqn:E.
  - cbn [Nat.leb PyStr.drop String.length].
    rewrite string_drop_length.
    change (accepts (c_lit "*")) with (fun a => Ascii.eqb a "*").
    assert (Hle := leading_le (fun a => Ascii.eqb a "*") s).
    replace (S (String.length s)
             - (String.length s - Shape.leading (fun a => Ascii.eqb a "*") s))
      with (S (Shape.leading (fun a => Ascii.eqb a "*") s)) by lia.
    rewrite delete_matches_skip by exact Hle.
    rewrite IH by (rewrite string_drop_length; cbn in Hn; lia).
    apply without_char_drop_leading.
  - cbn [Nat.leb]. f_equal. apply IH. cbn in Hn. lia.
Qed.

Lemma remove_asterisks_spec (s : string) :
  Planner.remove_asterisks s = Shape.without_char "*" s.
Proof.
  unfold Planner.remove_asterisks, sub_empty.
  now apply remove_asterisks_bounded with (String.length s).
Qed.

(** ** Labels of one word *)

Lemma rstrip_no_blank (s : string) :
  Shape.all_chars (fun c => negb (PyStr.is_space c)) s = true -> PyStr.rstrip s = s.
Proof.
  induction s as [| c s IH]; [reflexivity |]. cbn.
  intros H. apply andb_true_iff in H as [Hc Hs]. rewrite (IH Hs).
  apply negb_true_iff in Hc. rewrite Hc. now destruct s.
Qed.

Lemma lstrip_no_blank (s : string) :
  Shape.all_chars (fun c => negb (PyStr.is_space c)) s = true -> PyStr.lstrip s = s.
Proof.
  destruct s as [| c s]; [reflexivity |]. cbn.
  intros H. apply andb_true_iff in H as [Hc _].
  apply negb_true_iff in Hc. now rewrite Hc.
Qed.

Lemma strip_one_word (s : string) :
  Shape.one_word s = true ->
  Shape.all_chars (fun c => negb (PyStr.is_space c)) (PyStr.strip s) = true.
Proof.
  destruct s as [| c s]; [discriminate |]. cbn [Shape.one_word]. intros Hs.
  unfold PyStr.strip. cbn [PyStr.lstrip]. destruct (PyStr.is_space c) eqn:Hc.
  - rewrite (lstrip_no_blank _ Hs), (rstrip_no_blank _ Hs). exact Hs.
  - assert (H : Shape.all_chars (fun c => negb (PyStr.is_space c)) (String c s) = true).
    { cbn. now rewrite Hc, Hs. }
    now rewrite (rstrip_no_blank _ H).
Qed.

Lemma without_char_keeps (f : ascii -> bool) (c : ascii) (s : string) :
  Shape.all_chars f s = true -> Shape.all_chars f (Shape.without_char c s) = true.
Proof.
  induction s as [| a s IH]; [reflexivity |]. cbn.
  intros H. apply andb_true_iff in H as [Ha Hs].
  destruct (Ascii.eqb a c); [auto |]. cbn. now rewrite Ha, IH.
Qed.

Lemma canonical_roles_have_blanks (v : string) :
  In v Planner.valid_roles ->
  Shape.all_chars (fun c => negb (PyStr.is_space c)) v = false.
Proof.
  intros H. cbn in H.
  repeat (destruct H as [<- | H]; [reflexivity |]). destruct H.
Qed.

(** X1. Whatever text follows the WORKERS marker, a role label the
    planner's pattern captures is not empty, has no colon and has no
    blank after its first character; trimmed and freed of asterisks it
    is a single word, so it is never one of the canonical role names
    (all of which have two or three words): the exact-match branch of the
    planner's role validation is never taken, and every role of a plan
    comes from the containment search or is the default. *)
Theorem captured_role_is_one_word (workers_raw index role tasks : string) :
  In (index, role, tasks) (findall3 Planner.worker_pattern workers_raw) ->
  Shape.one_word role = true /\
  Shape.all_chars (fun c => negb (Ascii.eqb c ":")) role = true /\
  Shape.all_chars (fun c => negb (PyStr.is_space c))
    (Planner.remove_asterisks (PyStr.strip role)) = true /\
  Planner.role_in (Planner.remove_asterisks (PyStr.strip role))
    Planner.valid_roles = false.
Proof.
  unfold findall3. intros H. apply in_map_iff in H as [g [Heq Hg]].
  injection Heq as _ <- _.
  apply scan_from_matches in Hg as [s0 [rest Hmatch]].
  apply match_role_is_one_word in Hmatch as [Hword Hcolon].
  assert (Hlabel : Shape.all_chars (fun c => negb (PyStr.is_space c))
                     (Planner.remove_asterisks (PyStr.strip (group g 2))) = true).
  { rewrite remove_asterisks_spec. apply without_char_keeps. now apply strip_one_word. }
  repeat split; try assumption.
  destruct (Planner.role_in _ _) eqn:E; [| reflexivity].
  apply role_in_spec, canonical_roles_have_blanks in E. congruence.
Qed.

Lemma captured_role_is_one_word_witness :
  Shape.one_word "Initial" = true /\
  Shape.all_chars (fun c => negb (Ascii.eqb c ":")) "Initial" = true /\
  Shape.all_chars (fun c => negb (PyStr.is_space c))
    (Planner.remove_asterisks (PyStr.strip "Initial")) = true /\
  Planner.role_in (Planner.remove_asterisks (PyStr.strip "Initial"))
    Planner.valid_roles = false.
Proof.
  apply (captured_role_is_one_word "1. Initial Access Specialist: taskA"
           "1" "Initial" "Access Specialist: taskA").
  apply in_by_computation. vm_compute. exact I.
Defined.

(** X2. [re.sub(r'\*+', '', s)] takes out every asterisk and nothing
    else: the result is [s] without its asterisks, the other characters in
    their order, and removing again changes nothing. *)
Theorem asterisks_are_removed (s : string) :
  Planner.remove_asterisks s = Shape.without_char "*" s /\
  Shape.all_chars (fun c => negb (Ascii.eqb c "*")) (Planner.remove_asterisks s) = true /\
  Planner.remove_asterisks (Planner.remove_asterisks s) = Planner.remove_asterisks s.
Proof.
  rewrite !remove_asterisks_spec.
  assert (Hclean : Shape.all_chars (fun c => negb (Ascii.eqb c "*"))
                     (Shape.without_char "*" s) = true).
  { induction s as [| a s IH]; [reflexivity |]. cbn.
    destruct (Ascii.eqb a "*") eqn:E; [exact IH |]. cbn. now rewrite E, IH. }
  split; [reflexivity |]. split; [exact Hclean |].
  revert Hclean. generalize (Shape.without_char "*" s). intros t.
  induction t as [| a t IH]; [reflexivity |]. cbn.
  intros H. apply andb_true_iff in H as [Ha Ht]. apply negb_true_iff in Ha.
  rewrite Ha. f_equal. now apply IH.
Qed.

(** ** The planner's parsing and its update *)

Lemma without_char_clean (c : ascii) (s : string) :
  Shape.all_chars (fun a => negb (Ascii.eqb a c)) (Shape.without_char c s) = true.
Proof.
  induction s as [| a s IH]; [reflexivity |]. cbn.
  destruct (Ascii.eqb a c) eqn:E; [exact IH |]. cbn. now rewrite E, IH.
Qed.

Lemma split_has_two_pieces (sep s cur : string) :
  sep <> EmptyString ->
  PyStr.contains sep s = true ->
  exists a b t, PyStr.split_go sep s cur 0 = a :: b :: t.
Proof.
  intros Hsep. revert cur. induction s as [| c s IH]; intros cur H.
  - cbn in H. destruct sep; [contradiction | discriminate].
  - cbn [PyStr.contains] in H. cbn [PyStr.split_go].
    destruct (PyStr.startswith sep (String c s)).
    + destruct (split_has_head sep s EmptyString (String.length sep - 1))
        as [h [t ->]]. eauto.
    + cbn [orb] in H. now apply IH.
Qed.

Lemma add_worker_shape (m : string * string * string) (d : gmap string string) :
  result (Planner.add_worker m) = Ok d -> Shape.assignment d.
Proof.
  destruct m as [[index role] tasks]. unfold Planner.add_worker. intros H.
  step_ok H. step_ok H. cbn in H. injection H as <-.
  exists a, (Planner.remove_asterisks (PyStr.strip tasks)).
  split; [reflexivity |]. split.
  - destruct (planner_resolver_contract
                (Planner.remove_asterisks (PyStr.strip role)))
      as [_ [_ [_ [r [Hr Hin]]]]].
    rewrite Hr in Ha. now injection Ha as <-.
  - rewrite remove_asterisks_spec. apply without_char_clean.
Qed.

Lemma parse_returns_assignments (content : string) :
  exists plan assignments,
    result (Planner.parse content) = Ok (plan, assignments) /\
    Forall Shape.assignment assignments.
Proof.
  unfold Planner.parse.
  destruct (PyStr.contains "PLAN:" content) eqn:Hplan;
    [| exists EmptyString, []; split; [reflexivity | constructor]].
  destruct (PyStr.contains "WORKERS:" content) eqn:Hworkers;
    [| exists EmptyString, []; split; [reflexivity | constructor]].
  cbn [andb]. unfold PyStr.split.
  destruct (split_has_two_pieces "PLAN:" content EmptyString ltac:(discriminate) Hplan)
    as [a [b [t ->]]].
  cbn [Planner.item lookup list_lookup]. rewrite bind_ret_l.
  destruct (split_has_head "WORKERS:" b EmptyString 0) as [h [t' ->]].
  cbn [Planner.item lookup list_lookup]. rewrite bind_ret_l.
  destruct (split_has_two_pieces "WORKERS:" content EmptyString
              ltac:(discriminate) Hworkers) as [a' [b' [t'' ->]]].
  cbn [Planner.item lookup list_lookup]. rewrite bind_ret_l.
  destruct (for_each_total Planner.add_worker
              (Regex.findall3 Planner.worker_pattern (PyStr.strip b'))
              add_worker_total) as [ws Hws].
  exists (PyStr.strip h), ws. rewrite (result_bind_ok _ _ _ Hws).
  split; [reflexivity |].
  apply for_each_ok_inv in Hws. clear -Hws.
  induction Hws as [| x d xs ds Hx _ IH]; constructor; [| exact IH].
  now apply add_worker_shape with x.
Qed.

(** X3. Parsing a planning response never raises, whatever the text: the
    two indexings of [split] are guarded by the two containment tests. And
    every assignment it returns has exactly the keys role and tasks, a
    canonical role, and a task text free of asterisks. *)
Theorem parse_never_raises (content : string) :
  exists plan assignments,
    result (Planner.parse content) = Ok (plan, assignments) /\
    Forall Shape.assignment assignments.
Proof. exact (parse_returns_assignments content). Qed.

Lemma planner_update_form (llm : LLM) (st u : state) :
  result (Planner.call llm st) = Ok u ->
  exists plan assignments,
    u = <["worker_definitions" := VList assignments]>
          (<["plan" := VStr plan]>
             (filter (fun kv => negb (Planner.role_in (fst kv) Planner.not_copied) = true)
                     st)).
Proof.
  unfold Planner.call. intros H. do 5 step_ok H.
  destruct a3 as [plan assignments]. repeat step_ok H.
  cbn in H. injection H as <-. eauto.
Qed.

(** X4. The dict the planner returns holds the new plan (a text) and the
    new worker definitions, carries over every other field of the state
    unchanged (the request, the payload, the limits, also an earlier
    final_judgment), and leaves out the worker outputs and the critique
    of an earlier round. *)
Theorem planner_update_frame (llm : LLM) (st u : state) :
  result (Planner.call llm st) = Ok u ->
  (exists plan, u !! "plan" = Some (VStr plan)) /\
  (exists assignments, u !! "worker_definitions" = Some (VList assignments)) /\
  (forall k, ~ In k Planner.not_copied -> u !! k = st !! k) /\
  (forall k, In k [ "worker1_output"; "worker2_output"; "worker3_output";
                    "worker4_output"; "worker5_output"; "critique_output" ] ->
             u !! k = None).
Proof.
  intros H. destruct (planner_update_form _ _ _ H) as [plan [assignments ->]].
  split; [exists plan; now rewrite lookup_insert_ne, lookup_insert_eq |].
  split; [exists assignments; now rewrite lookup_insert_eq |].
  split.
  - intros k Hk.
    assert (Hwd : "worker_definitions" <> k) by (intros <-; apply Hk; cbn; tauto).
    assert (Hplan : "plan" <> k) by (intros <-; apply Hk; cbn; tauto).
    rewrite lookup_insert_ne, lookup_insert_ne by assumption.
    assert (Hin : Planner.role_in k Planner.not_copied = false).
    { destruct (Planner.role_in k Planner.not_copied) eqn:E; [| reflexivity].
      apply role_in_spec in E. contradiction. }
    destruct (st !! k) as [v |] eqn:Hv.
    + apply map_lookup_filter_Some_2; [exact Hv |]. cbn [fst]. now rewrite Hin.
    + apply map_lookup_filter_None_2. now left.
  - intros k Hk.
    assert (Hin : Planner.role_in k Planner.not_copied = true).
    { apply role_in_spec. cbn in *. tauto. }
    rewrite lookup_insert_ne, lookup_insert_ne
      by (intros <-; cbn in Hk; intuition discriminate).
    apply map_lookup_filter_None_2. right. intros v _. cbn [fst]. now rewrite Hin.
Qed.

Lemma planner_update_frame_witness :
  (exists plan, Scenario.planned_update !! "plan" = Some (VStr plan)) /\
  (exists assignments,
      Scenario.planned_update !! "worker_definitions" = Some (VList assignments)) /\
  (forall k, ~ In k Planner.not_copied ->
             Scenario.planned_update !! k = Scenario.aggregated !! k) /\
  (forall k, In k [ "worker1_output"; "worker2_output"; "worker3_output";
                    "worker4_output"; "worker5_output"; "critique_output" ] ->
             Scenario.planned_update !! k = None).
Proof.
  apply (planner_update_frame Scenario.answering Scenario.aggregated
           Scenario.planned_update).
  by_computation.
Defined.

(** ** The two role validations and the worker they lead to *)

Lemma matching_loops_agree (role : string) (roles : list string) :
  result (WorkerFactory.find_matching_role role roles)
  = result (Planner.closest_match role roles).
Proof.
  induction roles as [| v roles IH];
    cbn [WorkerFactory.find_matching_role Planner.closest_match].
  - now rewrite !result_print_then.
  - destruct (PyStr.contains _ _); [now rewrite !result_print_then | exact IH].
Qed.

Lemma validations_agree (worker_id : Z) (role : string) :
  result (WorkerFactory.validate_role worker_id role)
  = result (Planner.resolve_role role).
Proof.
  unfold WorkerFactory.validate_role, Planner.resolve_role.
  change WorkerFactory.valid_roles with Planner.valid_roles.
  destruct (negb _); [| reflexivity].
  rewrite result_print_then. apply matching_loops_agree.
Qed.

Lemma canonical_role_passes (worker_id : Z) (role : string) :
  In role Planner.valid_roles ->
  WorkerFactory.validate_role worker_id role = ret role /\
  Planner.resolve_role role = ret role.
Proof.
  intros H. apply role_in_spec in H.
  unfold WorkerFactory.validate_role, Planner.resolve_role.
  change WorkerFactory.valid_roles with Planner.valid_roles.
  now rewrite H.
Qed.

(** X5. The role validation of the planner and the one of the worker
    factory give the same role for every label; and the role either of
    them gives passes both of them unchanged and without a printed
    warning, so a role the planner has put into a plan is the role the
    worker gets. *)
Theorem role_validations_agree (worker_id : Z) (label : string) :
  result (WorkerFactory.validate_role worker_id label)
  = result (Planner.resolve_role label) /\
  exists role,
    result (Planner.resolve_role label) = Ok role /\
    WorkerFactory.validate_role worker_id role = ret role /\
    Planner.resolve_role role = ret role.
Proof.
  split; [apply validations_agree |].
  destruct (planner_resolver_contract label) as [_ [_ [_ [role [Hrole Hin]]]]].
  exists role. split; [exact Hrole |]. now apply canonical_role_passes.
Qed.

Lemma dict_get_present (d : list (string * string)) (k x y : string) :
  Shape.has_key d k = true ->
  WorkerFactory.dict_get d k x = WorkerFactory.dict_get d k y.
Proof.
  induction d as [| [k' v] d IH]; [discriminate |].
  cbn. destruct (String.eqb k k'); [reflexivity | exact IH].
Qed.

Lemma every_role_has_a_prompt (role : string) :
  In role Planner.valid_roles ->
  Shape.has_key Prompts.role_prompts role = true /\
  WorkerFactory.dict_get Prompts.role_prompts role EmptyString <> EmptyString.
Proof.
  intros H.
  assert (Hall : forallb (fun r =>
                   Shape.has_key Prompts.role_prompts r
                   && negb (String.eqb (WorkerFactory.dict_get Prompts.role_prompts r
                                          EmptyString) EmptyString))
                   Planner.valid_roles = true) by (vm_compute; reflexivity).
  rewrite forallb_forall in Hall. apply Hall in H.
  apply andb_true_iff in H as [Hkey Hne]. split; [exact Hkey |].
  apply negb_true_iff, String.eqb_neq in Hne. exact Hne.
Qed.

Lemma create_worker_form (llm : LLM) (worker_id : Z) (role tasks : string)
    (w : WorkerFactory.SecurityWorker) :
  result (WorkerFactory.create_worker llm worker_id role tasks) = Ok w ->
  exists r,
    result (WorkerFactory.validate_role worker_id role) = Ok r /\
    w = WorkerFactory.mkSecurityWorker llm worker_id r tasks
          (WorkerFactory.dict_get Prompts.role_prompts r
             (Prompts.generic_prompt r tasks)).
Proof.
  unfold WorkerFactory.create_worker. intros H. repeat step_ok H.
  cbn in H. injection H as <-. eauto.
Qed.

Lemma create_worker_total (llm : LLM) (worker_id : Z) (role tasks : string) :
  exists w, result (WorkerFactory.create_worker llm worker_id role tasks) = Ok w.
Proof.
  destruct (factory_resolver_contract worker_id role) as [_ [_ [_ [r [Hr _]]]]].
  unfold WorkerFactory.create_worker.
  rewrite (result_bind_ok _ _ _ Hr), !result_print_then. eauto.
Qed.

(** X6. The worker factory makes a worker for every role label and task
    text, and never raises. The worker has the given id and tasks, a
    canonical role (the given one if that is canonical), and the system
    prompt written for that role: the generic prompt built from the tasks
    is never used, so the task text never reaches the system message. *)
Theorem created_worker_has_role_prompt (llm : LLM) (worker_id : Z)
    (role tasks : string) :
  exists w,
    result (WorkerFactory.create_worker llm worker_id role tasks) = Ok w /\
    WorkerFactory.worker_id w = worker_id /\
    WorkerFactory.tasks w = tasks /\
    WorkerFactory.llm w = llm /\
    In (WorkerFactory.role w) WorkerFactory.valid_roles /\
    (In role WorkerFactory.valid_roles -> WorkerFactory.role w = role) /\
    WorkerFactory.system_prompt w
    = WorkerFactory.dict_get Prompts.role_prompts (WorkerFactory.role w) EmptyString /\
    WorkerFactory.system_prompt w <> EmptyString.
Proof.
  destruct (create_worker_total llm worker_id role tasks) as [w Hw].
  exists w. split; [exact Hw |].
  destruct (create_worker_form _ _ _ _ _ Hw) as [r [Hr ->]].
  cbn [WorkerFactory.worker_id WorkerFactory.tasks WorkerFactory.llm
       WorkerFactory.role WorkerFactory.system_prompt].
  destruct (factory_resolver_contract worker_id role) as [Hexact [_ [_ [r' [Hr' Hin]]]]].
  cbn beta in Hr'. rewrite Hr in Hr'. injection Hr' as <-.
  destruct (every_role_has_a_prompt r Hin) as [Hkey Hne].
  repeat split; try assumption.
  - intros Hrole. specialize (Hexact Hrole). cbn beta in Hexact. congruence.
  - now apply dict_get_present.
  - now rewrite (dict_get_present _ _ _ EmptyString Hkey).
Qed.

(** ** What the stages read, and what they need *)

(** X7. A SecurityWorker needs the request and the plan: without
    human_input, or with it but without plan, it prints its start line,
    raises the KeyError of the missing key and calls nothing. The payload
    is optional: a state without log_content gives the same worker run as
    one whose log_content is the empty text. *)
Theorem worker_needs_request_and_plan (self : WorkerFactory.SecurityWorker)
    (st : state) :
  (st !! "human_input" = None ->
   WorkerFactory.call self st
   = (Raise (KeyError "human_input"),
      [ Printed (PyStr.concat ["WORKER "; PyStr.str_of_int (WorkerFactory.worker_id self);
                               " ("; WorkerFactory.role self; "): Starting analysis"]) ])) /\
  (forall request, st !! "human_input" = Some (VStr request) ->
   st !! "plan" = None ->
   WorkerFactory.call self st
   = (Raise (KeyError "plan"),
      [ Printed (PyStr.concat ["WORKER "; PyStr.str_of_int (WorkerFactory.worker_id self);
                               " ("; WorkerFactory.role self; "): Starting analysis"]) ])) /\
  (st !! "log_content" = None ->
   WorkerFactory.call self st
   = WorkerFactory.call self (<["log_content" := VStr EmptyString]> st)).
Proof.
  split; [| split].
  - intros H. unfold WorkerFactory.call, getitem. rewrite H. reflexivity.
  - intros request Hr Hp. unfold WorkerFactory.call, getitem. rewrite Hr, Hp. reflexivity.
  - intros H. unfold WorkerFactory.call, getitem.
    rewrite H, lookup_insert_eq.
    rewrite !(lookup_insert_ne _ "log_content" "human_input") by discriminate.
    rewrite !(lookup_insert_ne _ "log_content" "plan") by discriminate.
    reflexivity.
Qed.

Lemma add_analyses_ext (st st' : state) (ids : list Z) :
  Forall (fun i => st !! WorkerFactory.output_key i = st' !! WorkerFactory.output_key i)
         ids ->
  forall user_message,
    Critique.add_analyses st ids user_message
    = Critique.add_analyses st' ids user_message.
Proof.
  induction 1 as [| i ids Hi _ IH]; intros user_message; [reflexivity |].
  cbn [Critique.add_analyses]. rewrite <- Hi.
  destruct (st !! WorkerFactory.output_key i); [| apply IH].
  do 2 (apply bind_ext; intros ?). apply IH.
Qed.

(** X8. The Critique stage looks at the request, the plan and the five
    worker outputs, and at nothing else: on two states that hold the same
    under these seven keys it prints, calls and returns the same. In
    particular the evidence payload and the worker definitions never
    reach its prompt. *)
Theorem critique_reads_request_plan_and_slots (llm : LLM) (st st' : state) :
  Shape.agree_on Shape.critique_reads st st' ->
  Critique.call llm st = Critique.call llm st'.
Proof.
  unfold Shape.agree_on, Shape.critique_reads. intros H.
  apply Forall_cons in H as [Hrequest H]. apply Forall_cons in H as [Hplan Hslots].
  apply Forall_map in Hslots.
  unfold Critique.call, getitem. rewrite <- Hrequest, <- Hplan.
  do 5 (apply bind_ext; intros ?).
  now rewrite (add_analyses_ext st st' _ Hslots).
Qed.

Lemma critique_reads_request_plan_and_slots_witness :
  Critique.call Scenario.answering Scenario.aggregated
  = Critique.call Scenario.answering
      (<["log_content" := VStr "another payload"]>
         (<["worker_definitions" := VList []]> Scenario.aggregated)).
Proof.
  apply (critique_reads_request_plan_and_slots Scenario.answering Scenario.aggregated).
  by_computation.
Defined.

Lemma judge_generate_ext (llm : LLM) (st st' : state) :
  Shape.agree_on Shape.judge_reads st st' ->
  Judge.generate llm st = Judge.generate llm st'.
Proof.
  unfold Shape.agree_on, Shape.judge_reads. intros H.
  apply Forall_cons in H as [Hrequest H]. apply Forall_cons in H as [Hplan H].
  apply Forall_cons in H as [Hcritique _].
  unfold Judge.generate, getitem. now rewrite <- Hrequest, <- Hplan, <- Hcritique.
Qed.

Lemma judge_result (llm : LLM) (sink : Sink) (st : state) :
  result (Judge.call llm sink st)
  = match result (Judge.generate llm st) with
    | Ok content => Ok (Judge.verdict content)
    | Raise e => Raise e
    end.
Proof.
  unfold Judge.call. rewrite result_bind.
  destruct (result (Judge.generate llm st)) as [content | e]; [| reflexivity].
  rewrite result_bind, result_try_except.
  destruct (result (Judge.persist_example sink st content)); reflexivity.
Qed.

(** X9. The verdict of the Decision Stage is a function of the request,
    the plan and the critique alone: on two states that hold the same
    under these three keys, and with any two sinks, the stage returns the
    same (or raises the same). The worker outputs and the payload do not
    influence the verdict. *)
Theorem verdict_depends_on_request_plan_and_critique (llm : LLM)
    (sink sink' : Sink) (st st' : state) :
  Shape.agree_on Shape.judge_reads st st' ->
  result (Judge.call llm sink st) = result (Judge.call llm sink' st').
Proof.
  intros H. rewrite !judge_result. now rewrite (judge_generate_ext llm st st' H).
Qed.

Lemma verdict_depends_on_request_plan_and_critique_witness :
  result (Judge.call Scenario.answering Scenario.working_sink Scenario.aggregated)
  = result (Judge.call Scenario.answering Scenario.failing_sink
              (<["worker1_output" := VStr "not even a dict"]>
                 (<["log_content" := VStr "another payload"]> Scenario.aggregated))).
Proof.
  apply (verdict_depends_on_request_plan_and_critique Scenario.answering
           Scenario.working_sink Scenario.failing_sink Scenario.aggregated).
  by_computation.
Defined.

(** X10. The Decision Stage needs the critique: with the request and the
    plan in the state but no critique_output, or a critique_output without
    assessment, it raises the KeyError of the missing key before it
    calls the text generation or the sink. This lookup is outside the
    try block, so the error is not swallowed. *)
Theorem judge_needs_the_critique (llm : LLM) (sink : Sink) (st : state) :
  (is_Some (st !! "human_input") -> is_Some (st !! "plan") ->
   st !! "critique_output" = None ->
   Judge.call llm sink st = raise (KeyError "critique_output")) /\
  (forall d,
   is_Some (st !! "human_input") -> is_Some (st !! "plan") ->
   st !! "critique_output" = Some (VDict d) -> d !! "assessment" = None ->
   Judge.call llm sink st = raise (KeyError "assessment")).
Proof.
  split.
  - intros [request Hr] [plan Hp] Hc.
    unfold Judge.call, Judge.generate, getitem. rewrite Hr, Hp, Hc. reflexivity.
  - intros d [request Hr] [plan Hp] Hc Ha.
    unfold Judge.call, Judge.generate, getitem, subscript, getfield.
    rewrite Hr, Hp, Hc. cbn [bind ret]. rewrite Ha. reflexivity.
Qed.

(** ** The training example *)

Lemma in_trace_bind {A B} (m : M A) (f : A -> M B) (ev : event) :
  In ev (trace (bind m f)) ->
  In ev (trace m) \/ exists a, result m = Ok a /\ In ev (trace (f a)).
Proof.
  rewrite trace_bind. destruct (result m) as [a | e]; [| now left].
  intros H. apply in_app_or in H as [H | H]; [now left | right; eauto].
Qed.

Lemma trace_getitem (st : state) (k : string) : trace (getitem st k) = [].
Proof. unfold getitem. now destruct (st !! k). Qed.

Lemma trace_getfield (d : gmap string string) (k : string) : trace (getfield d k) = [].
Proof. unfold getfield. now destruct (d !! k). Qed.

Lemma trace_as_str (v : value) : trace (as_str v) = [].
Proof. now destruct v. Qed.

Lemma trace_subscript (v : value) (k : string) : trace (subscript v k) = [].
Proof. destruct v; try reflexivity. apply trace_getfield. Qed.

Lemma trace_bind_nil {A B} (m : M A) (f : A -> M B) :
  trace m = [] -> (forall a, trace (f a) = []) -> trace (bind m f) = [].
Proof.
  intros Hm Hf. rewrite trace_bind, Hm.
  destruct (result m); [apply Hf | reflexivity].
Qed.

Lemma trace_gather_outputs (st : state) (ids : list Z) :
  trace (Judge.gather_outputs st ids) = [].
Proof.
  induction ids as [| i ids IH]; [reflexivity |]. cbn [Judge.gather_outputs].
  destruct (st !! WorkerFactory.output_key i); [| exact IH].
  apply trace_bind_nil; [apply trace_subscript | intros role].
  apply trace_bind_nil; [apply trace_subscript | intros analysis].
  apply trace_bind_nil; [exact IH | reflexivity].
Qed.

Lemma generate_sends_nothing (llm : LLM) (st : state) (ex : example) :
  ~ In (ExampleSent ex) (trace (Judge.generate llm st)).
Proof.
  unfold Judge.generate. intros H.
  apply in_trace_bind in H as [H | [a [_ H]]]; [now rewrite trace_getitem in H |].
  apply in_trace_bind in H as [H | [a0 [_ H]]]; [now rewrite trace_getitem in H |].
  apply in_trace_bind in H as [H | [a1 [_ H]]]; [now rewrite trace_getitem in H |].
  apply in_trace_bind in H as [H | [a2 [_ H]]]; [now rewrite trace_subscript in H |].
  apply in_trace_bind in H as [H | [a3 [_ H]]]; [now rewrite trace_as_str in H |].
  apply in_trace_bind in H as [H | [a4 [_ H]]]; [now rewrite trace_as_str in H |].
  destruct H as [H | []]. discriminate.
Qed.

Lemma sent_example_form (sink : Sink) (st : state) (content : string) (ex : example) :
  In (ExampleSent ex) (trace (Judge.persist_example sink st content)) ->
  exists request plan critique_output critique outputs,
    result (Judge.gather_outputs st Main.slots) = Ok outputs /\
    st !! "human_input" = Some (VStr request) /\
    st !! "plan" = Some (VStr plan) /\
    st !! "critique_output" = Some critique_output /\
    result (subscript critique_output "assessment") = Ok critique /\
    ex = mkExample request plan outputs critique content
           "crowdstrike_detection_training_examples".
Proof.
  unfold Judge.persist_example. intros H.
  apply in_trace_bind in H as [[H | []] | [_ [_ H]]]; [discriminate |].
  apply in_trace_bind in H as [H | [outputs [Houtputs H]]];
    [now rewrite trace_gather_outputs in H |].
  apply in_trace_bind in H as [H | [v1 [Hv1 H]]]; [now rewrite trace_getitem in H |].
  apply in_trace_bind in H as [H | [request [Hrequest H]]];
    [now rewrite trace_as_str in H |].
  apply in_trace_bind in H as [H | [v2 [Hv2 H]]]; [now rewrite trace_getitem in H |].
  apply in_trace_bind in H as [H | [plan [Hplan H]]]; [now rewrite trace_as_str in H |].
  apply in_trace_bind in H as [H | [v3 [Hv3 H]]]; [now rewrite trace_getitem in H |].
  apply in_trace_bind in H as [H | [critique [Hcritique H]]];
    [now rewrite trace_subscript in H |].
  destruct H as [H | []]. injection H as <-.
  unfold getitem in Hv1, Hv2, Hv3.
  destruct (st !! "human_input") as [w1 |]; [| discriminate]. injection Hv1 as ->.
  destruct (st !! "plan") as [w2 |]; [| discriminate]. injection Hv2 as ->.
  destruct (st !! "critique_output") as [w3 |]; [| discriminate]. injection Hv3 as ->.
  destruct v1; try discriminate. injection Hrequest as ->.
  destruct v2; try discriminate. injection Hplan as ->.
  exists request, plan, v3, critique, outputs. repeat split; auto.
Qed.

(** X11. Whatever example the Decision Stage hands to the sink carries the
    verdict the stage returns: its judgment is the returned evaluation,
    its request, plan and critique are the ones in the state, its worker
    outputs are the outputs of the slots that are in the state, in slot
    order, and its dataset is crowdstrike_detection_training_examples. *)
Theorem sent_example_carries_the_verdict (llm : LLM) (sink : Sink) (st : state)
    (ex : example) :
  In (ExampleSent ex) (trace (Judge.call llm sink st)) ->
  result (Judge.call llm sink st) = Ok (Judge.verdict (ex_judgment ex)) /\
  ex_dataset_name ex = "crowdstrike_detection_training_examples" /\
  st !! "human_input" = Some (VStr (ex_human_input ex)) /\
  st !! "plan" = Some (VStr (ex_plan ex)) /\
  (exists critique_output,
      st !! "critique_output" = Some critique_output /\
      result (subscript critique_output "assessment") = Ok (ex_critique ex)) /\
  result (Judge.gather_outputs st Main.slots) = Ok (ex_worker_outputs ex).
Proof.
  unfold Judge.call. intros H.
  apply in_trace_bind in H as [H | [content [Hcontent H]]];
    [now apply generate_sends_nothing in H |].
  apply in_trace_bind in H as [H | [_ [_ []]]].
  rewrite trace_try_except in H.
  assert (Hsent : In (ExampleSent ex) (trace (Judge.persist_example sink st content))).
  { destruct (result (Judge.persist_example sink st content)); [exact H |].
    apply in_app_or in H as [H | [H | []]]; [exact H | discriminate]. }
  destruct (sent_example_form _ _ _ _ Hsent)
    as [request [plan [critique_output [critique [outputs
        [Houtputs [Hrequest [Hplan [Hcritique [Hassessment ->]]]]]]]]]].
  cbn [ex_judgment ex_dataset_name ex_human_input ex_plan ex_critique ex_worker_outputs].
  split; [| eauto 10].
  change (result (Judge.call llm sink st) = Ok (Judge.verdict content)).
  now rewrite judge_result, Hcontent.
Qed.

Lemma sent_example_carries_the_verdict_witness :
  result (Judge.call Scenario.answering Scenario.working_sink Scenario.aggregated)
  = Ok (Judge.verdict "finding") /\
  "crowdstrike_detection_training_examples" = "crowdstrike_detection_training_examples" /\
  Scenario.aggregated !! "human_input" = Some (VStr "Any lateral movement?") /\
  Scenario.aggregated !! "plan" = Some (VStr "look at the logs") /\
  (exists critique_output,
      Scenario.aggregated !! "critique_output" = Some critique_output /\
      result (subscript critique_output "assessment") = Ok "no findings") /\
  result (Judge.gather_outputs Scenario.aggregated Main.slots)
  = Ok [("Discovery Specialist", "nothing found")].
Proof.
  apply (sent_example_carries_the_verdict Scenario.answering Scenario.working_sink
           Scenario.aggregated
           (mkExample "Any lateral movement?" "look at the logs"
              [("Discovery Specialist", "nothing found")] "no findings" "finding"
              "crowdstrike_detection_training_examples")).
  apply in_by_computation. vm_compute. exact I.
Defined.

(** ** The evidence sample *)

Lemma in_list_insert {A} (d : list A) (i : nat) (e x : A) :
  In x (<[i := e]> d) -> In x d \/ x = e.
Proof.
  revert i. induction d as [| a d IH]; intros [| i]; cbn; try tauto.
  - intros [-> | H]; auto.
  - intros [-> | H]; [auto |]. destruct (IH i H); auto.
Qed.

Lemma parsed_cons {json} (json_loads : string -> outcome json) (line : string)
    (rest : list string) :
  Shape.parsed json_loads (line :: rest) =
  match Shape.parsed_line json_loads line with
  | Some event => event :: Shape.parsed json_loads rest
  | None => Shape.parsed json_loads rest
  end.
Proof. reflexivity. Qed.

Lemma warnings_cons {json} (json_loads : string -> outcome json) (line : string)
    (rest : list string) :
  Shape.warnings json_loads (line :: rest)
  = Shape.warnings json_loads [line] ++ Shape.warnings json_loads rest.
Proof. unfold Shape.warnings. cbn [flat_map]. now rewrite app_nil_r. Qed.

Lemma parsed_one {json} (json_loads : string -> outcome json) (line : string)
    (rest : list string) :
  Shape.parsed json_loads (line :: rest)
  = Shape.parsed json_loads [line] ++ Shape.parsed json_loads rest.
Proof. rewrite !parsed_cons. now destruct (Shape.parsed_line json_loads line). Qed.

Section SmallFile.

Variable json : Type.
Variable json_loads : string -> outcome json.
Variable json_dumps : list json -> outcome string.
Variable read_lines : string -> bool -> list string * option exn.
Variable random_below : nat -> Z -> Z -> bool.
Variable randrange : nat -> Z -> Z.
Variable max_events : Z.

Local Abbreviation sample := (Main.sample json).
Local Abbreviation sample_line :=
  (Main.sample_line json json_loads random_below randrange max_events).
Local Abbreviation sample_lines :=
  (Main.sample_lines json json_loads random_below randrange max_events).

Lemma sample_line_trace (s : sample) (line : string) :
  trace (sample_line s line) = Shape.warnings json_loads [line].
Proof.
  rewrite sample_line_cases. unfold Shape.warnings. cbn [flat_map].
  destruct (String.eqb _ _); [reflexivity |].
  destruct (json_loads line) as [parsed | e].
  2:{ destruct (Main.is_json_decode_error e); reflexivity. }
  destruct (_ <=? _)%Z; [reflexivity |].
  destruct (_ && _); [| reflexivity].
  unfold Main.deque_setitem.
  destruct (_ && _); [reflexivity |]. destruct (_ && _); reflexivity.
Qed.

Lemma sample_lines_trace (lines : list string) (s s' : sample) :
  result (sample_lines s lines) = Ok s' ->
  trace (sample_lines s lines) = Shape.warnings json_loads lines.
Proof.
  revert s. induction lines as [| line lines IH]; intros s H; [reflexivity |].
  cbn [Main.sample_lines] in *. rewrite trace_bind, warnings_cons, sample_line_trace.
  rewrite result_bind in H.
  destruct (result (sample_line s line)) as [s1 | e]; [| discriminate].
  now rewrite (IH s1 H).
Qed.

(** What [read_crowdstrike_data] makes of a file read without a failure,
    once the loop over its lines has ended with the sample [s]: what
    [json.dumps] makes of the sample. *)
Lemma read_after_sampling (file_path : string) (lines : list string) (s : sample) :
  (0 <= max_events <= Main.ssize_max)%Z ->
  read_lines file_path (PyStr.endswith ".gz" file_path) = (lines, None) ->
  result (sample_lines (Main.mkSample json [] 0 0) lines) = Ok s ->
  result (Main.read_crowdstrike_data json json_loads json_dumps read_lines
            random_below randrange file_path max_events)
  = json_dumps (Main.events json s) /\
  trace (Main.read_crowdstrike_data json json_loads json_dumps read_lines
           random_below randrange file_path max_events)
  = Shape.warnings json_loads lines ++
    [ Printed ("Total events in file: "
               +:+ PyStr.str_of_int (Main.total_events json s));
      Printed (PyStr.concat ["Randomly sampled ";
                             PyStr.str_of_nat (length (Main.events json s));
                             " events"]) ].
Proof.
  intros Hmax Hread Hs. unfold Main.read_crowdstrike_data.
  rewrite (new_deque_ok _ Hmax), bind_ret_l, Hread.
  assert (Htrace := sample_lines_trace _ _ _ Hs).
  match goal with
  | |- context [try_except ?b ?h] => set (body := b); set (handler := h)
  end.
  assert (Hbody : result body = Ok (inl (Main.events json s))).
  { unfold body. now rewrite (result_bind_ok _ _ _ Hs). }
  assert (Htbody : trace body = Shape.warnings json_loads lines ++
    [ Printed ("Total events in file: "
               +:+ PyStr.str_of_int (Main.total_events json s));
      Printed (PyStr.concat ["Randomly sampled ";
                             PyStr.str_of_nat (length (Main.events json s));
                             " events"]) ]).
  { unfold body. now rewrite trace_bind, Hs, Htrace. }
  split.
  - now rewrite result_bind, result_try_except, Hbody.
  - rewrite trace_bind, result_try_except, Hbody, trace_try_except, Hbody, Htbody.
    apply app_nil_r.
Qed.

Lemma sample_lines_small (lines : list string) (s : sample) :
  Shape.unreadable json_loads lines = [] ->
  Main.total_events json s = Z.of_nat (length (Main.events json s)) ->
  (Main.total_events json s + Z.of_nat (length (Shape.parsed json_loads lines))
   <= max_events)%Z ->
  result (sample_lines s lines)
  = Ok (Main.mkSample json
          (Main.events json s ++ Shape.parsed json_loads lines)
          (Main.total_events json s
           + Z.of_nat (length (Shape.parsed json_loads lines)))
          (Main.draws json s)).
Proof.
  revert s. induction lines as [| line lines IH]; intros [events total draws];
    cbn [Main.events Main.total_events Main.draws]; intros Hok Htotal Hle.
  - cbn. now rewrite app_nil_r, Z.add_0_r.
  - apply unreadable_cons_nil in Hok as [Hline Hrest].
    cbn [Main.sample_lines]. rewrite parsed_cons in *. rewrite sample_line_cases.
    unfold Shape.parsed_line, Shape.unreadable in *. cbn [flat_map] in Hline.
    cbn [Main.events Main.total_events Main.draws] in *.
    destruct (String.eqb _ _).
    { rewrite bind_ret_l. now apply (IH (Main.mkSample json events total draws)). }
    destruct (json_loads line) as [parsed | e].
    2:{ destruct (Main.is_json_decode_error e); [| discriminate Hline].
        rewrite result_bind, result_print_then. cbn [result ret fst].
        now apply (IH (Main.mkSample json events total draws)). }
    cbn [length] in Hle.
    destruct (Z.leb_spec (total + 1) max_events) as [_ | Hgt]; [| lia].
    rewrite bind_ret_l. unfold Main.deque_append. rewrite length_app. cbn [length].
    destruct (Z.leb_spec (Z.of_nat (length events + 1)) max_events) as [_ | Hgt];
      [| lia].
    rewrite (IH (Main.mkSample json (events ++ [parsed]) (total + 1) draws));
      cbn [Main.events Main.total_events Main.draws].
    + rewrite <- app_assoc. cbn [app length]. do 2 f_equal. lia.
    + exact Hrest.
    + rewrite length_app. cbn [length]. lia.
    + lia.
Qed.

(** X12. A file that is read without a failure, on no line of which
    json.loads raises anything but a JSONDecodeError, and that holds no
    more events than max_events (itself no more than the largest ssize_t,
    so that the deque can be made) is passed on whole: the function ends
    as json.dumps does on the events of its lines that are not blank and
    parse as JSON, in the order of the file (with the text json.dumps
    returns, or with the exception it raises), whatever the random source
    is (it is not asked); one warning is printed for each line that is not
    blank and does not parse, then the number of events and the size of
    the sample, which are the same number. *)
Theorem small_file_is_passed_whole (file_path : string) (lines : list string) :
  read_lines file_path (PyStr.endswith ".gz" file_path) = (lines, None) ->
  Shape.unreadable json_loads lines = [] ->
  (Z.of_nat (length (Shape.parsed json_loads lines)) <= max_events)%Z ->
  (max_events <= Main.ssize_max)%Z ->
  result (Main.read_crowdstrike_data json json_loads json_dumps read_lines
            random_below randrange file_path max_events)
  = json_dumps (Shape.parsed json_loads lines) /\
  trace (Main.read_crowdstrike_data json json_loads json_dumps read_lines
           random_below randrange file_path max_events)
  = Shape.warnings json_loads lines ++
    [ Printed ("Total events in file: "
               +:+ PyStr.str_of_int (Z.of_nat (length (Shape.parsed json_loads lines))));
      Printed (PyStr.concat ["Randomly sampled ";
                             PyStr.str_of_nat (length (Shape.parsed json_loads lines));
                             " events"]) ].
Proof.
  intros Hread Hok Hsmall Hfits.
  assert (Hs := sample_lines_small lines (Main.mkSample json [] 0 0) Hok eq_refl
                  Hsmall).
  cbn [Main.events Main.total_events Main.draws app Z.add] in Hs.
  destruct (read_after_sampling file_path lines _ ltac:(lia) Hread Hs) as [Hr Ht].
  split; [exact Hr |]. rewrite Ht. reflexivity.
Qed.

End SmallFile.

Lemma small_file_is_passed_whole_witness :
  result (Main.read_crowdstrike_data string Scenario.loads_braced Scenario.dumps_lines
            Scenario.four_lines Scenario.always_below Scenario.first_index
            "events.json" 2)
  = Scenario.dumps_lines (Shape.parsed Scenario.loads_braced
                            ["{a}"; "  "; "oops"; "{b}"]) /\
  trace (Main.read_crowdstrike_data string Scenario.loads_braced Scenario.dumps_lines
           Scenario.four_lines Scenario.always_below Scenario.first_index
           "events.json" 2)
  = Shape.warnings Scenario.loads_braced ["{a}"; "  "; "oops"; "{b}"] ++
    [ Printed ("Total events in file: "
               +:+ PyStr.str_of_int
                     (Z.of_nat (length (Shape.parsed Scenario.loads_braced
                                          ["{a}"; "  "; "oops"; "{b}"]))));
      Printed (PyStr.concat
                 ["Randomly sampled ";
                  PyStr.str_of_nat (length (Shape.parsed Scenario.loads_braced
                                              ["{a}"; "  "; "oops"; "{b}"]));
                  " events"]) ].
Proof.
  apply (small_file_is_passed_whole string Scenario.loads_braced Scenario.dumps_lines
           Scenario.four_lines Scenario.always_below Scenario.first_index 2%Z
           "events.json" ["{a}"; "  "; "oops"; "{b}"]).
  - reflexivity.
  - reflexivity.
  - vm_compute. discriminate.
  - vm_compute. discriminate.
Defined.

Section Sampling.

Variable json : Type.
Variable json_loads : string -> outcome json.
Variable json_dumps : list json -> outcome string.
Variable read_lines : string -> bool -> list string * option exn.
Variable random_below : nat -> Z -> Z -> bool.
Variable randrange : nat -> Z -> Z.
Variable max_events : Z.

(** A capacity [deque] accepts. *)
Hypothesis max_events_fits : (0 <= max_events <= Main.ssize_max)%Z.
(** [random.randrange(n)] is in [range(n)]. *)
Hypothesis randrange_in_range :
  forall k, (0 < max_events)%Z ->
            (0 <= randrange k max_events < max_events)%Z.

Local Abbreviation sample := (Main.sample json).
Local Abbreviation sample_line :=
  (Main.sample_line json json_loads random_below randrange max_events).
Local Abbreviation sample_lines :=
  (Main.sample_lines json json_loads random_below randrange max_events).
Local Abbreviation sample_fits := (Main.sample_fits json max_events).

Lemma sample_line_draws (s : sample) (line : string) :
  Shape.unreadable json_loads [line] = [] ->
  sample_fits s ->
  exists s',
    result (sample_line s line) = Ok s' /\ sample_fits s' /\
    Main.total_events json s'
    = (Main.total_events json s
       + Z.of_nat (length (Shape.parsed json_loads [line])))%Z /\
    (forall x, In x (Main.events json s') ->
               In x (Main.events json s) \/ In x (Shape.parsed json_loads [line])).
Proof.
  intros Hok [Htotal Hlen]. rewrite parsed_cons, sample_line_cases.
  unfold Shape.parsed_line, Shape.unreadable in *. cbn [flat_map] in Hok.
  destruct (String.eqb _ _).
  { exists s. cbn. repeat split; auto; lia. }
  destruct (json_loads line) as [parsed | e].
  2:{ destruct (Main.is_json_decode_error e); [| discriminate Hok].
      exists s. rewrite result_print_then. cbn. repeat split; auto; lia. }
  change (omap _ []) with (@nil json). cbn [length In].
  destruct (Z.leb_spec (Main.total_events json s + 1) max_events) as [Hle | Hgt].
  - eexists. split; [reflexivity |]. cbn [Main.events Main.total_events].
    unfold Main.deque_append. rewrite length_app. cbn [length].
    destruct (Z.leb_spec (Z.of_nat (length (Main.events json s) + 1)) max_events);
      [| lia].
    repeat split; cbn [Main.events Main.total_events]; try lia.
    + rewrite length_app. cbn [length]. lia.
    + intros x Hx. apply in_app_or in Hx as [Hx | [<- | []]]; auto.
  - destruct (_ && _) eqn:Hacc.
    + apply andb_true_iff in Hacc as [Hpos _]. apply Z.ltb_lt in Hpos.
      specialize (randrange_in_range (S (Main.draws json s)) Hpos).
      unfold Main.deque_setitem.
      destruct (Z.ltb_spec (randrange (S (Main.draws json s)) max_events)
                  (Z.of_nat (length (Main.events json s)))) as [Hin | Hout]; [| lia].
      destruct (Z.leb_spec 0 (randrange (S (Main.draws json s)) max_events));
        [| lia].
      cbn [andb]. eexists. split; [reflexivity |].
      repeat split; cbn [Main.events Main.total_events]; try lia.
      * rewrite length_insert. lia.
      * intros x Hx. apply in_list_insert in Hx as [Hx | ->]; auto.
    + eexists. split; [reflexivity |].
      repeat split; cbn [Main.events Main.total_events]; auto; lia.
Qed.

Lemma sample_lines_draws (lines : list string) (s : sample) :
  Shape.unreadable json_loads lines = [] ->
  sample_fits s ->
  exists s',
    result (sample_lines s lines) = Ok s' /\ sample_fits s' /\
    Main.total_events json s'
    = (Main.total_events json s
       + Z.of_nat (length (Shape.parsed json_loads lines)))%Z /\
    (forall x, In x (Main.events json s') ->
               In x (Main.events json s) \/ In x (Shape.parsed json_loads lines)).
Proof.
  revert s. induction lines as [| line lines IH]; intros s Hok Hs.
  - exists s. cbn. repeat split; auto; try apply Hs. lia.
  - apply unreadable_cons_nil in Hok as [Hline Hrest].
    destruct (sample_line_draws s line Hline Hs) as [s1 [H1 [Hs1 [Ht1 Hin1]]]].
    destruct (IH s1 Hrest Hs1) as [s2 [H2 [Hs2 [Ht2 Hin2]]]].
    exists s2. cbn [Main.sample_lines]. rewrite (result_bind_ok _ _ _ H1).
    rewrite (parsed_one json_loads line lines), length_app, Nat2Z.inj_add.
    repeat split; auto; try apply Hs2; [lia |].
    intros x Hx. rewrite in_app_iff.
    destruct (Hin2 x Hx) as [Hx1 | Hx2]; [| tauto].
    destruct (Hin1 x Hx1); tauto.
Qed.

(** X13. A file that is read without a failure, on no line of which
    json.loads raises anything but a JSONDecodeError, always gets as far
    as json.dumps, given that max_events is from 0 to the largest ssize_t
    and random.randrange(n) answers within range(n): the function ends as
    json.dumps does (with its text, or with the exception it raises) on a
    sample whose size is the smaller of max_events and the number of events
    in the file, and which holds only events of the file; the number of
    events reported is the number of lines that are not blank and parse as
    JSON. *)
Theorem evidence_sample_is_drawn_from_the_file (file_path : string)
    (lines : list string) :
  read_lines file_path (PyStr.endswith ".gz" file_path) = (lines, None) ->
  Shape.unreadable json_loads lines = [] ->
  exists sampled,
    result (Main.read_crowdstrike_data json json_loads json_dumps read_lines
              random_below randrange file_path max_events)
    = json_dumps sampled /\
    Z.of_nat (length sampled)
    = Z.min (Z.of_nat (length (Shape.parsed json_loads lines))) max_events /\
    (forall event, In event sampled -> In event (Shape.parsed json_loads lines)) /\
    trace (Main.read_crowdstrike_data json json_loads json_dumps read_lines
             random_below randrange file_path max_events)
    = Shape.warnings json_loads lines ++
      [ Printed ("Total events in file: "
                 +:+ PyStr.str_of_int
                       (Z.of_nat (length (Shape.parsed json_loads lines))));
        Printed (PyStr.concat ["Randomly sampled ";
                               PyStr.str_of_nat (length sampled); " events"]) ].
Proof.
  intros Hread Hok.
  destruct (sample_lines_draws lines (Main.mkSample json [] 0 0) Hok)
    as [s [Hs [[_ Hlen] [Htotal Hin]]]].
  { split; cbn; lia. }
  cbn [Main.events Main.total_events Z.add] in Htotal, Hin.
  destruct (read_after_sampling json json_loads json_dumps read_lines random_below
              randrange max_events file_path lines s max_events_fits Hread Hs)
    as [Hr Ht].
  exists (Main.events json s). split; [exact Hr |].
  split; [now rewrite Hlen, Htotal |].
  split; [intros event Hevent; destruct (Hin event Hevent) as [[] | H]; exact H |].
  now rewrite Ht, Htotal.
Qed.

End Sampling.

Lemma evidence_sample_is_drawn_from_the_file_witness :
  exists sampled,
    result (Main.read_crowdstrike_data string Scenario.loads_braced
              Scenario.dumps_lines Scenario.four_lines Scenario.always_below
              Scenario.first_index "events.json" 1)
    = Scenario.dumps_lines sampled /\
    Z.of_nat (length sampled)
    = Z.min (Z.of_nat (length (Shape.parsed Scenario.loads_braced
                                 ["{a}"; "  "; "oops"; "{b}"]))) 1 /\
    (forall event, In event sampled ->
                   In event (Shape.parsed Scenario.loads_braced
                               ["{a}"; "  "; "oops"; "{b}"])) /\
    trace (Main.read_crowdstrike_data string Scenario.loads_braced
             Scenario.dumps_lines Scenario.four_lines Scenario.always_below
             Scenario.first_index "events.json" 1)
    = Shape.warnings Scenario.loads_braced ["{a}"; "  "; "oops"; "{b}"] ++
      [ Printed ("Total events in file: "
                 +:+ PyStr.str_of_int
                       (Z.of_nat (length (Shape.parsed Scenario.loads_braced
                                            ["{a}"; "  "; "oops"; "{b}"]))));
        Printed (PyStr.concat ["Randomly sampled ";
                               PyStr.str_of_nat (length sampled); " events"]) ].
Proof.
  apply (evidence_sample_is_drawn_from_the_file string Scenario.loads_braced
           Scenario.dumps_lines Scenario.four_lines Scenario.always_below
           Scenario.first_index 1%Z ltac:(unfold Main.ssize_max; lia)
           ltac:(intros; unfold Scenario.first_index; lia)
           "events.json" ["{a}"; "  "; "oops"; "{b}"]).
  - reflexivity.
  - reflexivity.
Defined.

(** How [read_crowdstrike_data] ends when the deque can be made: with a
    payload, or with the exception [json.dumps] raises on the sample. *)
Lemma read_returns_payload {json : Type}
    (json_loads : string -> outcome json) (json_dumps : list json -> outcome string)
    (read_lines : string -> bool -> list string * option exn)
    (random_below : nat -> Z -> Z -> bool) (randrange : nat -> Z -> Z)
    (log_file : string) (max_events : Z) :
  (0 <= max_events <= Main.ssize_max)%Z ->
  (exists payload,
     result (Main.read_crowdstrike_data json json_loads json_dumps read_lines
               random_below randrange log_file max_events) = Ok payload) \/
  (exists sampled e,
     json_dumps sampled = Raise e /\
     result (Main.read_crowdstrike_data json json_loads json_dumps read_lines
               random_below randrange log_file max_events) = Raise e).
Proof.
  intros Hmax. unfold Main.read_crowdstrike_data.
  rewrite (new_deque_ok _ Hmax), bind_ret_l.
  destruct (read_lines log_file (PyStr.endswith ".gz" log_file)) as [lines failure].
  rewrite result_bind, result_try_except.
  destruct (result (bind (Main.sample_lines _ _ _ _ _ _ _) _)) as [[sampled | message] | e].
  - cbn [result fst]. destruct (json_dumps sampled) as [text | e] eqn:Hdumps.
    + left. eexists. reflexivity.
    + right. exists sampled, e. split; [exact Hdumps | reflexivity].
  - left. eexists. reflexivity.
  - rewrite result_print_then. left. eexists. reflexivity.
Qed.

Lemma read_raises_at_the_deque {json : Type}
    (json_loads : string -> outcome json) (json_dumps : list json -> outcome string)
    (read_lines : string -> bool -> list string * option exn)
    (random_below : nat -> Z -> Z -> bool) (randrange : nat -> Z -> Z)
    (llm : LLM) (sink : Sink) (human_input log_file : string)
    (max_events max_iterations : Z) (e : exn) :
  Main.new_deque max_events = raise e ->
  Main.read_crowdstrike_data json json_loads json_dumps read_lines random_below
    randrange log_file max_events = raise e /\
  Main.run_log_analysis json json_loads json_dumps read_lines random_below
    randrange llm sink human_input log_file max_events max_iterations = raise e.
Proof.
  intros Hdeque.
  assert (Hread : Main.read_crowdstrike_data json json_loads json_dumps read_lines
                    random_below randrange log_file max_events = raise e).
  { unfold Main.read_crowdstrike_data. now rewrite Hdeque. }
  split; [exact Hread |]. unfold Main.run_log_analysis. now rewrite Hread.
Qed.

(** X14. read_crowdstrike_data raises only from its two statements outside
    the try block, the making of the deque and the final json.dumps; every
    exception of the reading loop is caught. With max_events outside the
    range of ssize_t the deque cannot be made and OverflowError is raised;
    with max_events negative within that range, ValueError; in both cases
    run_log_analysis ends with that exception without a line printed or a
    call of the text generation. With max_events from 0 to the largest
    ssize_t the function returns a payload whatever the file, the JSON
    parser and the random source do, unless json.dumps raises on the
    sample, and then the function and run_log_analysis end with the
    exception of json.dumps. *)
Theorem evidence_reading_raises_only_outside_the_try {json : Type}
    (json_loads : string -> outcome json) (json_dumps : list json -> outcome string)
    (read_lines : string -> bool -> list string * option exn)
    (random_below : nat -> Z -> Z -> bool) (randrange : nat -> Z -> Z)
    (llm : LLM) (sink : Sink) (human_input log_file : string)
    (max_events max_iterations : Z) :
  ((max_events < - Main.ssize_max - 1 \/ Main.ssize_max < max_events)%Z ->
   Main.read_crowdstrike_data json json_loads json_dumps read_lines random_below
     randrange log_file max_events
   = raise (mkExn "OverflowError" "Python int too large to convert to C ssize_t") /\
   Main.run_log_analysis json json_loads json_dumps read_lines random_below
     randrange llm sink human_input log_file max_events max_iterations
   = raise (mkExn "OverflowError" "Python int too large to convert to C ssize_t")) /\
  ((- Main.ssize_max - 1 <= max_events < 0)%Z ->
   Main.read_crowdstrike_data json json_loads json_dumps read_lines random_below
     randrange log_file max_events
   = raise (ValueError "maxlen must be non-negative") /\
   Main.run_log_analysis json json_loads json_dumps read_lines random_below
     randrange llm sink human_input log_file max_events max_iterations
   = raise (ValueError "maxlen must be non-negative")) /\
  ((0 <= max_events <= Main.ssize_max)%Z ->
   (exists payload,
      result (Main.read_crowdstrike_data json json_loads json_dumps read_lines
                random_below randrange log_file max_events) = Ok payload) \/
   (exists sampled e,
      json_dumps sampled = Raise e /\
      result (Main.read_crowdstrike_data json json_loads json_dumps read_lines
                random_below randrange log_file max_events) = Raise e /\
      result (Main.run_log_analysis json json_loads json_dumps read_lines
                random_below randrange llm sink human_input log_file max_events
                max_iterations) = Raise e)).
Proof.
  split; [| split].
  - intros Hout. apply read_raises_at_the_deque. unfold Main.new_deque.
    destruct (Z.ltb_spec max_events (- Main.ssize_max - 1));
      [reflexivity |].
    destruct (Z.ltb_spec Main.ssize_max max_events); [reflexivity | lia].
  - intros Hneg. apply read_raises_at_the_deque. unfold Main.new_deque.
    destruct (Z.ltb_spec max_events (- Main.ssize_max - 1)); [lia |].
    destruct (Z.ltb_spec Main.ssize_max max_events);
      [unfold Main.ssize_max in *; lia |].
    destruct (Z.ltb_spec max_events 0); [reflexivity | lia].
  - intros Hmax.
    destruct (read_returns_payload json_loads json_dumps read_lines random_below
                randrange log_file max_events Hmax)
      as [Hpayload | [sampled [e [Hdumps Hraise]]]]; [left; exact Hpayload |].
    right. exists sampled, e. split; [exact Hdumps |]. split; [exact Hraise |].
    unfold Main.run_log_analysis. now rewrite (result_bind_raise _ _ _ Hraise).
Qed.

(** The two ways past the inner [except], on examples: what [json.loads]
    raises besides a [JSONDecodeError] ends the loop and becomes the
    payload, after the warning of the line before it; what [json.dumps]
    raises ends the run. *)
Example other_parse_failure_becomes_the_payload :
  Main.read_crowdstrike_data string Scenario.loads_short Scenario.dumps_lines
    Scenario.digits_file Scenario.never_below Scenario.first_index "events.json" 50
  = (Ok ("Error reading CrowdStrike data: " +:+ exn_str Scenario.too_many_digits),
     [ Printed "Warning: Could not parse line as JSON: oops...";
       Printed ("Error reading file events.json: "
                +:+ exn_str Scenario.too_many_digits) ]).
Proof. reflexivity. Qed.

Example dumps_failure_ends_the_run :
  Main.run_log_analysis string Scenario.loads_braced Scenario.dumps_too_deep
    Scenario.four_lines Scenario.never_below Scenario.first_index
    Scenario.answering Scenario.working_sink "Any lateral movement?"
    "events.json" 50 3
  = (Raise Scenario.recursion_error,
     [ Printed "Warning: Could not parse line as JSON: oops...";
       Printed "Total events in file: 2";
       Printed "Randomly sampled 2 events" ]).
Proof. vm_compute. reflexivity. Qed.

(** ** A run of the graph *)

Lemma debug_node_result (name : string) (func : state -> M state) (st : state) :
  result (Main.debug_node name func st) = result (func st).
Proof.
  unfold Main.debug_node. rewrite result_print_then, result_bind.
  destruct (result (func st)); reflexivity.
Qed.

Lemma planner_copies (st : state) (plan : string)
    (assignments : list (gmap string string)) (k : string) :
  ~ In k Planner.not_copied ->
  (<["worker_definitions" := VList assignments]>
     (<["plan" := VStr plan]>
        (filter (fun kv => negb (Planner.role_in (fst kv) Planner.not_copied) = true)
                st)) : state) !! k
  = st !! k.
Proof.
  intros Hk.
  assert (Hwd : "worker_definitions" <> k) by (intros <-; apply Hk; cbn; tauto).
  assert (Hplan : "plan" <> k) by (intros <-; apply Hk; cbn; tauto).
  rewrite lookup_insert_ne, lookup_insert_ne by assumption.
  assert (Hin : Planner.role_in k Planner.not_copied = false).
  { destruct (Planner.role_in k Planner.not_copied) eqn:E; [| reflexivity].
    apply role_in_spec in E. contradiction. }
  destruct (st !! k) as [v |] eqn:Hv.
  - apply map_lookup_filter_Some_2; [exact Hv |]. cbn [fst]. now rewrite Hin.
  - apply map_lookup_filter_None_2. now left.
Qed.

Lemma output_key_of_slot (num : Z) :
  In num Main.slots ->
  In (WorkerFactory.output_key num)
     [ "worker1_output"; "worker2_output"; "worker3_output"; "worker4_output";
       "worker5_output" ].
Proof.
  intros H.
  repeat (destruct H as [<- | H]; [apply in_by_computation; vm_compute; exact I |]).
  destruct H.
Qed.

Lemma worker_node_finding (llm : LLM) (num : Z) (st u : state) :
  result (Main.create_worker llm num st) = Ok u ->
  exists role analysis,
    u = {[ WorkerFactory.output_key num := WorkerFactory.finding role analysis ]}.
Proof.
  unfold Main.create_worker. rewrite debug_node_result.
  unfold Main.worker_func. intros H. step_ok H.
  destruct (num <=? a)%Z.
  - do 4 step_ok H.
    destruct (security_worker_update _ _ _ H) as [content ->].
    rewrite (created_worker_id _ _ _ _ _ Ha3). eauto.
  - cbn in H. injection H as <-. unfold Main.no_role_output. eauto.
Qed.

Lemma merge_frame (llm : LLM) (st : state) (order : list Z) (us : list state)
    (k : string) :
  Forall2 (fun i u => result (Main.create_worker llm i st) = Ok u) order us ->
  (forall i, In i order -> k <> WorkerFactory.output_key i) ->
  forall s, foldl Main.apply_update s us !! k = s !! k.
Proof.
  induction 1 as [| i u order us Hi _ IH]; intros Hk s; [reflexivity |].
  cbn [foldl]. rewrite IH by (intros j Hj; apply Hk; now right).
  destruct (worker_node_finding _ _ _ _ Hi) as [role [analysis ->]].
  apply apply_update_frame. apply Hk. now left.
Qed.

Lemma merge_findings (llm : LLM) (st : state) (order : list Z) (us : list state)
    (num : Z) :
  Forall2 (fun i u => result (Main.create_worker llm i st) = Ok u) order us ->
  forall s,
    In num order \/
    (exists role analysis,
        s !! WorkerFactory.output_key num
        = Some (WorkerFactory.finding role analysis)) ->
    exists role analysis,
      foldl Main.apply_update s us !! WorkerFactory.output_key num
      = Some (WorkerFactory.finding role analysis).
Proof.
  induction 1 as [| i u order us Hi _ IH]; intros s Hs.
  - destruct Hs as [[] | Hs]. exact Hs.
  - cbn [foldl]. apply IH.
    destruct (worker_node_finding _ _ _ _ Hi) as [role [analysis ->]].
    destruct (decide (WorkerFactory.output_key i = WorkerFactory.output_key num))
      as [Heq | Hne].
    + right. exists role, analysis. unfold Main.apply_update.
      apply lookup_union_Some_l. rewrite Heq. apply lookup_singleton_eq.
    + destruct Hs as [[-> | Hin] | Hs]; [congruence | now left |].
      right. rewrite apply_update_frame by congruence. exact Hs.
Qed.

Lemma planner_update_assignments (llm : LLM) (st u : state) :
  result (Planner.call llm st) = Ok u ->
  exists plan assignments,
    Forall Shape.assignment assignments /\
    u = <["worker_definitions" := VList assignments]>
          (<["plan" := VStr plan]>
             (filter (fun kv => negb (Planner.role_in (fst kv) Planner.not_copied) = true)
                     st)).
Proof.
  unfold Planner.call. intros H. do 5 step_ok H.
  destruct a3 as [plan assignments]. repeat step_ok H.
  cbn in H. injection H as <-. exists plan, assignments. split; [| reflexivity].
  destruct (parse_returns_assignments a2) as [p [ws [Hp Hws]]].
  rewrite Hp in Ha3. now injection Ha3 as _ <-.
Qed.

(** The final state of a run, stage by stage. *)
Lemma graph_run_stages (llm : LLM) (sink : Sink) (st0 final : state) :
  result (Main.invoke_graph llm sink st0) = Ok final ->
  exists plan assignments findings assessment evaluation,
    Forall Shape.assignment assignments /\
    Forall2 (fun i u =>
               result (Main.create_worker llm i
                         (Main.apply_update st0
                            (<["worker_definitions" := VList assignments]>
                               (<["plan" := VStr plan]>
                                  (filter (fun kv =>
                                             negb (Planner.role_in (fst kv)
                                                     Planner.not_copied) = true)
                                          st0))))) = Ok u)
            Main.slots findings /\
    final =
    Main.apply_update
      (Main.apply_update
         (foldl Main.apply_update
            (Main.apply_update st0
               (<["worker_definitions" := VList assignments]>
                  (<["plan" := VStr plan]>
                     (filter (fun kv =>
                                negb (Planner.role_in (fst kv) Planner.not_copied)
                                = true)
                             st0))))
            findings)
         {[ "critique_output" := VDict {[ "assessment" := assessment ]} ]})
      (Judge.verdict evaluation).
Proof.
  unfold Main.invoke_graph, Main.invoke_in_order. intros H.
  do 4 step_ok H. cbn in H. injection H as <-.
  rewrite debug_node_result in Ha, Ha1, Ha2.
  destruct (judge_update _ _ _ _ Ha2) as [evaluation ->].
  destruct (critique_update _ _ _ Ha1) as [assessment ->].
  unfold Main.run_workers in Ha0. apply for_each_ok_inv in Ha0.
  assert (Hform := planner_update_assignments _ _ _ Ha).
  destruct Hform as [plan [assignments [Hassignments ->]]].
  exists plan, assignments, a0, assessment, evaluation. auto.
Qed.

Lemma graph_run_frame (llm : LLM) (sink : Sink) (st0 final : state) (k : string) :
  result (Main.invoke_graph llm sink st0) = Ok final ->
  ~ In k (Planner.not_copied ++ ["final_judgment"]) ->
  final !! k = st0 !! k.
Proof.
  intros H Hk.
  destruct (graph_run_stages _ _ _ _ H)
    as [plan [assignments [findings [assessment [evaluation [_ [Hfindings ->]]]]]]].
  unfold Judge.verdict.
  rewrite apply_update_frame by (intros ->; apply Hk; cbn; tauto).
  rewrite apply_update_frame by (intros ->; apply Hk; cbn; tauto).
  rewrite (merge_frame _ _ _ _ k Hfindings).
  - unfold Main.apply_update. rewrite lookup_union, planner_copies.
    + now destruct (st0 !! k).
    + intros Hin. apply Hk. apply in_or_app. now left.
  - intros i Hi ->. apply output_key_of_slot in Hi. apply Hk.
    remember (WorkerFactory.output_key i) as key. clear -Hi. cbn in *. tauto.
Qed.

Lemma graph_run_fields (llm : LLM) (sink : Sink) (st0 final : state) :
  result (Main.invoke_graph llm sink st0) = Ok final ->
  (exists plan, final !! "plan" = Some (VStr plan)) /\
  (exists assignments,
      final !! "worker_definitions" = Some (VList assignments) /\
      Forall Shape.assignment assignments) /\
  (forall num, In num Main.slots ->
     exists role analysis,
       final !! WorkerFactory.output_key num
       = Some (WorkerFactory.finding role analysis)) /\
  (exists assessment,
      final !! "critique_output" = Some (VDict {[ "assessment" := assessment ]})) /\
  (exists evaluation,
      final !! "final_judgment" = Some (VDict {[ "evaluation" := evaluation ]})).
Proof.
  intros H.
  destruct (graph_run_stages _ _ _ _ H)
    as [plan [assignments [findings [assessment [evaluation
       [Hassignments [Hfindings ->]]]]]]].
  unfold Judge.verdict.
  assert (Hother : forall key,
             In key [ "plan"; "worker_definitions" ] ->
             forall i, In i Main.slots -> key <> WorkerFactory.output_key i).
  { intros key Hkey i Hi ->. apply output_key_of_slot in Hi.
    remember (WorkerFactory.output_key i) as k. clear -Hkey Hi.
    cbn in *. intuition congruence. }
  repeat split.
  - exists plan. rewrite !apply_update_frame by discriminate.
    rewrite (merge_frame _ _ _ _ "plan" Hfindings) by (apply Hother; cbn; tauto).
    apply lookup_union_Some_l. now rewrite lookup_insert_ne, lookup_insert_eq.
  - exists assignments. split; [| exact Hassignments].
    rewrite !apply_update_frame by discriminate.
    rewrite (merge_frame _ _ _ _ "worker_definitions" Hfindings)
      by (apply Hother; cbn; tauto).
    apply lookup_union_Some_l. now rewrite lookup_insert_eq.
  - intros num Hnum.
    assert (Hkey := output_key_of_slot num Hnum).
    rewrite !apply_update_frame
      by (intros Heq; rewrite Heq in Hkey; clear -Hkey; cbn in Hkey;
          intuition discriminate).
    apply (merge_findings _ _ _ _ num Hfindings). now left.
  - exists assessment. rewrite apply_update_frame by discriminate.
    apply lookup_union_Some_l. apply lookup_singleton_eq.
  - exists evaluation. apply lookup_union_Some_l. apply lookup_singleton_eq.
Qed.

(** X15. The state a completed run of the graph returns: apart from the
    plan, the worker definitions, the five worker outputs, the critique
    and the verdict, every field is the one the run started from; the plan
    is a text; every worker definition has a canonical role and a task
    text without asterisks; each of the five slots holds a finding with a
    role and an analysis; the critique holds an assessment and the
    verdict an evaluation. *)
Theorem graph_run_result (llm : LLM) (sink : Sink) (st0 final : state) :
  result (Main.invoke_graph llm sink st0) = Ok final ->
  (forall k,
      ~ In k [ "plan"; "worker_definitions"; "worker1_output"; "worker2_output";
               "worker3_output"; "worker4_output"; "worker5_output";
               "critique_output"; "final_judgment" ] ->
      final !! k = st0 !! k) /\
  (exists plan, final !! "plan" = Some (VStr plan)) /\
  (exists assignments,
      final !! "worker_definitions" = Some (VList assignments) /\
      Forall Shape.assignment assignments) /\
  (forall num, In num Main.slots ->
     exists role analysis,
       final !! WorkerFactory.output_key num
       = Some (WorkerFactory.finding role analysis)) /\
  (exists assessment,
      final !! "critique_output" = Some (VDict {[ "assessment" := assessment ]})) /\
  (exists evaluation,
      final !! "final_judgment" = Some (VDict {[ "evaluation" := evaluation ]})).
Proof.
  intros H. split; [intros k Hk; now apply graph_run_frame with llm sink |].
  now apply graph_run_fields with llm sink st0.
Qed.

Lemma graph_run_result_witness :
  (forall k,
      ~ In k [ "plan"; "worker_definitions"; "worker1_output"; "worker2_output";
               "worker3_output"; "worker4_output"; "worker5_output";
               "critique_output"; "final_judgment" ] ->
      Scenario.completed !! k = Scenario.request !! k) /\
  (exists plan, Scenario.completed !! "plan" = Some (VStr plan)) /\
  (exists assignments,
      Scenario.completed !! "worker_definitions" = Some (VList assignments) /\
      Forall Shape.assignment assignments) /\
  (forall num, In num Main.slots ->
     exists role analysis,
       Scenario.completed !! WorkerFactory.output_key num
       = Some (WorkerFactory.finding role analysis)) /\
  (exists assessment,
      Scenario.completed !! "critique_output"
      = Some (VDict {[ "assessment" := assessment ]})) /\
  (exists evaluation,
      Scenario.completed !! "final_judgment"
      = Some (VDict {[ "evaluation" := evaluation ]})).
Proof.
  apply (graph_run_result Scenario.answering Scenario.working_sink Scenario.request
           Scenario.completed).
  by_computation.
Defined.

(** X16. What run_log_analysis returns when it completes still holds the
    request it was called with: human_input and max_iterations are the
    arguments, log_content is the payload read_crowdstrike_data returned,
    workers_to_revise is the empty list and iteration_count is 0. No
    stage changes them. *)
Theorem completed_run_keeps_the_request {json : Type}
    (json_loads : string -> outcome json) (json_dumps : list json -> outcome string)
    (read_lines : string -> bool -> list string * option exn)
    (random_below : nat -> Z -> Z -> bool) (randrange : nat -> Z -> Z)
    (llm : LLM) (sink : Sink) (human_input log_file : string)
    (max_events max_iterations : Z) (final : state) :
  result (Main.run_log_analysis json json_loads json_dumps read_lines random_below
            randrange llm sink human_input log_file max_events max_iterations)
  = Ok final ->
  exists payload,
    result (Main.read_crowdstrike_data json json_loads json_dumps read_lines
              random_below randrange log_file max_events) = Ok payload /\
    final !! "human_input" = Some (VStr human_input) /\
    final !! "log_content" = Some (VStr payload) /\
    final !! "max_iterations" = Some (VInt max_iterations) /\
    final !! "workers_to_revise" = Some (VList []) /\
    final !! "iteration_count" = Some (VInt 0).
Proof.
  unfold Main.run_log_analysis. intros H. do 3 step_ok H.
  cbn in H. injection H as <-. exists a. split; [exact Ha |].
  assert (Hframe : forall k,
             ~ In k (Planner.not_copied ++ ["final_judgment"]) ->
             k <> "iteration_count" ->
             (<["iteration_count" := VInt Main.ITERATION_COUNT]> a1 : state) !! k
             = Main.initial_state human_input a max_iterations !! k).
  { intros k Hk Hne. rewrite lookup_insert_ne by congruence.
    now apply graph_run_frame with llm sink. }
  repeat split.
  - rewrite Hframe; [reflexivity | cbn; intuition discriminate | discriminate].
  - rewrite Hframe; [reflexivity | cbn; intuition discriminate | discriminate].
  - rewrite Hframe; [reflexivity | cbn; intuition discriminate | discriminate].
  - rewrite Hframe; [reflexivity | cbn; intuition discriminate | discriminate].
  - apply lookup_insert_eq.
Qed.

Lemma completed_run_keeps_the_request_witness :
  exists payload,
    result (Main.read_crowdstrike_data string Scenario.loads_any Scenario.dumps_lines
              Scenario.no_file Scenario.never_below Scenario.first_index
              "missing.json" 50) = Ok payload /\
    Scenario.returned_without_evidence !! "human_input"
    = Some (VStr "Any lateral movement?") /\
    Scenario.returned_without_evidence !! "log_content" = Some (VStr payload) /\
    Scenario.returned_without_evidence !! "max_iterations" = Some (VInt 3) /\
    Scenario.returned_without_evidence !! "workers_to_revise" = Some (VList []) /\
    Scenario.returned_without_evidence !! "iteration_count" = Some (VInt 0).
Proof.
  apply (completed_run_keeps_the_request Scenario.loads_any Scenario.dumps_lines
           Scenario.no_file Scenario.never_below Scenario.first_index
           Scenario.answering Scenario.working_sink "Any lateral movement?"
           "missing.json" 50%Z 3%Z Scenario.returned_without_evidence).
  by_computation.
Defined.

(** ** Progress: a run whose calls of the text generation are answered *)




Ltac read_fields :=
  cbn [default from_option id];
  repeat first
    [ rewrite bind_ret_l
    | match goal with
      | |- context [as_str (VStr ?s)] => change (as_str (VStr s)) with (ret s)
      end ].

Section Progress.

Variable llm : LLM.
Hypothesis llm_answers : forall messages, exists content, llm messages = Ok content.










End Progress.


(** ** The report of main *)

Lemma print_then {A} (text : string) (k : M A) :
  bind (print text) (fun _ => k) = (result k, Printed text :: trace k).
Proof. now destruct k as [[a | e] t]. Qed.

Lemma bind_value {A B} (m : M A) (f : A -> M B) (a : A) (t : list event) :
  m = (Ok a, t) -> bind m f = (result (f a), t ++ trace (f a)).
Proof. intros ->. cbn. now destruct (f a). Qed.

Lemma slot_findings (final : state) (ids : list Z) :
  (forall num, In num ids ->
     exists role analysis,
       final !! WorkerFactory.output_key num
       = Some (WorkerFactory.finding role analysis)) ->
  exists findings,
    Forall2 (fun i f => final !! WorkerFactory.output_key i
                        = Some (WorkerFactory.finding (fst f) (snd f)))
            ids findings.
Proof.
  induction ids as [| i ids IH]; intros H; [exists []; constructor |].
  destruct (H i ltac:(now left)) as [role [analysis Hi]].
  destruct IH as [findings Hfindings]; [intros num Hnum; apply H; now right |].
  exists ((role, analysis) :: findings). now constructor.
Qed.

Lemma report_workers_lines (final : state) (ids : list Z)
    (findings : list (string * string)) :
  Forall2 (fun i f => final !! WorkerFactory.output_key i
                      = Some (WorkerFactory.finding (fst f) (snd f)))
          ids findings ->
  Main.report_workers final ids
  = (Ok tt, concat (zip_with Shape.specialist_lines ids findings)).
Proof.
  induction 1 as [| i [role analysis] ids findings Hi _ IH]; [reflexivity |].
  cbn [Main.report_workers zip_with concat fst snd] in *. rewrite Hi.
  unfold WorkerFactory.finding, subscript, getfield.
  rewrite lookup_insert_eq, bind_ret_l, print_then.
  rewrite lookup_insert_ne, lookup_insert_eq, bind_ret_l, print_then by discriminate.
  now rewrite IH.
Qed.

Lemma report_of_fields (query : string) (final : state) (plan : string)
    (findings : list (string * string)) (assessment evaluation : string) :
  final !! "plan" = Some (VStr plan) ->
  Forall2 (fun i f => final !! WorkerFactory.output_key i
                      = Some (WorkerFactory.finding (fst f) (snd f)))
          Main.slots findings ->
  final !! "critique_output" = Some (VDict {[ "assessment" := assessment ]}) ->
  final !! "final_judgment" = Some (VDict {[ "evaluation" := evaluation ]}) ->
  Main.report query final
  = (Ok tt, Shape.report_lines query plan Main.slots findings assessment evaluation).
Proof.
  intros Hplan Hfindings Hcritique Hverdict. unfold Main.report, getitem.
  rewrite Hplan, Hcritique, Hverdict.
  rewrite (bind_value _ _ _ _ (report_workers_lines _ _ _ Hfindings)).
  read_fields. unfold subscript, getfield. rewrite !lookup_singleton_eq.
  read_fields. rewrite !print_then. reflexivity.
Qed.

Lemma run_result_fields {json : Type}
    (json_loads : string -> outcome json) (json_dumps : list json -> outcome string)
    (read_lines : string -> bool -> list string * option exn)
    (random_below : nat -> Z -> Z -> bool) (randrange : nat -> Z -> Z)
    (llm : LLM) (sink : Sink) (human_input log_file : string)
    (max_events max_iterations : Z) (final : state) :
  result (Main.run_log_analysis json json_loads json_dumps read_lines random_below
            randrange llm sink human_input log_file max_events max_iterations)
  = Ok final ->
  exists plan findings assessment evaluation,
    final !! "plan" = Some (VStr plan) /\
    Forall2 (fun i f => final !! WorkerFactory.output_key i
                        = Some (WorkerFactory.finding (fst f) (snd f)))
            Main.slots findings /\
    final !! "critique_output" = Some (VDict {[ "assessment" := assessment ]}) /\
    final !! "final_judgment" = Some (VDict {[ "evaluation" := evaluation ]}).
Proof.
  unfold Main.run_log_analysis. intros H. do 3 step_ok H.
  cbn in H. injection H as <-.
  destruct (graph_run_fields _ _ _ _ Ha1)
    as [[plan Hplan] [_ [Hslots [[assessment Hcritique] [evaluation Hverdict]]]]].
  destruct (slot_findings (<["iteration_count" := VInt Main.ITERATION_COUNT]> a1)
              Main.slots) as [findings Hfindings].
  { intros num Hnum. destruct (Hslots num Hnum) as [role [analysis Hslot]].
    exists role, analysis. rewrite lookup_insert_ne; [exact Hslot |].
    intros Heq. apply output_key_of_slot in Hnum. rewrite <- Heq in Hnum.
    clear -Hnum. cbn in Hnum. intuition discriminate. }
  exists plan, findings, assessment, evaluation.
  now rewrite !lookup_insert_ne by discriminate.
Qed.

(** X18. After a completed run, main prints its report without raising:
    the heading, the request, the plan, then for each of the five slots,
    in slot order, the role and the analysis of the slot's finding (the
    placeholder finding included), then the assessment of the critique and
    the evaluation of the verdict, each as the result holds it. Nothing
    else is printed after the run. *)
Theorem main_reports_the_completed_run {json : Type}
    (json_loads : string -> outcome json) (json_dumps : list json -> outcome string)
    (read_lines : string -> bool -> list string * option exn)
    (random_below : nat -> Z -> Z -> bool) (randrange : nat -> Z -> Z)
    (llm : LLM) (sink : Sink) (query log_file : string)
    (max_events max_iterations : Z) (final : state) :
  result (Main.run_log_analysis json json_loads json_dumps read_lines random_below
            randrange llm sink query log_file max_events max_iterations)
  = Ok final ->
  exists plan findings assessment evaluation,
    final !! "plan" = Some (VStr plan) /\
    Forall2 (fun i f => final !! WorkerFactory.output_key i
                        = Some (WorkerFactory.finding (fst f) (snd f)))
            Main.slots findings /\
    final !! "critique_output" = Some (VDict {[ "assessment" := assessment ]}) /\
    final !! "final_judgment" = Some (VDict {[ "evaluation" := evaluation ]}) /\
    result (Main.main json_loads json_dumps read_lines random_below randrange llm
              sink query (Some log_file) max_events max_iterations) = Ok tt /\
    trace (Main.main json_loads json_dumps read_lines random_below randrange llm
             sink query (Some log_file) max_events max_iterations)
    = trace (Main.run_log_analysis json json_loads json_dumps read_lines
               random_below randrange llm sink query log_file max_events
               max_iterations)
      ++ Shape.report_lines query plan Main.slots findings assessment evaluation.
Proof.
  intros H.
  destruct (run_result_fields _ _ _ _ _ _ _ _ _ _ _ _ H)
    as [plan [findings [assessment [evaluation
       [Hplan [Hfindings [Hcritique Hverdict]]]]]]].
  exists plan, findings, assessment, evaluation.
  repeat (split; [assumption |]).
  unfold Main.main.
  rewrite result_bind, trace_bind, H.
  now rewrite (report_of_fields query final plan findings assessment evaluation).
Qed.

Lemma main_reports_the_completed_run_witness :
  exists plan findings assessment evaluation,
    Scenario.returned_without_evidence !! "plan" = Some (VStr plan) /\
    Forall2 (fun i f => Scenario.returned_without_evidence !! WorkerFactory.output_key i
                        = Some (WorkerFactory.finding (fst f) (snd f)))
            Main.slots findings /\
    Scenario.returned_without_evidence !! "critique_output"
    = Some (VDict {[ "assessment" := assessment ]}) /\
    Scenario.returned_without_evidence !! "final_judgment"
    = Some (VDict {[ "evaluation" := evaluation ]}) /\
    result (Main.main Scenario.loads_any Scenario.dumps_lines Scenario.no_file
              Scenario.never_below Scenario.first_index Scenario.answering
              Scenario.working_sink "Any lateral movement?" (Some "missing.json")
              50 3) = Ok tt /\
    trace (Main.main Scenario.loads_any Scenario.dumps_lines Scenario.no_file
             Scenario.never_below Scenario.first_index Scenario.answering
             Scenario.working_sink "Any lateral movement?" (Some "missing.json")
             50 3)
    = trace (Main.run_log_analysis string Scenario.loads_any Scenario.dumps_lines
               Scenario.no_file Scenario.never_below Scenario.first_index
               Scenario.answering Scenario.working_sink "Any lateral movement?"
               "missing.json" 50 3)
      ++ Shape.report_lines "Any lateral movement?" plan Main.slots findings assessment
           evaluation.
Proof.
  apply (main_reports_the_completed_run Scenario.loads_any Scenario.dumps_lines
           Scenario.no_file Scenario.never_below Scenario.first_index
           Scenario.answering Scenario.working_sink "Any lateral movement?"
           "missing.json" 50%Z 3%Z Scenario.returned_without_evidence).
  by_computation.
Defined.

(** ** The calls of the text generation in a run *)

Lemma calls_app (t1 t2 : list event) :
  Shape.calls (t1 ++ t2) = Shape.calls t1 ++ Shape.calls t2.
Proof. apply omap_app. Qed.

Lemma silent_calls {A} (m : M A) : silent m -> Shape.calls (trace m) = [].
Proof.
  unfold silent. generalize (trace m) as t.
  induction t as [| ev t IH]; intros H; [reflexivity |].
  destruct ev;
    try (change (Shape.calls t = []); apply IH; intros ms Hms; apply (H ms); now right).
  exfalso. apply (H messages). now left.
Qed.

Lemma calls_bind_ok {A B} (m : M A) (f : A -> M B) (a : A) :
  result m = Ok a ->
  Shape.calls (trace (bind m f)) = Shape.calls (trace m) ++ Shape.calls (trace (f a)).
Proof. intros H. now rewrite trace_bind, H, calls_app. Qed.

Lemma calls_after_silent {A B} (m : M A) (f : A -> M B) (a : A) :
  silent m -> result m = Ok a ->
  Shape.calls (trace (bind m f)) = Shape.calls (trace (f a)).
Proof. intros Hm H. now rewrite (calls_bind_ok _ _ _ H), (silent_calls _ Hm). Qed.

Lemma calls_invoke_then {B} (llm : LLM) (messages : list message) (f : string -> M B)
    (content : string) :
  result (invoke llm messages) = Ok content ->
  silent (f content) ->
  Shape.calls (trace (bind (invoke llm messages) f)) = [messages].
Proof.
  intros H Hf. now rewrite (calls_bind_ok _ _ _ H), (silent_calls _ Hf).
Qed.

Lemma silent_for_each {A B} (body : A -> M B) (xs : list A) :
  (forall x, silent (body x)) -> silent (for_each xs body).
Proof.
  intros Hbody. induction xs as [| x xs IH]; [apply silent_ret |].
  cbn [for_each]. apply silent_bind; [apply Hbody | intros y].
  apply silent_bind; [exact IH | intros ys; apply silent_ret].
Qed.

Lemma silent_closest_match (role : string) (roles : list string) :
  silent (Planner.closest_match role roles).
Proof.
  induction roles as [| r roles IH]; cbn [Planner.closest_match].
  - apply silent_bind; [apply silent_print | intros _; apply silent_ret].
  - destruct (PyStr.contains _ _); [| exact IH].
    apply silent_bind; [apply silent_print | intros _; apply silent_ret].
Qed.

Lemma silent_add_worker (m : string * string * string) : silent (Planner.add_worker m).
Proof.
  destruct m as [[index role] tasks]. unfold Planner.add_worker.
  apply silent_bind.
  - unfold Planner.resolve_role.
    destruct (negb _); [apply silent_closest_match | apply silent_ret].
  - intros r. apply silent_bind; [apply silent_print | intros _; apply silent_ret].
Qed.

Lemma silent_item (l : list string) (i : nat) : silent (Planner.item l i).
Proof.
  unfold Planner.item. destruct (l !! i); [apply silent_ret | apply silent_raise].
Qed.

Lemma silent_parse (content : string) : silent (Planner.parse content).
Proof.
  unfold Planner.parse. destruct (_ && _); [| apply silent_ret].
  repeat (apply silent_bind; [apply silent_item | intros ?]).
  apply silent_bind; [| intros ?; apply silent_ret].
  apply silent_for_each. apply silent_add_worker.
Qed.

Lemma silent_print_roles (workers : list (gmap string string)) (i : nat) :
  silent (Planner.print_roles i workers).
Proof.
  revert i. induction workers as [| w workers IH]; intros i; [apply silent_ret |].
  cbn [Planner.print_roles]. apply silent_bind; [apply silent_getfield | intros role].
  apply silent_bind; [apply silent_print | intros _; apply IH].
Qed.

Lemma silent_subscript (v : value) (k : string) : silent (subscript v k).
Proof. destruct v; try apply silent_raise. apply silent_getfield. Qed.

Lemma silent_add_analyses (st : state) (ids : list Z) (user_message : string) :
  silent (Critique.add_analyses st ids user_message).
Proof.
  revert user_message. induction ids as [| i ids IH]; intros user_message;
    [apply silent_ret |].
  cbn [Critique.add_analyses]. destruct (st !! _); [| apply IH].
  do 2 (apply silent_bind; [apply silent_subscript | intros ?]). apply IH.
Qed.

Lemma silent_try_except {A} (body : M A) (handler : exn -> M A) :
  silent body -> (forall e, silent (handler e)) -> silent (try_except body handler).
Proof.
  intros Hbody Hhandler ms. rewrite trace_try_except.
  destruct (result body) as [a | e]; [apply Hbody |].
  intros H. apply in_app_or in H as [H | H]; [now apply (Hbody ms) |].
  now apply (Hhandler e ms).
Qed.

Lemma silent_gather_outputs (st : state) (ids : list Z) :
  silent (Judge.gather_outputs st ids).
Proof. intros ms. now rewrite trace_gather_outputs. Qed.

Lemma silent_persist_example (sink : Sink) (st : state) (content : string) :
  silent (Judge.persist_example sink st content).
Proof.
  unfold Judge.persist_example.
  apply silent_bind; [intros ms [H | []]; discriminate | intros _].
  apply silent_bind; [apply silent_gather_outputs | intros ?].
  apply silent_bind; [apply silent_getitem | intros ?].
  apply silent_bind; [apply silent_as_str | intros ?].
  apply silent_bind; [apply silent_getitem | intros ?].
  apply silent_bind; [apply silent_as_str | intros ?].
  apply silent_bind; [apply silent_getitem | intros ?].
  apply silent_bind; [apply silent_subscript | intros ?].
  intros ms [H | []]. discriminate.
Qed.

(** Moves a hypothesis about [result (x <- m ;; k)] and a goal about the
    calls of [x <- m ;; k] past a silent [m]. *)
Ltac skip_silent H lem :=
  let a := fresh "a" in
  let Ha := fresh "Ha" in
  apply bind_ok_inv in H; destruct H as [a [Ha H]];
  rewrite (calls_after_silent _ _ a); [| lem | exact Ha]; cbv beta zeta in H |- *.

Lemma planner_calls (llm : LLM) (st u : state) :
  result (Planner.call llm st) = Ok u ->
  exists text,
    Shape.calls (trace (Planner.call llm st))
    = [[SystemMessage Prompts.planner_system; HumanMessage text]].
Proof.
  unfold Planner.call. intros H. cbv beta zeta in H |- *.
  skip_silent H ltac:(apply silent_getitem).
  skip_silent H ltac:(apply silent_as_str).
  skip_silent H ltac:(apply silent_as_str).
  apply bind_ok_inv in H as [content [Hcontent H]].
  rewrite (calls_invoke_then _ _ _ content Hcontent); [eexists; reflexivity |].
  apply silent_bind; [apply silent_parse | intros [plan workers]].
  do 2 (apply silent_bind; [apply silent_print | intros _]).
  apply silent_bind; [apply silent_print_roles | intros _; apply silent_ret].
Qed.

Lemma security_worker_calls (self : WorkerFactory.SecurityWorker) (st u : state) :
  result (WorkerFactory.call self st) = Ok u ->
  exists text,
    Shape.calls (trace (WorkerFactory.call self st))
    = [[SystemMessage (WorkerFactory.system_prompt self); HumanMessage text]].
Proof.
  unfold WorkerFactory.call. intros H. cbv beta zeta in H |- *.
  skip_silent H ltac:(apply silent_print).
  skip_silent H ltac:(apply silent_getitem).
  skip_silent H ltac:(apply silent_as_str).
  skip_silent H ltac:(apply silent_getitem).
  skip_silent H ltac:(apply silent_as_str).
  skip_silent H ltac:(apply silent_as_str).
  apply bind_ok_inv in H as [content [Hcontent H]].
  rewrite (calls_invoke_then _ _ _ content Hcontent); [eexists; reflexivity |].
  apply silent_bind; [apply silent_print | intros _; apply silent_ret].
Qed.

Lemma debug_node_calls (name : string) (func : state -> M state) (st u : state) :
  result (Main.debug_node name func st) = Ok u ->
  Shape.calls (trace (Main.debug_node name func st)) = Shape.calls (trace (func st)).
Proof.
  unfold Main.debug_node. intros H.
  skip_silent H ltac:(apply silent_print).
  apply bind_ok_inv in H as [r [Hr H]].
  rewrite (calls_bind_ok _ _ _ Hr), (silent_calls (bind (print _) _));
    [apply app_nil_r |].
  apply silent_bind; [apply silent_print | intros _; apply silent_ret].
Qed.

Lemma worker_node_calls (llm : LLM) (num : Z) (st u : state)
    (workers : list (gmap string string)) :
  result (Main.create_worker llm num st) = Ok u ->
  st !! "worker_definitions" = Some (VList workers) ->
  length (Shape.calls (trace (Main.create_worker llm num st)))
  = if (num <=? Z.of_nat (length workers))%Z then 1 else 0.
Proof.
  unfold Main.create_worker. intros H Hdefs.
  rewrite (debug_node_calls _ _ _ _ H). rewrite debug_node_result in H.
  unfold Main.worker_func in *. rewrite Hdefs in *.
  cbn [default from_option id] in *.
  change (Main.len (VList workers)) with (ret (Z.of_nat (length workers))) in *.
  rewrite bind_ret_l in *.
  destruct (num <=? Z.of_nat (length workers))%Z; [| reflexivity].
  skip_silent H ltac:(apply silent_worker_def_at).
  skip_silent H ltac:(apply silent_getfield).
  skip_silent H ltac:(apply silent_getfield).
  skip_silent H ltac:(apply silent_create_worker).
  destruct (security_worker_calls _ _ _ H) as [text ->]. reflexivity.
Qed.

Lemma critique_calls (llm : LLM) (st u : state) :
  result (Critique.call llm st) = Ok u ->
  exists text,
    Shape.calls (trace (Critique.call llm st))
    = [[SystemMessage Prompts.critique_system; HumanMessage text]].
Proof.
  unfold Critique.call. intros H. cbv beta zeta in H |- *.
  skip_silent H ltac:(apply silent_print).
  skip_silent H ltac:(apply silent_getitem).
  skip_silent H ltac:(apply silent_as_str).
  skip_silent H ltac:(apply silent_getitem).
  skip_silent H ltac:(apply silent_as_str).
  skip_silent H ltac:(apply silent_add_analyses).
  apply bind_ok_inv in H as [content [Hcontent H]].
  rewrite (calls_invoke_then _ _ _ content Hcontent); [eexists; reflexivity |].
  apply silent_bind; [apply silent_print | intros _; apply silent_ret].
Qed.

Lemma judge_calls (llm : LLM) (sink : Sink) (st u : state) :
  result (Judge.call llm sink st) = Ok u ->
  exists text,
    Shape.calls (trace (Judge.call llm sink st))
    = [[SystemMessage Prompts.judge_system; HumanMessage text]].
Proof.
  unfold Judge.call. intros H.
  apply bind_ok_inv in H as [content [Hcontent _]].
  rewrite (calls_bind_ok _ _ _ Hcontent), (silent_calls (bind (try_except _ _) _)).
  2:{ apply silent_bind; [| intros _; apply silent_ret].
      apply silent_try_except; [apply silent_persist_example |].
      intros e. apply silent_print. }
  rewrite app_nil_r. unfold Judge.generate in *.
  skip_silent Hcontent ltac:(apply silent_getitem).
  skip_silent Hcontent ltac:(apply silent_getitem).
  skip_silent Hcontent ltac:(apply silent_getitem).
  skip_silent Hcontent ltac:(apply silent_subscript).
  skip_silent Hcontent ltac:(apply silent_as_str).
  skip_silent Hcontent ltac:(apply silent_as_str).
  eexists. reflexivity.
Qed.

Lemma for_each_calls {A B} (body : A -> M B) (xs : list A) (ys : list B) :
  Forall2 (fun x y => result (body x) = Ok y) xs ys ->
  Shape.calls (trace (for_each xs body))
  = concat (map (fun x => Shape.calls (trace (body x))) xs).
Proof.
  induction 1 as [| x y xs ys Hx Hxs IH]; [reflexivity |].
  cbn [for_each map concat].
  rewrite (calls_bind_ok _ _ _ Hx), (calls_bind_ok _ _ _ (for_each_ok _ _ _ Hxs)), IH.
  now rewrite app_nil_r.
Qed.

Lemma slot_calls (f : Z -> list (list message)) (n : nat) :
  (forall i, In i Main.slots ->
             length (f i) = if (i <=? Z.of_nat n)%Z then 1 else 0) ->
  length (concat (map f Main.slots)) = Nat.min n 5.
Proof.
  intros H. unfold Main.slots in *. cbn [map concat].
  rewrite !length_app.
  rewrite (H 1%Z), (H 2%Z), (H 3%Z), (H 4%Z), (H 5%Z) by (cbn; tauto).
  cbn [length].
  repeat match goal with
         | |- context [(?i <=? ?m)%Z] => destruct (Z.leb_spec i m)
         end; lia.
Qed.

(** X19. A completed run of the graph calls the text generation once for
    the planner, then once for each of the first five worker definitions
    of the plan (a slot without a definition makes no call), then once
    for the critique and last once for the judge: three calls plus the
    smaller of five and the length of the plan, never more than eight. *)
Theorem completed_run_calls (llm : LLM) (sink : Sink) (st0 final : state) :
  result (Main.invoke_graph llm sink st0) = Ok final ->
  exists assignments planner_text worker_calls critique_text judge_text,
    final !! "worker_definitions" = Some (VList assignments) /\
    length worker_calls = Nat.min (length assignments) 5 /\
    Shape.calls (trace (Main.invoke_graph llm sink st0))
    = [[SystemMessage Prompts.planner_system; HumanMessage planner_text]]
      ++ worker_calls
      ++ [ [SystemMessage Prompts.critique_system; HumanMessage critique_text];
           [SystemMessage Prompts.judge_system; HumanMessage judge_text] ].
Proof.
  intros H. unfold Main.invoke_graph, Main.invoke_in_order in *.
  apply bind_ok_inv in H as [u [Hu H]]. rewrite (calls_bind_ok _ _ _ Hu).
  rewrite (debug_node_calls _ _ _ _ Hu). rewrite debug_node_result in Hu.
  destruct (planner_calls _ _ _ Hu) as [planner_text ->].
  destruct (planner_update_form _ _ _ Hu) as [plan' [assignments' ->]].
  cbv beta zeta in H |- *.
  apply bind_ok_inv in H as [us [Hus H]]. rewrite (calls_bind_ok _ _ _ Hus).
  cbv beta zeta in H |- *.
  apply bind_ok_inv in H as [c [Hc H]]. rewrite (calls_bind_ok _ _ _ Hc).
  rewrite (debug_node_calls _ _ _ _ Hc). rewrite debug_node_result in Hc.
  destruct (critique_calls _ _ _ Hc) as [critique_text ->].
  cbv beta zeta in H |- *.
  apply bind_ok_inv in H as [j [Hj H]]. rewrite (calls_bind_ok _ _ _ Hj).
  rewrite (debug_node_calls _ _ _ _ Hj). rewrite debug_node_result in Hj.
  destruct (judge_calls _ _ _ _ Hj) as [judge_text ->].
  cbn in H. injection H as <-.
  unfold Main.run_workers in *.
  assert (Hnodes := for_each_ok_inv _ _ _ Hus).
  rewrite (for_each_calls _ _ _ Hnodes).
  destruct (critique_update _ _ _ Hc) as [assessment' ->].
  destruct (judge_update _ _ _ _ Hj) as [evaluation' ->].
  set (st1 := Main.apply_update st0 _) in *.
  assert (Hdefs : st1 !! "worker_definitions" = Some (VList assignments')).
  { apply lookup_union_Some_l. now rewrite lookup_insert_eq. }
  exists assignments', planner_text,
    (concat (map (fun i => Shape.calls (trace (Main.create_worker llm i st1)))
                 Main.slots)),
    critique_text, judge_text.
  split; [| split].
  - unfold Judge.verdict. rewrite !apply_update_frame by discriminate.
    rewrite (merge_frame _ _ _ _ "worker_definitions" Hnodes); [exact Hdefs |].
    intros i Hi Heq. apply output_key_of_slot in Hi. rewrite <- Heq in Hi.
    clear -Hi. cbn in Hi. intuition discriminate.
  - apply slot_calls. intros i Hi.
    assert (Hrun : exists v, result (Main.create_worker llm i st1) = Ok v).
    { clear -Hnodes Hi. induction Hnodes as [| x y xs ys Hx _ IH]; [destruct Hi |].
      destruct Hi as [-> | Hi]; [eauto | now apply IH]. }
    destruct Hrun as [v Hv]. now apply worker_node_calls with v.
  - reflexivity.
Qed.

Lemma completed_run_calls_witness :
  exists assignments planner_text worker_calls critique_text judge_text,
    Scenario.completed !! "worker_definitions" = Some (VList assignments) /\
    length worker_calls = Nat.min (length assignments) 5 /\
    Shape.calls (trace (Main.invoke_graph Scenario.answering Scenario.working_sink
                          Scenario.request))
    = [[SystemMessage Prompts.planner_system; HumanMessage planner_text]]
      ++ worker_calls
      ++ [ [SystemMessage Prompts.critique_system; HumanMessage critique_text];
           [SystemMessage Prompts.judge_system; HumanMessage judge_text] ].
Proof.
  apply (completed_run_calls Scenario.answering Scenario.working_sink Scenario.request
           Scenario.completed).
  by_computation.
Defined.

(** ** The timeline of the visualization *)

Lemma classes_accept_app (cls1 cls2 : list cclass) (p1 p2 : string) :
  Shape.classes_accept cls1 p1 = true ->
  Shape.classes_accept cls2 p2 = true ->
  Shape.classes_accept (cls1 ++ cls2) (p1 +:+ p2) = true.
Proof.
  revert p1. induction cls1 as [| cl cls1 IH]; intros [| a p1] H1 H2;
    try discriminate; [exact H2 |].
  cbn in H1. apply andb_true_iff in H1 as [Ha H1].
  change (accepts cl a && Shape.classes_accept (cls1 ++ cls2) (p1 +:+ p2) = true).
  rewrite Ha. now apply IH.
Qed.

Lemma classes_accept_length (cls : list cclass) (p : string) :
  Shape.classes_accept cls p = true -> String.length p = length cls.
Proof.
  revert p. induction cls as [| cl cls IH]; intros [| a p] H; try discriminate;
    [reflexivity |].
  cbn in H. apply andb_true_iff in H as [_ H]. cbn. now rewrite (IH p H).
Qed.

Lemma classes_accept_chars (q : ascii -> bool) (cls : list cclass) (p : string) :
  Forall (fun cl => forall a, accepts cl a = true -> q a = true) cls ->
  Shape.classes_accept cls p = true ->
  Shape.all_chars q p = true.
Proof.
  intros Hcls. revert p. induction Hcls as [| cl cls Hcl _ IH]; intros [| a p] H;
    try discriminate; [reflexivity |].
  cbn in H. apply andb_true_iff in H as [Ha H]. cbn.
  now rewrite (Hcl a Ha), (IH p H).
Qed.

(** A pattern that is a row of single characters consumes a text of
    these characters and sets no group. *)
Lemma run_fixed (r : regex) :
  forall (cls : list cclass) (R : Type) (s : string) (g : captures)
         (k : string -> captures -> option R) (x : R),
    Shape.fixed r = Some cls ->
    run r R s g k = Some x ->
    exists p s', s = p +:+ s' /\ Shape.classes_accept cls p = true /\ k s' g = Some x.
Proof.
  induction r as [cl | | r1 IH1 r2 IH2 | | | |]; intros cls R s g k x Hfixed H;
    try discriminate.
  - injection Hfixed as <-. cbn [run] in H. destruct s as [| a s]; [discriminate |].
    destruct (accepts cl a) eqn:Ha; [| discriminate].
    exists (String a EmptyString), s. cbn. now rewrite Ha.
  - cbn [Shape.fixed] in Hfixed.
    destruct (Shape.fixed r1) as [cls1 |]; [| discriminate].
    destruct (Shape.fixed r2) as [cls2 |]; [| discriminate].
    injection Hfixed as <-. cbn [run] in H.
    apply (IH1 cls1) in H as [p1 [s1 [-> [H1 H]]]]; [| reflexivity].
    apply (IH2 cls2) in H as [p2 [s2 [-> [H2 H]]]]; [| reflexivity].
    exists (p1 +:+ p2), s2. rewrite append_assoc.
    split; [reflexivity |]. split; [now apply classes_accept_app | exact H].
Qed.

Lemma timestamp_match (s0 rest : string) (g : captures) :
  match_here Visualization.timestamp_pattern s0 = Some (g, rest) ->
  exists ts,
    s0 = ts +:+ rest /\ group g 1 = ts /\
    String.length ts = 19 /\ Shape.all_chars Shape.stamp_char ts = true.
Proof.
  unfold match_here, Visualization.timestamp_pattern. cbn [run]. intros H.
  eapply run_fixed in H as [ts [s' [-> [Hts H]]]]; [| reflexivity].
  injection H as <- <-. exists ts. split; [reflexivity |].
  split; [cbn [group Nat.eqb]; apply consumed_append |].
  split; [now rewrite (classes_accept_length _ _ Hts) |].
  apply (classes_accept_chars _ _ _) with (2 := Hts). cbn [app].
  repeat constructor; intros a Ha; unfold Shape.stamp_char; cbn [accepts] in Ha;
    rewrite Ha; now rewrite ?orb_true_r.
Qed.

Lemma stamp_char_no_blank (c : ascii) :
  Shape.stamp_char c = true -> PyStr.is_space c = false.
Proof.
  destruct c as [[] [] [] [] [] [] [] []]; vm_compute; congruence.
Qed.

Lemma stamp_char_no_Z (c : ascii) :
  Shape.stamp_char c = true -> Ascii.eqb c "Z" = false.
Proof.
  destruct c as [[] [] [] [] [] [] [] []]; vm_compute; congruence.
Qed.

Lemma all_chars_weaken (q q' : ascii -> bool) (s : string) :
  (forall c, q c = true -> q' c = true) ->
  Shape.all_chars q s = true -> Shape.all_chars q' s = true.
Proof.
  intros Hq. induction s as [| c s IH]; [reflexivity |]. cbn.
  intros H. apply andb_true_iff in H as [Hc H]. now rewrite (Hq c Hc), IH.
Qed.

Lemma replace_char_absent (c : ascii) (new s : string) :
  Shape.all_chars (fun a => negb (Ascii.eqb a c)) s = true ->
  Visualization.replace_char c new s = s.
Proof.
  induction s as [| a s IH]; [reflexivity |]. cbn.
  intros H. apply andb_true_iff in H as [Ha H]. apply negb_true_iff in Ha.
  now rewrite Ha, IH.
Qed.

(** A match that [scan] reports is a match at a suffix of the text. *)
Lemma scan_at_suffix (r : regex) (s : string) (skip : nat) (g : captures) :
  In g (scan r s skip) ->
  exists pre s0 rest, s = pre +:+ s0 /\ match_here r s0 = Some (g, rest).
Proof.
  revert skip. induction s as [| c s IH]; intros skip H; cbn [scan] in H.
  - destruct skip; [| destruct H].
    destruct (match_here r EmptyString) as [[g0 rest] |] eqn:E; [| destruct H].
    destruct H as [<- | []]. exists EmptyString, EmptyString, rest. auto.
  - assert (Hrest : forall k, In g (scan r s k) ->
              exists pre s0 rest,
                String c s = pre +:+ s0 /\ match_here r s0 = Some (g, rest)).
    { intros k Hk. destruct (IH k Hk) as [pre [s0 [rest [-> Hm]]]].
      exists (String c pre), s0, rest. auto. }
    destruct skip as [| k]; [| now apply Hrest with k].
    destruct (match_here r (String c s)) as [[g0 rest] |] eqn:E.
    + destruct H as [<- | H]; [| eapply Hrest; exact H].
      exists EmptyString, (String c s), rest. auto.
    + eapply Hrest; exact H.
Qed.

(** What [findall1] finds for the timestamp pattern is in the text. *)
Lemma found_timestamp (analysis ts : string) :
  In ts (Visualization.findall1 Visualization.timestamp_pattern analysis) ->
  Spec.is_substring ts analysis /\
  String.length ts = 19 /\ Shape.all_chars Shape.stamp_char ts = true.
Proof.
  unfold Visualization.findall1. intros H. apply in_map_iff in H as [g [<- H]].
  apply scan_at_suffix in H as [pre [s0 [rest [-> H]]]].
  apply timestamp_match in H as [ts [-> [<- [Hlen Hchars]]]].
  split; [now exists pre, rest | auto].
Qed.

Lemma find_from_spec (sub s : string) (i : nat) :
  PyStr.contains sub s = true ->
  exists pre post,
    s = pre +:+ sub +:+ post /\
    Visualization.find_from sub s i = Z.of_nat (i + String.length pre).
Proof.
  revert i. induction s as [| c s IH]; intros i H; cbn [Visualization.find_from].
  - cbn in H. rewrite orb_false_r in H. rewrite H.
    apply startswith_spec in H as [post H].
    exists EmptyString, post. split; [exact H | cbn; f_equal; lia].
  - destruct (PyStr.startswith sub (String c s)) eqn:E.
    + apply startswith_spec in E as [post E].
      exists EmptyString, post. split; [exact E | cbn; f_equal; lia].
    + cbn [PyStr.contains] in H. rewrite E in H. cbn [orb] in H.
      destruct (IH (S i) H) as [pre [post [-> Hfind]]].
      exists (String c pre), post. split; [reflexivity |].
      rewrite Hfind. cbn [String.length]. f_equal. lia.
Qed.

Lemma drop_app_le (n : nat) (a b : string) :
  n <= String.length a -> PyStr.drop n (a +:+ b) = PyStr.drop n a +:+ b.
Proof.
  revert a. induction n as [| n IH]; intros a H.
  - now destruct a; destruct b.
  - destruct a as [| c a]; [cbn in H; lia |].
    change (PyStr.drop n (a +:+ b) = PyStr.drop n a +:+ b).
    apply IH. cbn in H. lia.
Qed.

Lemma take_app_ge (n : nat) (a b : string) :
  String.length a <= n ->
  PyStr.take n (a +:+ b) = a +:+ PyStr.take (n - String.length a) b.
Proof.
  revert n. induction a as [| c a IH]; intros n H.
  - cbn [String.length]. now rewrite Nat.sub_0_r.
  - destruct n as [| n]; [cbn in H; lia |].
    change (String c (PyStr.take n (a +:+ b))
            = String c (a +:+ PyStr.take (n - String.length a) b)).
    rewrite IH; [reflexivity | cbn in H; lia].
Qed.

(** The window of fifty characters to either side of the start of an
    occurrence holds the occurrence, if that is at most fifty long. *)
Lemma window_holds (pre sub post : string) :
  String.length sub <= 50 ->
  let s := pre +:+ sub +:+ post in
  let idx := Z.of_nat (String.length pre) in
  Spec.is_substring sub
    (Visualization.slice s (Z.max 0 (idx - 50))
       (Z.min (Z.of_nat (String.length s)) (idx + 50))).
Proof.
  intros Hsub s idx. unfold Visualization.slice.
  set (start := Z.to_nat (Z.max 0 (idx - 50))).
  assert (Hstart : start <= String.length pre) by (unfold start, idx; lia).
  assert (Hlen : String.length s
                 = String.length pre + (String.length sub + String.length post)).
  { unfold s. now rewrite !append_length. }
  unfold s at 2. rewrite (drop_app_le _ _ _ Hstart).
  assert (Hpre2 : String.length (PyStr.drop start pre) = String.length pre - start)
    by apply string_drop_length.
  rewrite take_app_ge by (rewrite Hpre2, Hlen; unfold start, idx; lia).
  rewrite take_app_ge by (rewrite Hpre2, Hlen; unfold start, idx; lia).
  eexists _, _. reflexivity.
Qed.

Lemma lstrip_keeps (a t : string) (c : ascii) :
  PyStr.is_space c = false ->
  exists a', PyStr.lstrip (a +:+ String c t) = a' +:+ String c t.
Proof.
  intros Hc. induction a as [| d a IH].
  - exists EmptyString. change (PyStr.lstrip (String c t) = String c t).
    cbn [PyStr.lstrip]. now rewrite Hc.
  - change (String d a +:+ String c t) with (String d (a +:+ String c t)).
    cbn [PyStr.lstrip]. destruct (PyStr.is_space d); [exact IH |].
    now exists (String d a).
Qed.

Lemma rstrip_app (x y : string) :
  PyStr.rstrip y <> EmptyString -> PyStr.rstrip (x +:+ y) = x +:+ PyStr.rstrip y.
Proof.
  intros Hy. induction x as [| d x IH]; [reflexivity |].
  change (String d x +:+ y) with (String d (x +:+ y)).
  cbn [PyStr.rstrip]. rewrite IH.
  change (String d x +:+ PyStr.rstrip y) with (String d (x +:+ PyStr.rstrip y)).
  destruct (x +:+ PyStr.rstrip y) as [| e r] eqn:E; [| reflexivity].
  destruct x; [cbn in E; contradiction | discriminate].
Qed.

Lemma rstrip_keeps_prefix (p b : string) :
  Shape.all_chars (fun c => negb (PyStr.is_space c)) p = true ->
  exists b', PyStr.rstrip (p +:+ b) = p +:+ b'.
Proof.
  induction p as [| c p IH]; intros H; [now exists (PyStr.rstrip b) |].
  cbn in H. apply andb_true_iff in H as [Hc H]. apply negb_true_iff in Hc.
  destruct (IH H) as [b' Hb'].
  change (String c p +:+ b) with (String c (p +:+ b)).
  cbn [PyStr.rstrip]. rewrite Hb', Hc. exists b'.
  change (String c p +:+ b') with (String c (p +:+ b')).
  now destruct (p +:+ b').
Qed.

Lemma strip_keeps (sub x : string) :
  sub <> EmptyString ->
  Shape.all_chars (fun c => negb (PyStr.is_space c)) sub = true ->
  Spec.is_substring sub x -> Spec.is_substring sub (PyStr.strip x).
Proof.
  intros Hne Hsub [a [b ->]]. destruct sub as [| c t]; [contradiction |].
  assert (Hc : PyStr.is_space c = false).
  { cbn in Hsub. apply andb_true_iff in Hsub as [Hc _]. now apply negb_true_iff. }
  unfold PyStr.strip.
  change (String c t +:+ b) with (String c (t +:+ b)).
  destruct (lstrip_keeps a (t +:+ b) c Hc) as [a' ->].
  change (String c (t +:+ b)) with (String c t +:+ b).
  destruct (rstrip_keeps_prefix (String c t) b Hsub) as [b' Hb'].
  rewrite rstrip_app by (rewrite Hb'; discriminate).
  rewrite Hb'. now exists a', b'.
Qed.

Lemma lstrip_length_le (s : string) :
  String.length (PyStr.lstrip s) <= String.length s.
Proof.
  induction s as [| c s IH]; [reflexivity |]. cbn [PyStr.lstrip].
  destruct (PyStr.is_space c); cbn [String.length]; lia.
Qed.

Lemma rstrip_length_le (s : string) :
  String.length (PyStr.rstrip s) <= String.length s.
Proof.
  induction s as [| c s IH]; [reflexivity |]. cbn [PyStr.rstrip].
  destruct (PyStr.rstrip s); [destruct (PyStr.is_space c) |];
    cbn [String.length] in *; lia.
Qed.

Lemma strip_length_le (s : string) :
  String.length (PyStr.strip s) <= String.length s.
Proof.
  unfold PyStr.strip.
  pose proof (rstrip_length_le (PyStr.lstrip s)). pose proof (lstrip_length_le s). lia.
Qed.

Section TimelineFacts.

Variable datetime : Type.
Variable fromisoformat : string -> outcome datetime.
Variable before : datetime -> datetime -> bool.

Local Abbreviation timeline_event := (Visualization.timeline_event datetime).
Local Abbreviation timestamp := (Visualization.timestamp datetime).
Local Abbreviation description := (Visualization.description datetime).
Local Abbreviation source := (Visualization.source datetime).
Local Abbreviation datetime_of := (Visualization.datetime_of datetime).
Local Abbreviation event_of := (Visualization.event_of datetime fromisoformat).
Local Abbreviation collect := (Visualization.collect datetime fromisoformat).
Local Abbreviation sort_events := (Visualization.sort_events datetime before).
Local Abbreviation timeline_entry := (@Shape.timeline_entry datetime fromisoformat).

Lemma event_of_form (analysis role ts : string) (ev : timeline_event) :
  In ts (Visualization.findall1 Visualization.timestamp_pattern analysis) ->
  result (event_of analysis role ts) = Ok ev ->
  timestamp ev = ts /\ source ev = role /\
  fromisoformat ts = Ok (datetime_of ev) /\
  description ev
  = PyStr.strip
      (Visualization.slice analysis
         (Z.max 0 (Visualization.find ts analysis - 50))
         (Z.min (Z.of_nat (String.length analysis))
                (Visualization.find ts analysis + 50))).
Proof.
  intros Hts H. destruct (found_timestamp _ _ Hts) as [_ [_ Hchars]].
  unfold Visualization.event_of in H. cbv zeta in H.
  apply bind_ok_inv in H as [moment [Hmoment H]].
  cbn in H. injection H as <-. cbn in Hmoment.
  rewrite replace_char_absent in Hmoment.
  - repeat split. exact Hmoment.
  - apply all_chars_weaken with Shape.stamp_char; [| exact Hchars].
    intros c Hc. now rewrite (stamp_char_no_Z c Hc).
Qed.

Lemma forall2_right {A B} (R : A -> B -> Prop) (xs : list A) (ys : list B) (y : B) :
  Forall2 R xs ys -> In y ys -> exists x, In x xs /\ R x y.
Proof.
  induction 1 as [| x0 y0 xs ys H0 _ IH]; intros Hy; [destruct Hy |].
  destruct Hy as [<- | Hy]; [exists x0; split; [now left | exact H0] |].
  destruct (IH Hy) as [x [Hx Hxy]]. exists x. split; [now right | exact Hxy].
Qed.

Lemma forall2_left {A B} (R : A -> B -> Prop) (xs : list A) (ys : list B) (x : A) :
  Forall2 R xs ys -> In x xs -> exists y, In y ys /\ R x y.
Proof.
  induction 1 as [| x0 y0 xs ys H0 _ IH]; intros Hx; [destruct Hx |].
  destruct Hx as [<- | Hx]; [exists y0; split; [now left | exact H0] |].
  destruct (IH Hx) as [y [Hy Hxy]]. exists y. split; [now right | exact Hxy].
Qed.

Lemma collect_sound (final : state) (ids : list Z) (events : list timeline_event) :
  result (collect final ids) = Ok events ->
  forall ev, In ev events -> timeline_entry final ids ev.
Proof.
  revert events. induction ids as [| i ids IH]; intros events H ev Hev;
    cbn [Visualization.collect] in H.
  - injection H as <-. destruct Hev.
  - assert (Hweak : forall evs, result (collect final ids) = Ok evs -> In ev evs ->
                                timeline_entry final (i :: ids) ev).
    { intros evs Hevs Hin.
      destruct (IH evs Hevs ev Hin) as [j [wd [an [Hj Hrest]]]].
      exists j, wd, an. split; [now right | exact Hrest]. }
    destruct (final !! WorkerFactory.output_key i) as [worker_data |] eqn:Hi;
      [| now apply Hweak with events].
    apply bind_ok_inv in H as [analysis [Hanalysis H]].
    apply bind_ok_inv in H as [role [Hrole H]]. cbv zeta in H.
    apply bind_ok_inv in H as [found [Hfound H]].
    apply bind_ok_inv in H as [rest [Hrest H]].
    cbn in H. injection H as <-.
    apply in_app_or in Hev as [Hev | Hev]; [| now apply Hweak with rest].
    apply for_each_ok_inv in Hfound.
    destruct (forall2_right _ _ _ ev Hfound Hev) as [ts [Hts Hmade]].
    destruct (event_of_form _ _ _ _ Hts Hmade) as [<- [<- [Hwhen Hdescription]]].
    exists i, worker_data, analysis.
    split; [now left |]. repeat split; assumption.
Qed.

Lemma collect_complete (final : state) (ids : list Z) (events : list timeline_event)
    (i : Z) (worker_data : value) (analysis ts : string) :
  result (collect final ids) = Ok events ->
  In i ids ->
  final !! WorkerFactory.output_key i = Some worker_data ->
  result (subscript worker_data "analysis") = Ok analysis ->
  In ts (Visualization.findall1 Visualization.timestamp_pattern analysis) ->
  exists ev, In ev events /\ timestamp ev = ts.
Proof.
  intros H Hi Hdata Hanalysis Hts. revert events H.
  induction ids as [| j ids IH]; intros events H; [destruct Hi |].
  cbn [Visualization.collect] in H.
  destruct (final !! WorkerFactory.output_key j) as [wd |] eqn:Hj.
  - apply bind_ok_inv in H as [an [Han H]].
    apply bind_ok_inv in H as [role [Hrole H]]. cbv zeta in H.
    apply bind_ok_inv in H as [found [Hfound H]].
    apply bind_ok_inv in H as [rest [Hrest H]].
    cbn in H. injection H as <-.
    destruct Hi as [-> | Hi].
    + rewrite Hdata in Hj. injection Hj as <-.
      rewrite Hanalysis in Han. injection Han as <-.
      apply for_each_ok_inv in Hfound.
      destruct (forall2_left _ _ _ ts Hfound Hts) as [ev [Hev Hmade]].
      destruct (event_of_form _ _ _ _ Hts Hmade) as [Hstamp _].
      exists ev. split; [apply in_or_app; now left | exact Hstamp].
    + destruct (IH Hi rest Hrest) as [ev [Hev Hstamp]].
      exists ev. split; [apply in_or_app; now right | exact Hstamp].
  - destruct Hi as [-> | Hi]; [congruence |]. now apply IH.
Qed.

Lemma in_insert_event (x ev : timeline_event) (l : list timeline_event) :
  In ev (Visualization.insert_event datetime before x l) <-> ev = x \/ In ev l.
Proof.
  induction l as [| y l IH]; cbn [Visualization.insert_event].
  - cbn. intuition.
  - destruct (before _ _); cbn [In]; [rewrite IH |]; intuition.
Qed.

Lemma in_sort_events (ev : timeline_event) (l : list timeline_event) :
  In ev (sort_events l) <-> In ev l.
Proof.
  induction l as [| x l IH]; [reflexivity |].
  unfold Visualization.sort_events in *. cbn [foldr].
  rewrite in_insert_event, IH. cbn. intuition.
Qed.

Lemma length_insert_event (x : timeline_event) (l : list timeline_event) :
  length (Visualization.insert_event datetime before x l) = S (length l).
Proof.
  induction l as [| y l IH]; [reflexivity |]. cbn [Visualization.insert_event].
  destruct (before _ _); cbn [length]; [now rewrite IH | reflexivity].
Qed.

(** X20. The timeline that extract_events_timeline returns has an entry
    for every timestamp found in the analysis of a slot of the result,
    and only such entries. An entry's timestamp is a text of 19
    characters (digits, two hyphens, a T, two colons) that occurs in the
    analysis and that datetime.fromisoformat accepted unchanged (it holds
    no Z to replace); its source is the role of the slot; its
    description is at most 100 characters long and contains the
    timestamp. *)
Theorem timeline_entries (final : state) (events : list timeline_event) :
  result (Visualization.extract_events_timeline datetime fromisoformat before final)
  = Ok events ->
  (forall ev, In ev events ->
     timeline_entry final Main.slots ev /\
     String.length (timestamp ev) = 19 /\
     Shape.all_chars Shape.stamp_char (timestamp ev) = true /\
     Spec.is_substring (timestamp ev) (description ev) /\
     String.length (description ev) <= 100) /\
  (forall i worker_data analysis ts,
     In i Main.slots ->
     final !! WorkerFactory.output_key i = Some worker_data ->
     result (subscript worker_data "analysis") = Ok analysis ->
     In ts (Visualization.findall1 Visualization.timestamp_pattern analysis) ->
     exists ev, In ev events /\ timestamp ev = ts).
Proof.
  unfold Visualization.extract_events_timeline. intros H.
  apply bind_ok_inv in H as [collected [Hcollected H]].
  cbn in H. injection H as <-. split.
  - intros ev Hev. apply (proj1 (in_sort_events _ _)) in Hev.
    assert (Hentry := collect_sound _ _ _ Hcollected ev Hev).
    split; [exact Hentry |].
    destruct Hentry as [i [wd [analysis [_ [_ [_ [_ [Hts [_ Hdescription]]]]]]]]].
    destruct (found_timestamp _ _ Hts) as [Hsub [Hlen Hchars]].
    split; [exact Hlen |]. split; [exact Hchars |].
    rewrite Hdescription. split.
    + apply strip_keeps.
      * intros Hempty. rewrite Hempty in Hlen. discriminate.
      * apply all_chars_weaken with Shape.stamp_char; [| exact Hchars].
        intros c Hc. now rewrite (stamp_char_no_blank c Hc).
      * apply contains_spec in Hsub.
        destruct (find_from_spec _ _ 0 Hsub) as [pre [post [Hanalysis Hfind]]].
        unfold Visualization.find. rewrite Hfind, Hanalysis.
        apply window_holds. lia.
    + etransitivity; [apply strip_length_le |]. unfold Visualization.slice.
      etransitivity; [apply take_length_le |].
      assert (-1 <= Visualization.find (timestamp ev) analysis)%Z.
      { apply contains_spec in Hsub.
        destruct (find_from_spec _ _ 0 Hsub) as [pre [post [_ Hfind]]].
        unfold Visualization.find. rewrite Hfind. lia. }
      lia.
  - intros i worker_data analysis ts Hi Hdata Hanalysis Hts.
    destruct (collect_complete _ _ _ _ _ _ _ Hcollected Hi Hdata Hanalysis Hts)
      as [ev [Hev Hstamp]].
    exists ev. split; [now apply (proj2 (in_sort_events _ _)) | exact Hstamp].
Qed.

End TimelineFacts.

Lemma timeline_entries_witness :
  (forall ev, In ev Scenario.sample_timeline ->
     Shape.timeline_entry Scenario.iso_text Scenario.sample_result Main.slots ev /\
     String.length (Visualization.timestamp string ev) = 19 /\
     Shape.all_chars Shape.stamp_char (Visualization.timestamp string ev) = true /\
     Spec.is_substring (Visualization.timestamp string ev)
       (Visualization.description string ev) /\
     String.length (Visualization.description string ev) <= 100) /\
  (forall i worker_data analysis ts,
     In i Main.slots ->
     Scenario.sample_result !! WorkerFactory.output_key i = Some worker_data ->
     result (subscript worker_data "analysis") = Ok analysis ->
     In ts (Visualization.findall1 Visualization.timestamp_pattern analysis) ->
     exists ev, In ev Scenario.sample_timeline /\ Visualization.timestamp string ev = ts).
Proof.
  apply (timeline_entries string Scenario.iso_text Scenario.text_before
           Scenario.sample_result Scenario.sample_timeline).
  vm_compute. reflexivity.
Defined.

(** ** The choice of the demo scenario *)







(** ** A run of the demo *)



Section DemoFacts.

Variable json : Type.
Variable json_loads : string -> outcome json.
Variable json_dumps : list json -> outcome string.
Variable read_lines : string -> bool -> list string * option exn.
Variable random_below : nat -> Z -> Z -> bool.
Variable randrange : nat -> Z -> Z.
Variable llm : LLM.
Variable sink : Sink.
Variable int : string -> option Z.
Variable write_demo_logs : outcome unit.
Variable seconds : string.
Variable datetime : Type.
Variable fromisoformat : string -> outcome datetime.
Variable before : datetime -> datetime -> bool.
Variable make_output_dir : outcome unit.
Variable plot_attack_graph :
  list (Visualization.timeline_event datetime) -> string -> outcome unit.
Variable plot_confidence : string -> outcome unit.
Variable plot_specialists : state -> outcome unit.

Hypothesis logs_written : write_demo_logs = Ok tt.
Hypothesis llm_answers : forall messages, exists content, llm messages = Ok content.



End DemoFacts.


(** ** A timestamp that is no date *)

Lemma trace_for_each_nil {A B} (body : A -> M B) (xs : list A) :
  (forall x, trace (body x) = []) -> trace (for_each xs body) = [].
Proof.
  intros Hbody. induction xs as [| x xs IH]; [reflexivity |].
  cbn [for_each]. apply trace_bind_nil; [apply Hbody | intros y].
  apply trace_bind_nil; [exact IH | reflexivity].
Qed.

Section VisualizationFacts.

Variable datetime : Type.
Variable fromisoformat : string -> outcome datetime.
Variable before : datetime -> datetime -> bool.
Variable make_output_dir : outcome unit.
Variable plot_attack_graph :
  list (Visualization.timeline_event datetime) -> string -> outcome unit.
Variable plot_confidence : string -> outcome unit.
Variable plot_specialists : state -> outcome unit.

Local Abbreviation extract_events_timeline :=
  (Visualization.extract_events_timeline datetime fromisoformat before).
Local Abbreviation visualize_results :=
  (Visualization.visualize_results datetime fromisoformat before make_output_dir
     plot_attack_graph plot_confidence plot_specialists).

Lemma trace_extract (final : state) : trace (extract_events_timeline final) = [].
Proof.
  unfold Visualization.extract_events_timeline.
  apply trace_bind_nil; [| reflexivity].
  generalize [1; 2; 3; 4; 5]%Z as ids.
  induction ids as [| i ids IH]; [reflexivity |]. cbn [Visualization.collect].
  destruct (final !! WorkerFactory.output_key i); [| exact IH].
  apply trace_bind_nil; [apply trace_subscript | intros analysis].
  apply trace_bind_nil; [apply trace_subscript | intros role].
  apply trace_bind_nil; [| intros found; apply trace_bind_nil; [exact IH | reflexivity]].
  apply trace_for_each_nil. intros ts. unfold Visualization.event_of.
  apply trace_bind_nil; reflexivity.
Qed.

Lemma extract_needs_dates (final : state) (i : Z) (worker_data : value)
    (analysis ts : string) (e : exn) :
  In i Main.slots ->
  final !! WorkerFactory.output_key i = Some worker_data ->
  result (subscript worker_data "analysis") = Ok analysis ->
  In ts (Visualization.findall1 Visualization.timestamp_pattern analysis) ->
  fromisoformat ts = Raise e ->
  exists e', result (extract_events_timeline final) = Raise e'.
Proof.
  intros Hi Hdata Hanalysis Hts Hrefused.
  destruct (result (extract_events_timeline final)) as [events |] eqn:H; [| eauto].
  exfalso. unfold Visualization.extract_events_timeline in H.
  apply bind_ok_inv in H as [collected [Hcollected _]].
  destruct (collect_complete _ _ _ _ _ _ _ _ _ Hcollected Hi Hdata Hanalysis Hts)
    as [ev [Hev Hstamp]].
  destruct (collect_sound _ _ _ _ _ Hcollected ev Hev)
    as [j [wd [an [_ [_ [_ [_ [_ [Haccepted _]]]]]]]]].
  rewrite Hstamp, Hrefused in Haccepted. discriminate.
Qed.

(** X23. One text of the shape of a timestamp that
    datetime.fromisoformat refuses (a month 13, say), anywhere in the
    analysis of a slot, makes visualize_results raise: no timeline, none
    of the three drawings and no paths are returned. If the output
    directory could be made, the only thing visualize_results does is to
    print the line Error in visualization with the exception it then
    raises again. *)
Theorem unreadable_timestamp_fails_the_visualization (final : state) (query : string)
    (i : Z) (worker_data : value) (analysis ts : string) (e : exn) :
  In i Main.slots ->
  final !! WorkerFactory.output_key i = Some worker_data ->
  result (subscript worker_data "analysis") = Ok analysis ->
  In ts (Visualization.findall1 Visualization.timestamp_pattern analysis) ->
  fromisoformat ts = Raise e ->
  exists e',
    result (visualize_results final query) = Raise e' /\
    (make_output_dir = Ok tt ->
     result (extract_events_timeline final) = Raise e' /\
     trace (visualize_results final query)
     = [Printed ("Error in visualization: " +:+ exn_str e')]).
Proof.
  intros Hi Hdata Hanalysis Hts Hrefused.
  destruct (extract_needs_dates _ _ _ _ _ _ Hi Hdata Hanalysis Hts Hrefused)
    as [e' He'].
  unfold Visualization.visualize_results.
  destruct make_output_dir as [[] | e0].
  - exists e'. change (@pair (outcome unit) (list event) (Ok tt) []) with (ret tt).
    rewrite bind_ret_l.
    match goal with
    | |- context [try_except ?b ?h] => set (body := b); set (handler := h)
    end.
    assert (Hbody : result body = Raise e').
    { unfold body. now rewrite result_bind, He'. }
    assert (Htrace : trace body = []).
    { unfold body. now rewrite trace_bind, He', trace_extract. }
    split; [now rewrite result_try_except, Hbody |].
    intros _. split; [exact He' |].
    now rewrite trace_try_except, Hbody, Htrace.
  - exists e0. split; [reflexivity | discriminate].
Qed.

End VisualizationFacts.

Lemma unreadable_timestamp_fails_the_visualization_witness :
  exists e',
    result (Visualization.visualize_results string Scenario.strict_iso
              Scenario.text_before (Ok tt) (fun _ _ => Ok tt) (fun _ => Ok tt)
              (fun _ => Ok tt) Scenario.misdated_result "Test Query") = Raise e' /\
    (Ok tt = Ok tt ->
     result (Visualization.extract_events_timeline string Scenario.strict_iso
               Scenario.text_before Scenario.misdated_result) = Raise e' /\
     trace (Visualization.visualize_results string Scenario.strict_iso
              Scenario.text_before (Ok tt) (fun _ _ => Ok tt) (fun _ => Ok tt)
              (fun _ => Ok tt) Scenario.misdated_result "Test Query")
     = [Printed ("Error in visualization: " +:+ exn_str e')]).
Proof.
  apply (unreadable_timestamp_fails_the_visualization string Scenario.strict_iso
           Scenario.text_before (Ok tt) (fun _ _ => Ok tt) (fun _ => Ok tt)
           (fun _ => Ok tt) Scenario.misdated_result "Test Query" 2%Z
           (WorkerFactory.finding "Credential Access Specialist"
              "Detected at 2024-13-45T10:35:10Z: Possible credential access")
           "Detected at 2024-13-45T10:35:10Z: Possible credential access"
           "2024-13-45T10:35:10" Scenario.month_error).
  - cbn. tauto.
  - reflexivity.
  - reflexivity.
  - vm_compute. tauto.
  - reflexivity.
Defined.

(** ** The entry at the head of the workers text *)

Section RepForward.
Context {R : Type}.

(** A greedy repetition takes the whole run of accepted characters, if
    the rest of the pattern matches after it. *)
Lemma rep_greedy_exact (cl : cclass) (p s' : string) (k : string -> option R) :
  Shape.all_chars (accepts cl) p = true ->
  Shape.stops (accepts cl) s' = true ->
  k s' <> None ->
  forall lo, lo <= String.length p -> rep_greedy cl lo (p +:+ s') k = k s'.
Proof.
  intros Hp Hstop Hk. induction p as [| a p IH]; intros lo Hlo.
  - destruct lo; [| cbn in Hlo; lia]. change (EmptyString +:+ s') with s'.
    destruct s' as [| b s']; [reflexivity |]. cbn in Hstop. cbn [rep_greedy].
    apply negb_true_iff in Hstop. now rewrite Hstop.
  - cbn in Hp. apply andb_true_iff in Hp as [Ha Hp].
    change (String a p +:+ s') with (String a (p +:+ s')). cbn [rep_greedy].
    rewrite Ha, (IH Hp) by (cbn in Hlo; lia).
    destruct (k s'); [reflexivity | contradiction].
Qed.

(** A lazy repetition stops at the first place, from [lo] characters
    on, where the rest of the pattern matches. *)
Lemma rep_lazy_exact (cl : cclass) (p s' : string) (k : string -> option R) :
  Shape.all_chars (accepts cl) p = true ->
  k s' <> None ->
  forall lo,
    lo <= String.length p ->
    (forall p1 p2, p = p1 +:+ p2 -> p2 <> EmptyString -> lo <= String.length p1 ->
                   k (p2 +:+ s') = None) ->
    rep_lazy cl lo (p +:+ s') k = k s'.
Proof.
  intros Hp Hk. induction p as [| a p IH]; intros lo Hlo Hmin.
  - destruct lo; [| cbn in Hlo; lia]. change (EmptyString +:+ s') with s'.
    destruct s' as [| b s']; cbn [rep_lazy]; destruct (k _); congruence.
  - cbn in Hp. apply andb_true_iff in Hp as [Ha Hp].
    change (String a p +:+ s') with (String a (p +:+ s')).
    destruct lo as [| lo]; cbn [rep_lazy Nat.pred]; rewrite Ha.
    + assert (Hfirst : k (String a (p +:+ s')) = None)
        by (apply (Hmin EmptyString (String a p) eq_refl); [discriminate | cbn; lia]).
      rewrite Hfirst.
      apply (IH Hp); [lia |].
      intros p1 p2 Hsplit Hne _. apply (Hmin (String a p1) p2); [| exact Hne | lia].
      now rewrite Hsplit.
    + apply (IH Hp); [cbn in Hlo; lia |].
      intros p1 p2 Hsplit Hne Hlen. apply (Hmin (String a p1) p2); [| exact Hne |].
      * now rewrite Hsplit.
      * cbn. lia.
Qed.

End RepForward.

Lemma blank_is_no_colon (c : ascii) :
  PyStr.is_space c = true -> Ascii.eqb c ":" = false.
Proof.
  intros Hc. destruct (Ascii.eqb_spec c ":") as [-> | _]; [| reflexivity].
  vm_compute in Hc. discriminate.
Qed.

(** A run of accepted characters before a text that stops it: every way
    to cut off accepted characters at the head cuts inside the run. *)
Lemma cut_in_run (q : ascii -> bool) (run_ rest p s' : string) :
  Shape.all_chars q run_ = true ->
  Shape.stops q rest = true ->
  Shape.all_chars q p = true ->
  p +:+ s' = run_ +:+ rest ->
  exists run2, run_ = p +:+ run2 /\ s' = run2 +:+ rest.
Proof.
  intros Hrun Hstop. revert run_ Hrun. induction p as [| a p IH]; intros run_ Hrun Hp H.
  - exists run_. auto.
  - cbn in Hp. apply andb_true_iff in Hp as [Ha Hp].
    destruct run_ as [| b run_].
    + change (String a (p +:+ s') = rest) in H. subst rest.
      cbn in Hstop. rewrite Ha in Hstop. discriminate.
    + change (String a (p +:+ s') = String b (run_ +:+ rest)) in H.
      injection H as <- H. cbn in Hrun. apply andb_true_iff in Hrun as [_ Hrun].
      destruct (IH run_ Hrun Hp H) as [run2 [-> ->]]. now exists run2.
Qed.

Lemma rep_greedy_none {R} (cl : cclass) (lo : nat) (s : string)
    (k : string -> option R) :
  (forall p s', s = p +:+ s' -> Shape.all_chars (accepts cl) p = true -> k s' = None) ->
  rep_greedy cl lo s k = None.
Proof.
  intros Hk. destruct (rep_greedy cl lo s k) as [x |] eqn:E; [| reflexivity].
  apply rep_greedy_inv in E as [p [s' [Hs [Hx [Hp _]]]]].
  rewrite (Hk p s' Hs Hp) in Hx. discriminate.
Qed.

(** Inside a word the separator of the pattern does not match. *)
Lemma after_role_fails {R} (s : string) (g : captures)
    (k : string -> captures -> option R) :
  Shape.goes_on s = true -> run Shape.after_role R s g k = None.
Proof.
  destruct s as [| c s]; [discriminate |]. cbn [Shape.goes_on]. intros H.
  apply andb_true_iff in H as [Hblank Hcolon].
  apply negb_true_iff in Hblank. apply negb_true_iff in Hcolon.
  unfold Shape.after_role. cbn [run rep_greedy accepts]. now rewrite Hblank, Hcolon.
Qed.

Lemma after_role_parts : Shape.after_role = Cat Shape.separator Shape.tasks_part.
Proof. reflexivity. Qed.

Lemma tasks_part_total (s : string) (g : captures) :
  run Shape.tasks_part (captures * string) s g (fun s' g' => Some (g', s')) <> None.
Proof.
  unfold Shape.tasks_part. cbn [run]. apply rep_lazy_any_total. discriminate.
Qed.

(** After the blanks that follow the first word, with the role name
    going on, the separator is these blanks and the tasks begin. *)
Lemma after_role_at_blanks (ws rest : string) (g : captures) :
  ws <> EmptyString ->
  Shape.all_chars PyStr.is_space ws = true ->
  Shape.goes_on rest = true ->
  run Shape.after_role (captures * string) (ws +:+ rest) g (fun s' g' => Some (g', s'))
  = run Shape.tasks_part (captures * string) rest g (fun s' g' => Some (g', s')).
Proof.
  intros Hne Hws Hrest. rewrite after_role_parts.
  change (run (Cat ?a ?b) ?R ?s ?g ?k)
    with (run a R s g (fun s' g' => run b R s' g' k)).
  unfold Shape.separator. cbn [run].
  assert (Hstop : Shape.stops (accepts c_space) rest = true).
  { destruct rest as [| c rest]; [discriminate |]. cbn in Hrest |- *.
    now apply andb_true_iff in Hrest as [-> _]. }
  rewrite rep_greedy_none.
  - apply (rep_greedy_exact c_space ws rest); auto.
    + apply tasks_part_total.
    + destruct ws; [contradiction | cbn; lia].
  - intros p s' Hsplit Hp.
    destruct (cut_in_run _ _ _ _ _ Hws Hstop Hp (eq_sym Hsplit)) as [ws2 [Hws2 ->]].
    destruct ws2 as [| c ws2].
    + destruct rest as [| c rest]; [discriminate |].
      cbn in Hrest. apply andb_true_iff in Hrest as [_ Hcolon].
      apply negb_true_iff in Hcolon.
      change (EmptyString +:+ String c rest) with (String c rest).
      cbn [accepts]. now rewrite Hcolon.
    + change (String c ws2 +:+ rest) with (String c (ws2 +:+ rest)). cbn [accepts].
      assert (Hc : PyStr.is_space c = true).
      { rewrite Hws2 in Hws. clear -Hws. induction p as [| a p IH]; cbn in Hws.
        - now apply andb_true_iff in Hws as [-> _].
        - apply andb_true_iff in Hws as [_ Hws]. now apply IH. }
      now rewrite (blank_is_no_colon c Hc).
Qed.

Lemma all_chars_app (q : ascii -> bool) (s t : string) :
  Shape.all_chars q (s +:+ t) = Shape.all_chars q s && Shape.all_chars q t.
Proof.
  induction s as [| c s IH]; [reflexivity |].
  change (String c s +:+ t) with (String c (s +:+ t)). cbn [Shape.all_chars].
  now rewrite IH, andb_assoc.
Qed.

(** The match at an entry whose role name has a blank after its first
    word: the role group is the first word, and the task group begins
    where the name goes on. *)
Lemma head_entry (digits sp w ws rest : string) :
  digits <> EmptyString ->
  Shape.all_chars PyStr.is_digit digits = true ->
  Shape.all_chars PyStr.is_space sp = true ->
  w <> EmptyString ->
  Shape.all_chars Shape.word_char w = true ->
  ws <> EmptyString ->
  Shape.all_chars PyStr.is_space ws = true ->
  Shape.goes_on rest = true ->
  match_here Planner.worker_pattern
    (digits +:+ String "." (sp +:+ w +:+ ws +:+ rest))
  = run Shape.tasks_part (captures * string) rest [(2, w); (1, digits)]
      (fun s' g' => Some (g', s')).
Proof.
  intros Hdigits Hdigit Hsp Hw Hword Hws Hblank Hrest.
  unfold match_here. rewrite worker_pattern_parts. cbn [run].
  assert (Hrole : forall s3 g0,
             s3 = w +:+ ws +:+ rest ->
             rep_lazy (c_not ":") 1 s3
               (fun s' => run Shape.after_role (captures * string) s'
                            ((2, consumed s3 s') :: g0)
                            (fun s'' g'' => Some (g'', s'')))
             = run Shape.tasks_part (captures * string) rest ((2, w) :: g0)
                 (fun s' g' => Some (g', s'))).
  { intros s3 g0 ->.
    rewrite (rep_lazy_exact (c_not ":") w (ws +:+ rest)).
    - rewrite consumed_append. now apply after_role_at_blanks.
    - apply all_chars_weaken with Shape.word_char; [| exact Hword].
      intros c Hc. unfold Shape.word_char in Hc.
      apply andb_true_iff in Hc as [_ Hc]. exact Hc.
    - rewrite consumed_append, after_role_at_blanks by assumption.
      apply tasks_part_total.
    - destruct w; [contradiction | cbn; lia].
    - intros p1 p2 Hsplit Hne _. apply after_role_fails.
      destruct p2 as [| c p2]; [contradiction |].
      rewrite Hsplit, all_chars_app in Hword.
      apply andb_true_iff in Hword as [_ Hword]. cbn in Hword.
      apply andb_true_iff in Hword as [Hc _]. exact Hc. }
  assert (Hfirst : Shape.stops (accepts c_space) (w +:+ ws +:+ rest) = true).
  { destruct w as [| c w]; [contradiction |].
    change (String c w +:+ ws +:+ rest) with (String c (w +:+ ws +:+ rest)).
    cbn [Shape.stops accepts]. cbn [Shape.all_chars] in Hword.
    apply andb_true_iff in Hword as [Hc _]. unfold Shape.word_char in Hc.
    apply andb_true_iff in Hc as [Hc _]. exact Hc. }
  rewrite (rep_greedy_exact c_digit digits (String "." (sp +:+ w +:+ ws +:+ rest)));
    cbn [accepts Ascii.eqb Bool.eqb]; try reflexivity; try assumption.
  - rewrite (rep_greedy_exact c_space sp (w +:+ ws +:+ rest)); try assumption; try lia.
    + rewrite consumed_append. now apply Hrole.
    + rewrite Hrole by reflexivity. apply tasks_part_total.
  - rewrite (rep_greedy_exact c_space sp (w +:+ ws +:+ rest)); try assumption; try lia.
    + rewrite Hrole by reflexivity. apply tasks_part_total.
    + rewrite Hrole by reflexivity. apply tasks_part_total.
  - destruct digits; [contradiction | cbn; lia].
Qed.

Lemma append_split (a b c d : string) :
  a +:+ b = c +:+ d ->
  (exists e, c = a +:+ e /\ b = e +:+ d) \/ (exists e, a = c +:+ e /\ d = e +:+ b).
Proof.
  revert c. induction a as [| x a IH]; intros c H.
  - left. exists c. auto.
  - destruct c as [| y c].
    + right. exists (String x a). auto.
    + change (String x (a +:+ b) = String y (c +:+ d)) in H. injection H as <- H.
      destruct (IH c H) as [[e [-> ->]] | [e [-> ->]]]; [left | right]; now exists e.
Qed.

(** Where the task group ends: at the end of the text, before a last
    newline, or before a digit. *)
Lemma tasks_part_result (rest : string) (g : captures) (x : captures * string) :
  run Shape.tasks_part (captures * string) rest g (fun s' g' => Some (g', s')) = Some x ->
  exists tasks remaining gf,
    x = (gf, remaining) /\ rest = tasks +:+ remaining /\
    group gf 3 = tasks /\ group gf 2 = group g 2 /\ group gf 1 = group g 1 /\
    (remaining = EmptyString \/ remaining = PyStr.nl \/
     Shape.stops PyStr.is_digit remaining = false).
Proof.
  unfold Shape.tasks_part.
  change (run (Cat ?a ?b) ?R ?s ?g ?k)
    with (run a R s g (fun s' g' => run b R s' g' k)).
  cbn [run]. intros H.
  apply rep_lazy_inv in H as [tasks [remaining [-> [H _]]]].
  rewrite consumed_append in H.
  match type of H with
  | match ?look with _ => _ end = _ => destruct look as [gf |] eqn:Hlook; [| discriminate]
  end.
  injection H as <-. exists tasks, remaining, gf. split; [reflexivity |].
  split; [reflexivity |].
  match type of Hlook with
  | match ?first with _ => _ end = _ => destruct first as [g1 |] eqn:Hfirst
  end.
  - injection Hlook as ->.
    assert (Hgroups := Hfirst). apply rep_greedy_inv in Hfirst as [p [s' [-> [Hk [Hp Hlen]]]]].
    apply (run_inv (Cat (Rep c_digit 1 false)
                   (Cat (Chr (c_lit "."))
                   (Cat (Rep c_space 0 false)
                   (Cat (Rep (c_not ":") 1 false) (Chr (c_lit ":"))))))
             captures (p +:+ s') ((3, tasks) :: g) (fun _ g' => Some g') gf)
      in Hgroups as [s2 [g2 [Hg2 Hsame]]].
    injection Hg2 as ->.
    rewrite !Hsame by reflexivity. cbn [group Nat.eqb].
    repeat split. right. right.
    destruct p as [| c p]; [cbn in Hlen; lia |].
    change (String c p +:+ s') with (String c (p +:+ s')).
    cbn [Shape.stops Shape.all_chars accepts] in Hp |- *.
    apply andb_true_iff in Hp as [Hc _]. now rewrite Hc.
  - destruct (String.eqb remaining EmptyString || String.eqb remaining PyStr.nl)
      eqn:Hend; [| discriminate].
    injection Hlook as <-. cbn [group Nat.eqb]. repeat split.
    apply orb_true_iff in Hend as [Hend | Hend]; apply String.eqb_eq in Hend; auto.
Qed.

(** The task group does not end inside a run without digits that a colon
    follows. *)
Lemma tasks_keep_name (more tail tasks remaining : string) :
  more +:+ String ":" tail = tasks +:+ remaining ->
  Shape.all_chars (fun c => negb (PyStr.is_digit c)) more = true ->
  remaining = EmptyString \/ remaining = PyStr.nl \/
  Shape.stops PyStr.is_digit remaining = false ->
  exists tasks2, tasks = more +:+ tasks2.
Proof.
  intros Hsplit Hmore Hend. symmetry in Hsplit.
  apply append_split in Hsplit as [[e [-> ->]] | [e [-> _]]]; [| now exists e].
  destruct e as [| x e]; [exists EmptyString; now rewrite !append_nil_r |].
  exfalso. rewrite all_chars_app in Hmore.
  apply andb_true_iff in Hmore as [_ Hx]. cbn [Shape.all_chars] in Hx.
  apply andb_true_iff in Hx as [Hx _]. apply negb_true_iff in Hx.
  change (String x e +:+ String ":" tail) with (String x (e +:+ String ":" tail)) in Hend.
  destruct Hend as [Hend | [Hend | Hend]]; [discriminate | |].
  - injection Hend as _ Hend. destruct e; discriminate.
  - cbn [Shape.stops] in Hend. rewrite Hx in Hend. discriminate.
Qed.

Lemma first_word_match (digits sp w ws more tail : string) :
  digits <> EmptyString ->
  Shape.all_chars PyStr.is_digit digits = true ->
  Shape.all_chars PyStr.is_space sp = true ->
  w <> EmptyString ->
  Shape.all_chars Shape.word_char w = true ->
  ws <> EmptyString ->
  Shape.all_chars PyStr.is_space ws = true ->
  Shape.goes_on more = true ->
  Shape.all_chars (fun c => negb (PyStr.is_digit c)) more = true ->
  exists tasks others,
    findall3 Planner.worker_pattern
      (digits +:+ "." +:+ sp +:+ w +:+ ws +:+ more +:+ ":" +:+ tail)
    = (digits, w, more +:+ tasks) :: others.
Proof.
  intros Hdigits Hdigit Hsp Hw Hword Hws Hblank Hmore Hnodigit.
  change (digits +:+ "." +:+ sp +:+ w +:+ ws +:+ more +:+ ":" +:+ tail)
    with (digits +:+ String "." (sp +:+ w +:+ ws +:+ more +:+ String ":" tail)).
  assert (Hrest : Shape.goes_on (more +:+ String ":" tail) = true).
  { destruct more as [| c more]; [discriminate | exact Hmore]. }
  assert (Hmatch := head_entry digits sp w ws (more +:+ String ":" tail)
                      Hdigits Hdigit Hsp Hw Hword Hws Hblank Hrest).
  destruct (run Shape.tasks_part _ _ _ _) as [x |] eqn:Htasks;
    [| now apply tasks_part_total in Htasks].
  apply tasks_part_result in Htasks
    as [tasks [remaining [gf [-> [Hsplit [H3 [H2 [H1 Hend]]]]]]]].
  destruct (tasks_keep_name _ _ _ _ Hsplit Hnodigit Hend) as [tasks2 Htasks2].
  unfold findall3.
  destruct digits as [| d digits]; [contradiction |].
  change (String d digits +:+ ?t) with (String d (digits +:+ t)) in *.
  cbn [scan]. rewrite Hmatch. cbn [map].
  rewrite H1, H2, H3, Htasks2. cbn [group Nat.eqb]. eauto.
Qed.

(** X24. An entry of the workers text whose role name has two or more
    words: a number, a full stop, a first word, blanks, and then the
    rest of the name up to its colon. The pattern takes the first word
    alone as the role; the task group begins right after the blanks, so
    it begins with the rest of the role name (as far as that holds no
    digit) and goes on past the colon. This is the match the planner
    gets for every entry in the format its prompt asks for. *)
Theorem role_is_the_first_word (digits sp w ws more tail : string) :
  digits <> EmptyString ->
  Shape.all_chars PyStr.is_digit digits = true ->
  Shape.all_chars PyStr.is_space sp = true ->
  w <> EmptyString ->
  Shape.all_chars Shape.word_char w = true ->
  ws <> EmptyString ->
  Shape.all_chars PyStr.is_space ws = true ->
  Shape.goes_on more = true ->
  Shape.all_chars (fun c => negb (PyStr.is_digit c)) more = true ->
  exists tasks others,
    findall3 Planner.worker_pattern
      (digits +:+ "." +:+ sp +:+ w +:+ ws +:+ more +:+ ":" +:+ tail)
    = (digits, w, more +:+ tasks) :: others.
Proof. apply first_word_match. Qed.

Lemma role_is_the_first_word_witness :
  exists tasks others,
    findall3 Planner.worker_pattern
      ("1" +:+ "." +:+ " " +:+ "Initial" +:+ " " +:+ "Access Specialist" +:+ ":"
       +:+ " taskA")
    = ("1", "Initial", "Access Specialist" +:+ tasks) :: others.
Proof.
  apply (role_is_the_first_word "1" " " "Initial" " " "Access Specialist" " taskA");
    solve [discriminate | reflexivity].
Defined.


(** ** An entry that names a canonical role *)

Lemma without_char_app (c : ascii) (s t : string) :
  Shape.without_char c (s +:+ t) = Shape.without_char c s +:+ Shape.without_char c t.
Proof.
  induction s as [| a s IH]; [reflexivity |].
  change (String a s +:+ t) with (String a (s +:+ t)). cbn [Shape.without_char].
  destruct (Ascii.eqb a c); [exact IH |]. now rewrite IH.
Qed.

Lemma without_char_absent (c : ascii) (s : string) :
  Shape.all_chars (fun a => negb (Ascii.eqb a c)) s = true ->
  Shape.without_char c s = s.
Proof.
  induction s as [| a s IH]; [reflexivity |]. cbn.
  intros H. apply andb_true_iff in H as [Ha H]. apply negb_true_iff in Ha.
  now rewrite Ha, IH.
Qed.

Lemma lstrip_stop (s : string) :
  Shape.stops PyStr.is_space s = true -> PyStr.lstrip s = s.
Proof.
  destruct s as [| c s]; [reflexivity |]. cbn [Shape.stops PyStr.lstrip].
  intros H. apply negb_true_iff in H. now rewrite H.
Qed.

Lemma rstrip_keeps (p b : string) :
  p <> EmptyString -> PyStr.rstrip p = p ->
  exists b', PyStr.rstrip (p +:+ b) = p +:+ b'.
Proof.
  induction p as [| c p IH]; intros Hne Hp; [contradiction |].
  change (String c p +:+ b) with (String c (p +:+ b)).
  cbn [PyStr.rstrip] in *. destruct p as [| d p].
  - change (EmptyString +:+ b) with b. cbn [PyStr.rstrip] in Hp.
    destruct (PyStr.is_space c); [discriminate |].
    destruct (PyStr.rstrip b) as [| e r]; [now exists EmptyString |].
    now exists (String e r).
  - destruct (PyStr.rstrip (String d p)) as [| e r] eqn:E.
    + destruct (PyStr.is_space c); discriminate.
    + injection Hp as -> ->. destruct (IH ltac:(discriminate) eq_refl) as [b' Hb'].
      exists b'. now rewrite Hb'.
Qed.

(** What the ten canonical role names have in common. *)
Lemma canonical_role_words (R : string) :
  In R Planner.valid_roles ->
  R = Shape.first_word R +:+ " " +:+ Shape.after_first_word R /\
  Shape.first_word R <> EmptyString /\
  Shape.all_chars Shape.word_char (Shape.first_word R) = true /\
  Shape.goes_on (Shape.after_first_word R) = true /\
  Shape.all_chars (fun c => negb (PyStr.is_digit c)) (Shape.after_first_word R) = true /\
  Shape.all_chars (fun c => negb (Ascii.eqb c "*")) (Shape.after_first_word R) = true /\
  PyStr.rstrip (Shape.after_first_word R) = Shape.after_first_word R /\
  result (Planner.resolve_role
            (Planner.remove_asterisks (PyStr.strip (Shape.first_word R)))) = Ok R.
Proof.
  intros H. cbn in H.
  repeat (destruct H as [<- | H];
          [repeat split; solve [discriminate | vm_compute; reflexivity] |]).
  destruct H.
Qed.

Lemma canonical_entry_match (R digits sp tail : string) :
  In R Planner.valid_roles ->
  digits <> EmptyString ->
  Shape.all_chars PyStr.is_digit digits = true ->
  Shape.all_chars PyStr.is_space sp = true ->
  exists tasks others task_text,
    findall3 Planner.worker_pattern (digits +:+ "." +:+ sp +:+ R +:+ ":" +:+ tail)
    = (digits, Shape.first_word R, tasks) :: others /\
    result (Planner.add_worker (digits, Shape.first_word R, tasks))
    = Ok (Planner.worker_def R (Shape.after_first_word R +:+ task_text)).
Proof.
  intros HR Hdigits Hdigit Hsp.
  destruct (canonical_role_words R HR)
    as [Hwords [Hfirst [Hword [Hgoes [Hnodigit [Hnostar [Hend Hresolve]]]]]]].
  set (first := Shape.first_word R) in *. set (more := Shape.after_first_word R) in *.
  destruct (first_word_match digits sp first " " more tail)
    as [tasks [others Hmatch]]; try assumption; try reflexivity; try discriminate.
  assert (Htext : digits +:+ "." +:+ sp +:+ R +:+ ":" +:+ tail
                  = digits +:+ "." +:+ sp +:+ first +:+ " " +:+ more +:+ ":" +:+ tail).
  { rewrite Hwords at 1. now rewrite !append_assoc. }
  rewrite Htext, Hmatch. clear Htext Hmatch.
  assert (Hstop : Shape.stops PyStr.is_space (more +:+ tasks) = true).
  { destruct more as [| c more]; [discriminate |].
    change (String c more +:+ tasks) with (String c (more +:+ tasks)).
    cbn [Shape.stops Shape.goes_on] in *.
    apply andb_true_iff in Hgoes as [Hc _]. exact Hc. }
  destruct (rstrip_keeps more tasks) as [kept Hkept];
    [destruct more; [discriminate | discriminate] | exact Hend |].
  exists (more +:+ tasks), others, (Shape.without_char "*" kept).
  split; [reflexivity |].
  unfold Planner.add_worker. rewrite (result_bind_ok _ _ _ Hresolve), result_print_then.
  cbn [result ret fst]. do 2 f_equal.
  unfold PyStr.strip. rewrite (lstrip_stop _ Hstop), Hkept.
  rewrite remove_asterisks_spec, without_char_app.
  now rewrite (without_char_absent _ _ Hnostar).
Qed.

(** X25. An entry that names a canonical role as the prompt asks for it
    (number, full stop, the role name, a colon, the tasks): for each of
    the ten role names the pattern takes the first word of the name as
    the role, the containment search gives back the whole canonical name,
    and the assignment's task text begins with the rest of the role name:
    the assignment has the right role and a task text that carries the
    tail of the role name in front of the tasks. *)
Theorem canonical_entry_keeps_role_and_leaks_name (R digits sp tail : string) :
  In R Planner.valid_roles ->
  digits <> EmptyString ->
  Shape.all_chars PyStr.is_digit digits = true ->
  Shape.all_chars PyStr.is_space sp = true ->
  exists tasks others task_text,
    findall3 Planner.worker_pattern (digits +:+ "." +:+ sp +:+ R +:+ ":" +:+ tail)
    = (digits, Shape.first_word R, tasks) :: others /\
    result (Planner.add_worker (digits, Shape.first_word R, tasks))
    = Ok (Planner.worker_def R (Shape.after_first_word R +:+ task_text)).
Proof. apply canonical_entry_match. Qed.

Lemma canonical_entry_keeps_role_and_leaks_name_witness :
  exists tasks others task_text,
    findall3 Planner.worker_pattern
      ("2" +:+ "." +:+ " " +:+ "Execution Specialist" +:+ ":" +:+ " taskB")
    = ("2", Shape.first_word "Execution Specialist", tasks) :: others /\
    result (Planner.add_worker ("2", Shape.first_word "Execution Specialist", tasks))
    = Ok (Planner.worker_def "Execution Specialist"
            (Shape.after_first_word "Execution Specialist" +:+ task_text)).
Proof.
  apply (canonical_entry_keeps_role_and_leaks_name "Execution Specialist" "2" " "
           " taskB");
    solve [discriminate | reflexivity | cbn; tauto].
Defined.
